(** * Travel Offer Resolver: a shallow embedding of [flight_hotel_finder.py]

    The class [FlightHotelFinderAgent] is embedded as functions over an
    explicit world state: the two cached token fields of the instance, the log
    of network requests issued so far, and read positions into the three
    external sources the code consults (the upstream service, the wall clock
    and the [random] module).  Python exceptions are values of [exn], and a
    [try ... except] block is [try_catch].

    Python floats are IEEE binary64 numbers, modelled with [spec_float] at
    precision 53.  Python strings are modelled by [string], one character
    per code point, so they range over the code points below 256; the result
    of [str.title], which can leave that range, is the list of its code
    points.

    The itinerary summary of [chat_assistant.py] and the weather agent of
    [weather_agent.py] follow, with the same conventions; what the weather
    agent reads from outside is a parameter of its functions. *)

From Stdlib Require Import ZArith List String Ascii Bool Lia.
From Stdlib Require Import DecimalString SpecFloat.
Import ListNotations.

Open Scope string_scope.
Open Scope Z_scope.

(** ** Exceptions and results *)

Inductive exn : Type :=
| KeyError
| IndexError
| TypeError
| ValueError
| AttributeError
| ZeroDivisionError
| OverflowError
| RequestException.

Inductive res (A : Type) : Type :=
| Ok (a : A)
| Raise (e : exn).

Arguments Ok {A} a.
Arguments Raise {A} e.

Definition res_bind {A B : Type} (r : res A) (k : A -> res B) : res B :=
  match r with
  | Ok a => k a
  | Raise e => Raise e
  end.

Fixpoint res_map_list {A B : Type} (f : A -> res B) (l : list A) : res (list B) :=
  match l with
  | [] => Ok []
  | x :: rest =>
      res_bind (f x) (fun y =>
      res_bind (res_map_list f rest) (fun ys => Ok (y :: ys)))
  end.

(** ** Python floats (binary64) *)

Module PyFloat.

Definition prec : Z := 53.
Definition emax : Z := 1024.

Definition pyfloat : Type := spec_float.

(** The double nearest to an integer (ties to even). *)
Definition of_Z (z : Z) : pyfloat := binary_normalize prec emax z 0 false.

(** The double nearest to [m * 10^e], as [strtod] computes it. *)
Definition of_decimal (neg : bool) (m : N) (e : Z) : pyfloat :=
  match m with
  | N0 => S754_zero neg
  | Npos p =>
      match e with
      | Z0 => binary_round prec emax neg p 0
      | Zpos k => binary_round prec emax neg (p * Pos.pow 10 k)%positive 0
      | Zneg k =>
          let '(mz, ez, lz) :=
            SFdiv_core_binary prec emax (Zpos p) 0 (Zpos (Pos.pow 10 k)) 0 in
          binary_round_aux prec emax neg mz ez lz
      end
  end.

(** [float(n)] for a Python int. *)
Definition of_int (z : Z) : res pyfloat :=
  match of_Z z with
  | S754_infinity _ => Raise OverflowError
  | f => Ok f
  end.

(** The exact value of a finite double, as a fraction [n / d]. *)
Definition exact (s : bool) (m : positive) (e : Z) : Z * positive :=
  let n := if s then Zneg m else Zpos m in
  match e with
  | Z0 => (n, 1%positive)
  | Zpos k => (n * Zpos (Pos.pow 2 k), 1%positive)
  | Zneg k => (n, Pos.pow 2 k)
  end.

(** The integer nearest to [n / d], ties to the even integer. *)
Definition round_half_even (n : Z) (d : positive) : Z :=
  let q := n / Zpos d in
  let r := n mod Zpos d in
  match 2 * r ?= Zpos d with
  | Lt => q
  | Gt => q + 1
  | Eq => if Z.even q then q else q + 1
  end.

(** [round(x)]: a Python int. *)
Definition round0 (f : pyfloat) : res Z :=
  match f with
  | S754_zero _ => Ok 0
  | S754_finite s m e => let '(n, d) := exact s m e in Ok (round_half_even n d)
  | S754_infinity _ => Raise OverflowError
  | S754_nan => Raise ValueError
  end.

(** [round(x, 1)]: the double nearest to the decimal with one fractional
    digit that is nearest to the exact value of [x] (ties to even). *)
Definition round1 (f : pyfloat) : pyfloat :=
  match f with
  | S754_finite s m e =>
      let '(n, d) := exact s m e in
      of_decimal s (Z.abs_N (round_half_even (10 * n) d)) (-1)
  | _ => f
  end.

(** [x / n] for a float [x] and an int [n]. *)
Definition div_int (x : pyfloat) (n : Z) : res pyfloat :=
  res_bind (of_int n) (fun y =>
  match y with
  | S754_zero _ => Raise ZeroDivisionError
  | _ => Ok (SFdiv prec emax x y)
  end).

(** [x - n] for a float [x] and an int [n]. *)
Definition sub_int (x : pyfloat) (n : Z) : res pyfloat :=
  res_bind (of_int n) (fun y => Ok (SFsub prec emax x y)).

Definition leb (x y : pyfloat) : bool := SFleb x y.

(** Truth value of a float: false exactly for the two zeros. *)
Definition truthy (f : pyfloat) : bool :=
  match f with
  | S754_zero _ => false
  | _ => true
  end.

End PyFloat.

Import PyFloat.

(** ** Python strings *)

Module PyStr.

(** A character of a [string] is a code point below 256. *)
Definition code (c : ascii) : nat := nat_of_ascii c.

Definition between (lo hi : nat) (c : ascii) : bool :=
  (lo <=? code c)%nat && (code c <=? hi)%nat.

(** The capital letters: [A]-[Z], U+00C0-U+00D6 and U+00D8-U+00DE. *)
Definition is_upper (c : ascii) : bool :=
  between 65 90 c || between 192 214 c || between 216 222 c.

(** The small letters whose capital is a code point below 256: [a]-[z],
    U+00E0-U+00F6 and U+00F8-U+00FE. *)
Definition is_lower (c : ascii) : bool :=
  between 97 122 c || between 224 246 c || between 248 254 c.

(** The cased characters: the letters above, the small letters whose
    capital lies elsewhere (the micro sign U+00B5, the sharp s U+00DF, the y
    with diaeresis U+00FF) and the ordinal indicators U+00AA and U+00BA. *)
Definition is_cased (c : ascii) : bool :=
  is_upper c || is_lower c ||
  (code c =? 181)%nat || (code c =? 223)%nat || (code c =? 255)%nat ||
  (code c =? 170)%nat || (code c =? 186)%nat.

Definition is_digit (c : ascii) : bool := between 48 57 c.

(** The whitespace [float] skips at both ends: tab, newline, vertical tab,
    form feed, carriage return, space, and among the code points above 127
    the next line U+0085 and the no-break space U+00A0. *)
Definition is_space (c : ascii) : bool :=
  between 9 13 c || (code c =? 32)%nat || (code c =? 133)%nat || (code c =? 160)%nat.

Definition to_upper (c : ascii) : ascii :=
  if is_lower c then ascii_of_nat (code c - 32) else c.
Definition to_lower (c : ascii) : ascii :=
  if is_upper c then ascii_of_nat (code c + 32) else c.

(** A [str] as the list of its code points, for the result of an operation
    that may leave the code points below 256. *)
Definition unicode : Type := list N.

Definition points (s : string) : unicode := map N_of_ascii (list_ascii_of_string s).

Fixpoint lower (s : string) : string :=
  match s with
  | EmptyString => EmptyString
  | String c rest => String (to_lower c) (lower rest)
  end.

(** [s[:n]] *)
Definition take (n : nat) (s : string) : string := substring 0 n s.

(** [s.replace(old, new)] for a non-empty [old]: occurrences are replaced
    left to right without overlap; [skip] counts the characters of the
    occurrence just replaced that are still to be passed over. *)
Fixpoint replace_from (old new : string) (skip : nat) (s : string) : string :=
  match s with
  | EmptyString => EmptyString
  | String c rest =>
      match skip with
      | S k => replace_from old new k rest
      | O =>
          if prefix old s
          then (new ++ replace_from old new (String.length old - 1) rest)%string
          else String c (replace_from old new O rest)
      end
  end.

Definition replace (old new s : string) : string := replace_from old new O s.

(** [s.split(sep)] for a one-character separator. *)
Fixpoint split (sep : ascii) (s : string) : list string :=
  match s with
  | EmptyString => [EmptyString]
  | String c rest =>
      if Ascii.eqb c sep then EmptyString :: split sep rest
      else match split sep rest with
           | h :: t => String c h :: t
           | [] => [String c EmptyString]
           end
  end.

(** The title case of one character: its capital, which for three small
    letters is not a code point below 256, U+039C for the micro sign, the
    two letters [Ss] for the sharp s and U+0178 for the y with diaeresis. *)
Definition to_title (c : ascii) : unicode :=
  if (code c =? 181)%nat then [924%N]
  else if (code c =? 223)%nat then [83%N; 115%N]
  else if (code c =? 255)%nat then [376%N]
  else [N_of_ascii (to_upper c)].

(** [s.title()]: a character that follows a cased one is lowered, any other
    gets its title case. *)
Fixpoint title_from (prev_cased : bool) (s : string) : unicode :=
  match s with
  | EmptyString => []
  | String c rest =>
      ((if prev_cased then [N_of_ascii (to_lower c)] else to_title c) ++
       title_from (is_cased c) rest)%list
  end.

Definition title (s : string) : unicode := title_from false s.

(** [s.lstrip()], [s.rstrip()] and [s.strip()] over the whitespace of
    [is_space]. *)
Fixpoint lstrip (s : string) : string :=
  match s with
  | String c rest => if is_space c then lstrip rest else s
  | EmptyString => EmptyString
  end.

Fixpoint rstrip (s : string) : string :=
  match s with
  | EmptyString => EmptyString
  | String c rest =>
      match rstrip rest with
      | EmptyString => if is_space c then EmptyString else String c EmptyString
      | r => String c r
      end
  end.

Definition strip (s : string) : string := rstrip (lstrip s).

(** [str(n)] and the format [{n:02d}] for a Python int. *)
Definition of_int (z : Z) : string := NilZero.string_of_int (Z.to_int z).

Definition of_int_02d (z : Z) : string :=
  let s := of_int z in
  if (String.length s <? 2)%nat then ("0" ++ s)%string else s.

(** *** The argument grammar of [float(s)] *)

(** Underscores may only stand between two digits; they are dropped. *)
Fixpoint drop_underscores (prev : ascii) (s : string) : option string :=
  match s with
  | EmptyString => if Ascii.eqb prev "_" then None else Some EmptyString
  | String c rest =>
      if Ascii.eqb c "_"
      then if is_digit prev then drop_underscores c rest else None
      else if Ascii.eqb prev "_" && negb (is_digit c) then None
           else option_map (String c) (drop_underscores c rest)
  end.

(** The leading run of digits of [s], as a number, its length and the rest. *)
Fixpoint digits_from (acc : N) (len : nat) (s : string) : N * nat * string :=
  match s with
  | String c rest =>
      if is_digit c
      then digits_from (10 * acc + N.of_nat (code c - 48))%N (S len) rest
      else (acc, len, s)
  | EmptyString => (acc, len, s)
  end.

Definition digits (s : string) : N * nat * string := digits_from 0%N O s.

Definition sign_of (s : string) : bool * string :=
  match s with
  | String "-" rest => (true, rest)
  | String "+" rest => (false, rest)
  | _ => (false, s)
  end.

(** The exponent part: empty, or [e] or [E], an optional sign, and at least
    one digit, up to the end of the string. *)
Definition exponent (s : string) : option Z :=
  match s with
  | EmptyString => Some 0
  | String c rest =>
      if Ascii.eqb (to_lower c) "e"
      then let '(neg, r) := sign_of rest in
           match digits r with
           | (_, O, _) => None
           | (n, _, EmptyString) => Some (if neg then - Z.of_N n else Z.of_N n)
           | _ => None
           end
      else None
  end.

(** A decimal literal [ddd], [ddd.ddd], [.ddd] or [ddd.] with an optional
    exponent: its mantissa and decimal exponent. *)
Definition decimal (s : string) : option (N * Z) :=
  let '(ip, ilen, r) := digits s in
  let '(m, flen, r') :=
    match r with
    | String "." frac => digits_from ip O frac
    | _ => (ip, O, r)
    end in
  match (ilen + flen)%nat with
  | O => None
  | _ => option_map (fun e => (m, e - Z.of_nat flen)) (exponent r')
  end.

(** [float(s)] for a string: [None] when Python raises [ValueError]. *)
Definition to_float (s : string) : option pyfloat :=
  match drop_underscores "000" (strip s) with
  | None => None
  | Some t =>
      let '(neg, body) := sign_of t in
      let word := lower body in
      if String.eqb word "inf" || String.eqb word "infinity"
      then Some (S754_infinity neg)
      else if String.eqb word "nan" then Some S754_nan
      else option_map (fun me => of_decimal neg (fst me) (snd me)) (decimal body)
  end.

End PyStr.

(** ** Decoded JSON values

    What [response.json()] returns: [None], [bool], [int], [float], [str],
    [list], or a [dict] with string keys (kept in insertion order; a key is
    looked up at its first binding). *)

#[warnings="-register-all"]
Inductive json : Type :=
| JNull
| JBool (b : bool)
| JInt (z : Z)
| JFloat (f : pyfloat)
| JStr (s : string)
| JArr (items : list json)
| JObj (fields : list (string * json)).

Fixpoint lookup {A : Type} (k : string) (l : list (string * A)) : option A :=
  match l with
  | [] => None
  | (k', v) :: rest => if String.eqb k k' then Some v else lookup k rest
  end.

(** Truth value, as tested by [if v] and [not v]. *)
Definition truthy (v : json) : bool :=
  match v with
  | JNull => false
  | JBool b => b
  | JInt z => negb (z =? 0)
  | JFloat f => PyFloat.truthy f
  | JStr s => negb (String.eqb s "")
  | JArr l => match l with [] => false | _ => true end
  | JObj l => match l with [] => false | _ => true end
  end.

(** [v[k]] for a string key. *)
Definition get_item (v : json) (k : string) : res json :=
  match v with
  | JObj l => match lookup k l with Some x => Ok x | None => Raise KeyError end
  | _ => Raise TypeError
  end.

(** [v[0]] *)
Definition get_first (v : json) : res json :=
  match v with
  | JArr l => match l with x :: _ => Ok x | [] => Raise IndexError end
  | JStr s => match s with String c _ => Ok (JStr (String c "")) | "" => Raise IndexError end
  | JObj _ => Raise KeyError
  | _ => Raise TypeError
  end.

(** [v.get(k, default)] *)
Definition dict_get (v : json) (k : string) (default : json) : res json :=
  match v with
  | JObj l => Ok (match lookup k l with Some x => x | None => default end)
  | _ => Raise AttributeError
  end.

(** [v[:n]].  Slicing a [dict] is an error ([TypeError] up to Python 3.11,
    [KeyError] from 3.12 on; both reach the same handlers here). *)
Definition slice_to (n : nat) (v : json) : res json :=
  match v with
  | JArr l => Ok (JArr (firstn n l))
  | JStr s => Ok (JStr (PyStr.take n s))
  | _ => Raise TypeError
  end.

(** [len(v)] *)
Definition py_len (v : json) : res Z :=
  match v with
  | JArr l => Ok (Z.of_nat (List.length l))
  | JStr s => Ok (Z.of_nat (String.length s))
  | JObj l => Ok (Z.of_nat (List.length l))
  | _ => Raise TypeError
  end.

Fixpoint chars (s : string) : list json :=
  match s with
  | EmptyString => []
  | String c rest => JStr (String c "") :: chars rest
  end.

(** The items a [for] loop over [v] visits. *)
Definition iterate (v : json) : res (list json) :=
  match v with
  | JArr l => Ok l
  | JStr s => Ok (chars s)
  | JObj l => Ok (map (fun kv => JStr (fst kv)) l)
  | _ => Raise TypeError
  end.

(** The receiver of a [str] method: anything else has no such attribute. *)
Definition as_str (v : json) : res string :=
  match v with
  | JStr s => Ok s
  | _ => Raise AttributeError
  end.

(** [float(v)] *)
Definition py_float (v : json) : res pyfloat :=
  match v with
  | JStr s => match PyStr.to_float s with Some f => Ok f | None => Raise ValueError end
  | JInt z => PyFloat.of_int z
  | JBool b => Ok (PyFloat.of_Z (Z.b2z b))
  | JFloat f => Ok f
  | _ => Raise TypeError
  end.

(** [not v or len(v) == 0], the emptiness test of lines 239 and 265. *)
Definition is_empty (v : json) : res bool :=
  if truthy v then res_bind (py_len v) (fun n => Ok (n =? 0)) else Ok true.

(** The text an f-string field [{v}] renders, [str(v)]: the string itself
    for a [str]; for any other value the rendering is left as [StrOf v]. *)
Inductive text : Type :=
| Str (s : string)
| StrOf (v : json).

Definition py_str (v : json) : text :=
  match v with
  | JStr s => Str s
  | _ => StrOf v
  end.

(** ** Offer records (the dicts built at lines 180, 296, 337 and 376) *)

Record flight : Type := Flight {
  airline : json;
  departure_time : string;
  arrival_time : string;
  duration : string;
  stops : Z;
  flight_price : Z
}.

Record hotel : Type := Hotel {
  name : json;
  location : text;
  rating : pyfloat;
  price : Z;
  total_price : Z;
  amenities : list PyStr.unicode
}.

(** ** Time: [datetime] and [timedelta] in microseconds

    A [datetime] is its distance from [datetime.min]; the largest one is
    9999-12-31 23:59:59.999999.  A [timedelta] holds at most 999999999 days
    in either direction. *)

Definition us_per_second : Z := 1000000.
Definition us_per_day : Z := 86400 * us_per_second.
Definition datetime_end : Z := 3652059 * us_per_day.

Definition timedelta_of_us (us : Z) : res Z :=
  if (-999999999 <=? us / us_per_day) && (us / us_per_day <=? 999999999)
  then Ok us else Raise OverflowError.

(** [timedelta(seconds=x)] for a float [x]: the whole seconds are scaled
    exactly, the fractional part is multiplied by [1e6] as a double, and the
    sum is rounded to a whole microsecond, ties to even. *)
Definition timedelta_of_float (x : pyfloat) : res Z :=
  match x with
  | S754_nan => Raise ValueError
  | S754_infinity _ => Raise OverflowError
  | S754_zero _ => Ok 0
  | S754_finite s m e =>
      let n := if s then Zneg m else Zpos m in
      match e with
      | Zneg k =>
          let whole := Z.quot n (Zpos (Pos.pow 2 k)) in
          let part := Z.rem n (Zpos (Pos.pow 2 k)) in
          match SFmul prec emax (PyFloat.of_Z us_per_second)
                      (binary_normalize prec emax part e s) with
          | S754_finite s' m' e' =>
              let '(n', d') := PyFloat.exact s' m' e' in
              timedelta_of_us
                (PyFloat.round_half_even (whole * us_per_second * Zpos d' + n') d')
          | _ => timedelta_of_us (whole * us_per_second)
          end
      | _ => timedelta_of_us (fst (PyFloat.exact s m e) * us_per_second)
      end
  end.

Definition datetime_add (t delta : Z) : res Z :=
  if (0 <=? t + delta) && (t + delta <? datetime_end)
  then Ok (t + delta) else Raise OverflowError.

(** A Python number: the result of [expires_in - 60]. *)
Inductive number : Type :=
| NInt (z : Z)
| NFloat (f : pyfloat).

(** [v - n] for an int [n]. *)
Definition py_sub (v : json) (n : Z) : res number :=
  match v with
  | JInt z => Ok (NInt (z - n))
  | JBool b => Ok (NInt (Z.b2z b - n))
  | JFloat f => res_bind (PyFloat.sub_int f n) (fun g => Ok (NFloat g))
  | _ => Raise TypeError
  end.

(** [timedelta(seconds=x)] *)
Definition timedelta_seconds (x : number) : res Z :=
  match x with
  | NInt z => timedelta_of_us (z * us_per_second)
  | NFloat f => timedelta_of_float f
  end.

(** ** The world outside the instance *)

(** A network request, logged when it is issued. *)
Inductive request : Type :=
| TokenRequest
| CityRequest (keyword : string)
| FlightOffersRequest (destination_code : json) (departure_date return_date adults : Z)
| HotelListRequest (city_code : json)
| HotelOffersRequest (hotel_id : json) (adults check_in_date check_out_date : Z).

(** The sources the code reads, each indexed by how many reads came before:
    - [upstream n]: what the [n]-th request yields once [requests.get/post],
      [raise_for_status] and [json] have run, a decoded body or the exception
      one of them raised;
    - [clock n]: the [n]-th value of [datetime.now()];
    - [rand_bits n]: the raw bits of the [n]-th draw from [random]. *)
Record env : Type := Env {
  upstream : nat -> res json;
  clock : nat -> Z;
  rand_bits : nat -> N
}.

(** The instance fields [access_token] and [token_expiry], the requests
    issued so far, and the clock and random read positions. *)
Record world : Type := World {
  access_token : json;
  token_expiry : option Z;
  requests : list request;
  clock_reads : nat;
  rng_reads : nat
}.

(** The world once request [r] has been issued. *)
Definition log_request (r : request) (w : world) : world :=
  World (access_token w) (token_expiry w) (requests w ++ [r])
        (clock_reads w) (rng_reads w).

(** [FlightHotelFinderAgent.__init__]: both fields start as [None]. *)
Definition init : world := World JNull None [] O O.

Definition M (A : Type) : Type := world -> res A * world.

Definition ret {A : Type} (a : A) : M A := fun w => (Ok a, w).

Definition bind {A B : Type} (m : M A) (k : A -> M B) : M B :=
  fun w => match m w with
           | (Ok a, w') => k a w'
           | (Raise e, w') => (Raise e, w')
           end.

Definition lift {A : Type} (r : res A) : M A := fun w => (r, w).

(** [try: m  except Exception as e: h e] *)
Definition try_catch {A : Type} (m : M A) (h : exn -> M A) : M A :=
  fun w => match m w with
           | (Ok a, w') => (Ok a, w')
           | (Raise e, w') => h e w'
           end.

Notation "x <- m ;; k" := (bind m (fun x => k))
  (at level 61, m at next level, right associativity).

Definition get_world : M world := fun w => (Ok w, w).

Definition set_access_token (v : json) : M unit :=
  fun w => (Ok tt, World v (token_expiry w) (requests w) (clock_reads w) (rng_reads w)).

Definition set_token_expiry (t : Z) : M unit :=
  fun w => (Ok tt, World (access_token w) (Some t) (requests w) (clock_reads w) (rng_reads w)).

(** ** Random floats *)

(** [k * 2**-53] for an int [0 <= k < 2**53]: exact in binary64. *)
Definition unit_float (k : Z) : pyfloat := binary_normalize prec emax k (-53) false.

(** [a + (b - a) * r] in binary64. *)
Definition uniform_value (a b r : pyfloat) : pyfloat :=
  SFadd prec emax a (SFmul prec emax (SFsub prec emax b a) r).

(** A shift record that has lost a set bit. *)
Definition inexact (mrs : shr_record) : bool := shr_r mrs || shr_s mrs.

(** ** The class [FlightHotelFinderAgent] *)

Section Resolver.

Variable E : env.

(** [datetime.now()] *)
Definition datetime_now : M Z :=
  fun w => (Ok (clock E (clock_reads w)),
            World (access_token w) (token_expiry w) (requests w)
                  (S (clock_reads w)) (rng_reads w)).

(** [requests.post/get(...)], [raise_for_status()] and [json()]. *)
Definition http (r : request) : M json :=
  fun w => (upstream E (List.length (requests w)), log_request r w).

(** [random._randbelow(n)] *)
Definition randbelow (n : Z) : M Z :=
  fun w => (Ok (Z.of_N (rand_bits E (rng_reads w)) mod n),
            World (access_token w) (token_expiry w) (requests w)
                  (clock_reads w) (S (rng_reads w))).

(** [random.randint(a, b)] *)
Definition randint (a b : Z) : M Z :=
  k <- randbelow (b - a + 1) ;; ret (a + k).

(** [random.choice(seq)] *)
Definition choice {A : Type} (seq : list A) (d : A) : M A :=
  k <- randbelow (Z.of_nat (List.length seq)) ;; ret (nth (Z.to_nat k) seq d).

(** [random.random()]: 53 bits [k] of the draw, as the double [k * 2**-53]. *)
Definition random : M pyfloat :=
  fun w => (Ok (unit_float (Z.of_N (rand_bits E (rng_reads w)) mod 9007199254740992)),
            World (access_token w) (token_expiry w) (requests w)
                  (clock_reads w) (S (rng_reads w))).

(** [random.uniform(a, b)]: [a + (b - a) * self.random()] *)
Definition uniform (a b : pyfloat) : M pyfloat :=
  r <- random ;; ret (uniform_value a b r).

(** The cache test of line 33. *)
Definition token_valid (w : world) (now : Z) : bool :=
  truthy (access_token w) &&
  match token_expiry w with
  | Some expiry => now <? expiry
  | None => false
  end.

(** Lines 28-58. *)
Definition _get_amadeus_token : M json :=
  now <- datetime_now ;;
  self <- get_world ;;
  if token_valid self now then ret (access_token self)
  else
    try_catch
      (token_data <- http TokenRequest ;;
       tok <- lift (get_item token_data "access_token") ;;
       _ <- set_access_token tok ;;
       expires_in <- lift (get_item token_data "expires_in") ;;
       secs <- lift (py_sub expires_in 60) ;;
       delta <- lift (timedelta_seconds secs) ;;
       expiry <- lift (datetime_add now delta) ;;
       _ <- set_token_expiry expiry ;;
       self' <- get_world ;;
       ret (access_token self'))
      (fun _ => ret JNull).

(** Lines 86-111. *)
Definition _get_iata_code (city_name : string) : M json :=
  token <- _get_amadeus_token ;;
  if negb (truthy token) then ret JNull
  else
    try_catch
      (data <- http (CityRequest city_name) ;;
       found <- lift (dict_get data "data" JNull) ;;
       empty <- lift (if truthy found
                      then res_bind (py_len found) (fun n => Ok (negb (0 <? n)))
                      else Ok true) ;;
       if empty then ret JNull
       else
         first <- lift (get_first found) ;;
         lift (get_item first "iataCode"))
      (fun _ => ret JNull).

(** *** Synthetic offers *)

Definition mock_airlines : list string :=
  ["Delta"; "United"; "American"; "Southwest"; "JetBlue"].

(** One pass of the loop at lines 328-345. *)
Definition mock_flight (num_travelers : Z) : M flight :=
  airline <- choice mock_airlines "" ;;
  dep_hour <- randint 6 22 ;;
  duration_hours <- randint 2 8 ;;
  stops <- randint 0 2 ;;
  base <- randint 300 800 ;;
  minutes <- randint 0 59 ;;
  ret (Flight (JStr airline)
              (PyStr.of_int_02d dep_hour ++ ":00")%string
              (PyStr.of_int_02d ((dep_hour + duration_hours) mod 24) ++ ":00")%string
              (PyStr.of_int duration_hours ++ "h " ++ PyStr.of_int minutes ++ "m")%string
              stops
              (base * num_travelers)).

Fixpoint repeat_append {A : Type} (n : nat) (m : M A) (acc : list A) : M (list A) :=
  match n with
  | O => ret acc
  | S k => x <- m ;; repeat_append k m (acc ++ [x])
  end.

(** Lines 321-347. *)
Definition _get_mock_flight_options
    (destination : string) (departure_date return_date num_travelers : Z)
    : M (list flight) :=
  repeat_append 3 (mock_flight num_travelers) [].

Definition hotel_names (destination : string) : list string :=
  [(destination ++ " Grand Hotel")%string;
   (destination ++ " Plaza")%string;
   ("The " ++ destination ++ " Inn")%string;
   ("Luxury Suites " ++ destination)%string].

Definition amenities_options : list (list PyStr.unicode) :=
  map (map PyStr.points)
    [["Wi-Fi"; "Pool"; "Gym"; "Restaurant"; "Bar"];
     ["Wi-Fi"; "Breakfast"; "Parking"; "Room Service"];
     ["Wi-Fi"; "Spa"; "Restaurant"; "Conference Room"];
     ["Wi-Fi"; "Pool"; "Breakfast"; "Airport Shuttle"]].

(** One pass of the loop at lines 369-384. *)
Definition mock_hotel (destination : string) (check_in_date check_out_date : Z)
    : M hotel :=
  name <- choice (hotel_names destination) "" ;;
  u <- uniform (PyFloat.of_Z 3) (PyFloat.of_Z 5) ;;
  price_per_night <- randint 80 300 ;;
  amenities <- choice amenities_options [] ;;
  ret (Hotel (JStr name)
             (Str ("Downtown " ++ destination))
             (PyFloat.round1 u)
             price_per_night
             (price_per_night * (check_out_date - check_in_date))
             amenities).

(** Lines 349-386. *)
Definition _get_mock_hotel_options
    (destination : string) (check_in_date check_out_date num_travelers : Z)
    : M (list hotel) :=
  repeat_append 3 (mock_hotel destination check_in_date check_out_date) [].

(** *** Flights *)

Definition airlines : list (string * string) :=
  [("AA", "American Airlines"); ("UA", "United Airlines");
   ("DL", "Delta Airlines"); ("LH", "Lufthansa"); ("BA", "British Airways");
   ("AF", "Air France"); ("EK", "Emirates"); ("QR", "Qatar Airways")].

(** [airlines.get(carrier_code, carrier_code)]: a list or dict is not
    hashable. *)
Definition airlines_get (carrier_code : json) : res json :=
  match carrier_code with
  | JArr _ | JObj _ => Raise TypeError
  | JStr s => Ok (match lookup s airlines with
                  | Some full => JStr full
                  | None => carrier_code
                  end)
  | _ => Ok carrier_code
  end.

(** [at.split("T")[1][:5]] *)
Definition clock_time (at_ : json) : res string :=
  res_bind (as_str at_) (fun s =>
  match PyStr.split "T" s with
  | _ :: t :: _ => Ok (PyStr.take 5 t)
  | _ => Raise IndexError
  end).

(** The body of the inner [try], lines 154-188. *)
Definition parse_flight_offer (offer : json) : res flight :=
  res_bind (get_item offer "price") (fun price_obj =>
  res_bind (get_item price_obj "total") (fun total =>
  res_bind (py_float total) (fun price =>
  res_bind (get_item offer "itineraries") (fun itineraries =>
  res_bind (get_first itineraries) (fun itinerary =>
  res_bind (get_item itinerary "segments") (fun segments =>
  res_bind (get_first segments) (fun outbound =>
  res_bind (get_item outbound "carrierCode") (fun carrier_code =>
  res_bind (get_item outbound "departure") (fun departure =>
  res_bind (get_item departure "at") (fun departure_at =>
  res_bind (clock_time departure_at) (fun departure_time =>
  res_bind (get_item outbound "arrival") (fun arrival =>
  res_bind (get_item arrival "at") (fun arrival_at =>
  res_bind (clock_time arrival_at) (fun arrival_time =>
  res_bind (get_item outbound "duration") (fun duration =>
  res_bind (as_str duration) (fun duration_str =>
  let duration_parts :=
    PyStr.replace "M" "m" (PyStr.replace "H" "h " (PyStr.replace "PT" "" duration_str)) in
  res_bind (py_len segments) (fun n =>
  res_bind (airlines_get carrier_code) (fun airline =>
  res_bind (PyFloat.round0 price) (fun rounded =>
  Ok (Flight airline departure_time arrival_time duration_parts (n - 1) rounded)
  ))))))))))))))))))).

(** The loop of lines 152-191: [KeyError] and [IndexError] skip the offer,
    any other exception leaves the loop. *)
Fixpoint flight_loop (offers : list json) (flight_options : list flight)
    : res (list flight) :=
  match offers with
  | [] => Ok flight_options
  | offer :: rest =>
      match parse_flight_offer offer with
      | Ok f => flight_loop rest (flight_options ++ [f])
      | Raise KeyError | Raise IndexError => flight_loop rest flight_options
      | Raise e => Raise e
      end
  end.

(** Lines 113-201. *)
Definition get_flight_options
    (destination : string) (departure_date return_date num_travelers : Z)
    : M (list flight) :=
  let fallback :=
    _get_mock_flight_options destination departure_date return_date num_travelers in
  token <- _get_amadeus_token ;;
  if negb (truthy token) then fallback
  else
    destination_code <- _get_iata_code destination ;;
    if negb (truthy destination_code) then fallback
    else
      try_catch
        (data <- http (FlightOffersRequest destination_code departure_date
                                           return_date num_travelers) ;;
         found <- lift (dict_get data "data" (JArr [])) ;;
         first3 <- lift (slice_to 3 found) ;;
         offers <- lift (iterate first3) ;;
         flight_options <- lift (flight_loop offers []) ;;
         match flight_options with
         | [] => fallback
         | _ => ret flight_options
         end)
        (fun _ => fallback).

(** *** Hotels *)

Definition rating_map : list (string * pyfloat) :=
  [("ECONOMY", PyFloat.of_Z 2); ("STANDARD", PyFloat.of_Z 3);
   ("SUPERIOR", PyFloat.of_Z 4); ("DELUXE", PyFloat.of_Z 5)].

(** [rating_map.get(rating_raw, 3.0)]: a list or dict is not hashable. *)
Definition rating_map_get (rating_raw : json) : res pyfloat :=
  match rating_raw with
  | JArr _ | JObj _ => Raise TypeError
  | JStr s => Ok (match lookup s rating_map with
                  | Some r => r
                  | None => PyFloat.of_Z 3
                  end)
  | _ => Ok (PyFloat.of_Z 3)
  end.

(** Lines 277-282: [float(rating_raw)], and on [ValueError] the category
    table with default 3.0. *)
Definition rating_of (rating_raw : json) : res pyfloat :=
  match py_float rating_raw with
  | Raise ValueError => rating_map_get rating_raw
  | r => r
  end.

(** [amenity.replace("_", " ").title()] *)
Definition format_amenity (s : string) : PyStr.unicode :=
  PyStr.title (PyStr.replace "_" " " s).

(** The list of line 294. *)
Definition default_amenities : list PyStr.unicode :=
  map PyStr.points ["Wi-Fi"; "Breakfast"].

(** Lines 288-294. *)
Definition amenity_name (amenity : json) : res PyStr.unicode :=
  res_bind (as_str amenity) (fun s => Ok (format_amenity s)).

Definition amenities_of (hotel_data : json) : res (list PyStr.unicode) :=
  res_bind (dict_get hotel_data "amenities" (JArr [])) (fun raw =>
  res_bind (iterate raw) (fun items =>
  res_bind (res_map_list amenity_name items) (fun amenities =>
  Ok (match amenities with
      | [] => default_amenities
      | _ => amenities
      end)))).

(** Lines 268-303 for one decoded offers body: the hotel dict. *)
Definition parse_hotel_offer (destination : string) (nights : Z) (found : json)
    : res hotel :=
  res_bind (get_first found) (fun first =>
  res_bind (get_item first "hotel") (fun hotel_data =>
  res_bind (get_first found) (fun first' =>
  res_bind (get_item first' "offers") (fun offers =>
  res_bind (get_first offers) (fun offer =>
  res_bind (dict_get hotel_data "name" (JStr (destination ++ " Hotel"))) (fun name =>
  res_bind (dict_get hotel_data "address" (JObj [])) (fun address =>
  res_bind (dict_get address "cityName" (JStr destination)) (fun city =>
  res_bind (dict_get hotel_data "rating" (JStr "3")) (fun rating_raw =>
  res_bind (rating_of rating_raw) (fun rating =>
  res_bind (get_item offer "price") (fun price_obj =>
  res_bind (get_item price_obj "total") (fun total =>
  res_bind (py_float total) (fun total_f =>
  res_bind (PyFloat.div_int total_f nights) (fun price_per_night =>
  res_bind (amenities_of hotel_data) (fun amenities =>
  res_bind (PyFloat.round0 price_per_night) (fun price =>
  res_bind (PyFloat.round0 total_f) (fun total_price =>
  Ok (Hotel name (py_str city) (PyFloat.round1 rating) price total_price
            (firstn 5 amenities))
  ))))))))))))))))).

(** The body of the per-hotel [try], lines 251-305: [None] is the
    [continue] of line 266. *)
Definition fetch_hotel (destination : string) (check_in_date check_out_date num_travelers : Z)
    (hotel_id : json) : M (option hotel) :=
  offers_data <- http (HotelOffersRequest hotel_id num_travelers
                                          check_in_date check_out_date) ;;
  found <- lift (dict_get offers_data "data" JNull) ;;
  empty <- lift (is_empty found) ;;
  if empty then ret None
  else
    h <- lift (parse_hotel_offer destination (check_out_date - check_in_date) found) ;;
    ret (Some h).

(** The loop of lines 249-309: any exception skips the hotel. *)
Fixpoint hotel_loop (destination : string) (check_in_date check_out_date num_travelers : Z)
    (hotel_ids : list json) (hotel_options : list hotel) : M (list hotel) :=
  match hotel_ids with
  | [] => ret hotel_options
  | hotel_id :: rest =>
      r <- try_catch
             (fetch_hotel destination check_in_date check_out_date num_travelers hotel_id)
             (fun _ => ret None) ;;
      hotel_loop destination check_in_date check_out_date num_travelers rest
                 (match r with
                  | Some h => hotel_options ++ [h]
                  | None => hotel_options
                  end)
  end.

(** Lines 203-319. *)
Definition get_hotel_options
    (destination : string) (check_in_date check_out_date num_travelers : Z)
    : M (list hotel) :=
  let fallback :=
    _get_mock_hotel_options destination check_in_date check_out_date num_travelers in
  token <- _get_amadeus_token ;;
  if negb (truthy token) then fallback
  else
    city_code <- _get_iata_code destination ;;
    if negb (truthy city_code) then fallback
    else
      try_catch
        (hotels_data <- http (HotelListRequest city_code) ;;
         found <- lift (dict_get hotels_data "data" JNull) ;;
         empty <- lift (is_empty found) ;;
         if empty then fallback
         else
           first3 <- lift (slice_to 3 found) ;;
           hotels <- lift (iterate first3) ;;
           hotel_ids <- lift (res_map_list (fun h => get_item h "hotelId") hotels) ;;
           hotel_options <- hotel_loop destination check_in_date check_out_date
                                       num_travelers hotel_ids [] ;;
           match hotel_options with
           | [] => fallback
           | _ => ret hotel_options
           end)
        (fun _ => fallback).

End Resolver.

(** ** Specification vocabulary *)

(** [m] always returns, and what it returns satisfies [P]. *)
Definition returns {A : Type} (P : A -> Prop) (m : M A) : Prop :=
  forall w, exists a w', m w = (Ok a, w') /\ P a.

(** Whenever [m] returns, what it returns satisfies [P]. *)
Definition yields {A : Type} (P : A -> Prop) (m : M A) : Prop :=
  forall w a w', m w = (Ok a, w') -> P a.

(** The token cache is untouched and no request was issued. *)
Definition offline (w w' : world) : Prop :=
  access_token w' = access_token w /\
  token_expiry w' = token_expiry w /\
  requests w' = requests w.

(** [m] always returns a value satisfying [P], without touching the token
    cache or the network. *)
Definition generates {A : Type} (P : A -> Prop) (m : M A) : Prop :=
  forall w, exists a w', m w = (Ok a, w') /\ P a /\ offline w w'.

(** A flight offer within the ranges of the synthetic generator. *)
Definition synthetic_flight (num_travelers : Z) (f : flight) : Prop :=
  exists a dep_hour duration_hours minutes base,
    In a mock_airlines /\
    6 <= dep_hour <= 22 /\
    2 <= duration_hours <= 8 /\
    0 <= minutes <= 59 /\
    300 <= base <= 800 /\
    0 <= stops f <= 2 /\
    airline f = JStr a /\
    departure_time f = (PyStr.of_int_02d dep_hour ++ ":00")%string /\
    arrival_time f =
      (PyStr.of_int_02d ((dep_hour + duration_hours) mod 24) ++ ":00")%string /\
    duration f =
      (PyStr.of_int duration_hours ++ "h " ++ PyStr.of_int minutes ++ "m")%string /\
    flight_price f = base * num_travelers.

(** A hotel offer as the synthetic generator builds it; the range of its
    rating is [rating_3_to_5]. *)
Definition synthetic_hotel (destination : string) (nights : Z) (h : hotel) : Prop :=
  (exists n, In n (hotel_names destination) /\ name h = JStr n) /\
  location h = Str ("Downtown " ++ destination) /\
  (exists u, rating h = PyFloat.round1 u) /\
  80 <= price h <= 300 /\
  total_price h = price h * nights /\
  In (amenities h) amenities_options.

Definition rating_3_to_5 (h : hotel) : Prop :=
  PyFloat.leb (PyFloat.of_Z 3) (rating h) = true /\
  PyFloat.leb (rating h) (PyFloat.of_Z 5) = true.

(** The offers of a batch that parse, in order. *)
Definition survivors (offers : list json) : list flight :=
  flat_map (fun offer => match parse_flight_offer offer with
                         | Ok f => [f]
                         | Raise _ => []
                         end) offers.

(** The exceptions the inner handler of line 189 catches. *)
Definition skippable (r : res flight) : Prop :=
  match r with
  | Ok _ | Raise KeyError | Raise IndexError => True
  | Raise _ => False
  end.

(** From [w], [get_flight_options] gets a token and a destination code,
    issues the flight search, and the search answers with a body whose
    ["data"] is the list [raw]; [w'] is the world once the search request
    has been issued. *)
Definition flight_search_reaches
    (E : env) (destination : string) (departure_date return_date num_travelers : Z)
    (w : world) (raw : list json) (w' : world) : Prop :=
  exists token w1 code w2 data,
    _get_amadeus_token E w = (Ok token, w1) /\
    truthy token = true /\
    _get_iata_code E destination w1 = (Ok code, w2) /\
    truthy code = true /\
    upstream E (List.length (requests w2)) = Ok data /\
    dict_get data "data" (JArr []) = Ok (JArr raw) /\
    w' = log_request (FlightOffersRequest code departure_date return_date num_travelers) w2.

(** A scripted upstream: the [n]-th request gets the [n]-th entry, and a
    request past the end of the script fails in transport. *)
Definition scripted (script : list (res json)) : env :=
  Env (fun n => nth n script (Raise RequestException))
      (fun n => 63000000000000000 + Z.of_nat n * us_per_second)
      (fun n => N.of_nat n).

(** ** Request sequences *)

(** Nothing, or the one request [r]. *)
Definition optional (r : request) (l : list request) : Prop :=
  l = [] \/ l = [r].

(** What a flight lookup asks once it holds a token: nothing, the city
    lookup alone, or the city lookup and then the flight search. *)
Definition flight_requests
    (destination : string) (departure_date return_date num_travelers : Z)
    (l : list request) : Prop :=
  l = [] \/
  l = [CityRequest destination] \/
  exists code,
    l = [CityRequest destination;
         FlightOffersRequest code departure_date return_date num_travelers].

(** What a hotel lookup asks once it holds a token: nothing, the city
    lookup alone, or the city lookup, the hotel list and then one offers
    request for each of at most three hotels, in list order. *)
Definition hotel_requests
    (destination : string) (check_in_date check_out_date num_travelers : Z)
    (l : list request) : Prop :=
  l = [] \/
  l = [CityRequest destination] \/
  exists code hotel_ids,
    (List.length hotel_ids <= 3)%nat /\
    l = CityRequest destination :: HotelListRequest code ::
        map (fun hotel_id =>
               HotelOffersRequest hotel_id num_travelers check_in_date check_out_date)
            hotel_ids.

(** The token cache and the clock position are the same in both worlds. *)
Definition same_cache (w w' : world) : Prop :=
  access_token w' = access_token w /\
  token_expiry w' = token_expiry w /\
  clock_reads w' = clock_reads w.

(** From [w], [get_hotel_options] gets a token and the city code [code],
    issues the hotel list request, and the answer is a body whose ["data"]
    is the list [raw]; [w'] is the world once the list request has been
    issued. *)
Definition hotel_list_reaches
    (E : env) (destination : string) (w : world) (code : json) (raw : list json)
    (w' : world) : Prop :=
  exists token w1 w2 data,
    _get_amadeus_token E w = (Ok token, w1) /\
    truthy token = true /\
    _get_iata_code E destination w1 = (Ok code, w2) /\
    truthy code = true /\
    upstream E (List.length (requests w2)) = Ok data /\
    dict_get data "data" JNull = Ok (JArr raw) /\
    w' = log_request (HotelListRequest code) w2.

(** ** Hotels built from upstream answers *)

(** The hotel lines 262-303 build from the answer to an offers request, for
    a stay of [nights] nights; [None] when the hotel is skipped, at line 266
    or by the handler of line 307. *)
Definition hotel_of_answer (destination : string) (nights : Z) (answer : res json)
    : option hotel :=
  match answer with
  | Raise _ => None
  | Ok offers_data =>
      match dict_get offers_data "data" JNull with
      | Raise _ => None
      | Ok found =>
          match is_empty found with
          | Ok false =>
              match parse_hotel_offer destination nights found with
              | Ok h => Some h
              | Raise _ => None
              end
          | _ => None
          end
      end
  end.

(** The hotels built from the answers to the [count] requests that start
    with request number [start], in request order. *)
Definition upstream_hotels
    (E : env) (destination : string) (nights : Z) (start count : nat) : list hotel :=
  flat_map (fun k => match hotel_of_answer destination nights (upstream E k) with
                     | Some h => [h]
                     | None => []
                     end)
           (seq start count).

(** [offers_data["data"][0]["hotel"]] *)
Definition answer_hotel (offers_data : json) : res json :=
  res_bind (get_item offers_data "data") (fun found =>
  res_bind (get_first found) (fun first =>
  get_item first "hotel")).

(** [offers_data["data"][0]["offers"][0]["price"]["total"]] *)
Definition answer_total (offers_data : json) : res json :=
  res_bind (get_item offers_data "data") (fun found =>
  res_bind (get_first found) (fun first =>
  res_bind (get_item first "offers") (fun offers =>
  res_bind (get_first offers) (fun offer =>
  res_bind (get_item offer "price") (fun price_obj =>
  get_item price_obj "total"))))).

(** ** The chat assistant ([chat_assistant.py]) *)

(** Lines 52-59: a [str] longer than 500 characters is cut to its first 500
    and ["..."] is appended; any other value is rendered with [str]. *)
Definition _summarize_itinerary (itinerary : json) : text :=
  match itinerary with
  | JStr s =>
      Str (if (500 <? String.length s)%nat
           then (PyStr.take 500 s ++ "...")%string
           else s)
  | _ => py_str itinerary
  end.

(** ** The weather agent ([weather_agent.py])

    The dicts [get_weather_info] builds are records: a forecast day with its
    five entries, and the weather information with its forecast.  The answer
    to a failed lookup has no ["destination"] entry.  A text built by an
    f-string is the list of its pieces. *)

Record day : Type := Day {
  date : string;
  description : string;
  high : json;
  low : json;
  precipitation : list text
}.

Record weather : Type := Weather {
  destination_of : option string;
  current : list text;
  forecast : list day
}.

(** The degree sign of the temperature texts, U+00B0. *)
Definition degree : string := String (ascii_of_nat 176) "".

(** [s.capitalize()]; a first letter whose capital is not a code point
    below 256 is kept as it is. *)
Definition capitalize (s : string) : string :=
  match s with
  | EmptyString => EmptyString
  | String c rest => String (PyStr.to_upper c) (PyStr.lower rest)
  end.

(** [sub in s] *)
Fixpoint contains (sub s : string) : bool :=
  prefix sub s ||
  match s with
  | EmptyString => false
  | String _ rest => contains sub rest
  end.

(** [v[i]] for an int [i >= 0]. *)
Definition get_index (v : json) (i : nat) : res json :=
  match v with
  | JArr l => match nth_error l i with Some x => Ok x | None => Raise IndexError end
  | JStr s => match String.get i s with
              | Some c => Ok (JStr (String c ""))
              | None => Raise IndexError
              end
  | JObj _ => Raise KeyError
  | _ => Raise TypeError
  end.

Fixpoint repeat_string (n : nat) (s : string) : string :=
  match n with
  | O => EmptyString
  | S k => (s ++ repeat_string k s)%string
  end.

(** [v * n] for an int [n >= 0]: a number is scaled, a [str] or a [list] is
    repeated. *)
Definition py_mul (v : json) (n : Z) : res json :=
  match v with
  | JInt z => Ok (JInt (z * n))
  | JBool b => Ok (JInt (Z.b2z b * n))
  | JFloat f => res_bind (PyFloat.of_int n) (fun g => Ok (JFloat (SFmul prec emax f g)))
  | JStr s => Ok (JStr (repeat_string (Z.to_nat n) s))
  | JArr l => Ok (JArr (List.concat (repeat l (Z.to_nat n))))
  | _ => Raise TypeError
  end.

(** [a + v] for the running total [a] of [sum]. *)
Definition py_add (a : number) (v : json) : res number :=
  match a, v with
  | NInt x, JInt y => Ok (NInt (x + y))
  | NInt x, JBool b => Ok (NInt (x + Z.b2z b))
  | NInt x, JFloat g => res_bind (PyFloat.of_int x) (fun f => Ok (NFloat (SFadd prec emax f g)))
  | NFloat f, JInt y => res_bind (PyFloat.of_int y) (fun g => Ok (NFloat (SFadd prec emax f g)))
  | NFloat f, JBool b => Ok (NFloat (SFadd prec emax f (PyFloat.of_Z (Z.b2z b))))
  | NFloat f, JFloat g => Ok (NFloat (SFadd prec emax f g))
  | _, _ => Raise TypeError
  end.

(** [sum(items)]: the items are added to [0] from left to right (the float
    total is the plain running sum of CPython up to 3.11). *)
Fixpoint sum_from (total : number) (items : list json) : res number :=
  match items with
  | [] => Ok total
  | v :: rest => res_bind (py_add total v) (fun t => sum_from t rest)
  end.

Definition py_sum (items : list json) : res number := sum_from (NInt 0) items.

(** [a / b] for two ints: the double nearest to the exact quotient. *)
Definition int_true_div (a b : Z) : res pyfloat :=
  match b, a with
  | Z0, _ => Raise ZeroDivisionError
  | _, Z0 => Ok (S754_zero (b <? 0))
  | _, _ =>
      let '(q, e, l) := SFdiv_core_binary prec emax (Z.abs a) 0 (Z.abs b) 0 in
      match binary_round_aux prec emax (xorb (a <? 0) (b <? 0)) q e l with
      | S754_infinity _ => Raise OverflowError
      | f => Ok f
      end
  end.

(** [x / n] for a number [x] and an int [n]. *)
Definition true_div (x : number) (n : Z) : res pyfloat :=
  match x with
  | NInt a => int_true_div a n
  | NFloat f => PyFloat.div_int f n
  end.

(** [x > n] for a float [x] and a small int [n]. *)
Definition gt_int (x : pyfloat) (n : Z) : bool := SFltb (PyFloat.of_Z n) x.

(** The answer of line 82. *)
Definition weather_not_available : weather :=
  Weather None [Str "Not available"] [].

(** [range(0, n, 8)] *)
Definition every_eighth (n : nat) : list nat :=
  map (fun k => 8 * k)%nat (seq 0 ((n + 7) / 8)).

Section WeatherAgent.

(** What the two requests yield once [requests.get] and [json] have run, and
    the date [datetime.utcfromtimestamp(dt).strftime("%Y-%m-%d")] renders,
    each a value or the exception raised. *)
Variable current_weather : string -> res json.
Variable forecast_weather : json -> json -> res json.
Variable utc_date : json -> res string.

(** One pass of the loop at lines 57-71. *)
Definition forecast_day (day_data : json) : res day :=
  res_bind (get_item day_data "dt") (fun dt =>
  res_bind (utc_date dt) (fun date =>
  res_bind (get_item day_data "weather") (fun conditions =>
  res_bind (get_first conditions) (fun first =>
  res_bind (get_item first "description") (fun text =>
  res_bind (as_str text) (fun s =>
  res_bind (get_item day_data "main") (fun main =>
  res_bind (get_item main "temp_max") (fun high_temp =>
  res_bind (get_item day_data "main") (fun main' =>
  res_bind (get_item main' "temp_min") (fun low_temp =>
  res_bind (dict_get day_data "pop" (JInt 0)) (fun pop =>
  res_bind (py_mul pop 100) (fun precipitation =>
  Ok (Day date (capitalize s) high_temp low_temp [py_str precipitation; Str "%"])
  )))))))))))).

(** The body of the [try], lines 41-78. *)
Definition fetch_weather (destination : string) : res weather :=
  res_bind (current_weather destination) (fun current_data =>
  res_bind (get_item current_data "main") (fun main =>
  res_bind (get_item main "temp") (fun current_temp =>
  res_bind (get_item current_data "weather") (fun conditions =>
  res_bind (get_first conditions) (fun first =>
  res_bind (get_item first "description") (fun text =>
  res_bind (as_str text) (fun s =>
  res_bind (get_item current_data "coord") (fun coord =>
  res_bind (get_item coord "lat") (fun lat =>
  res_bind (get_item current_data "coord") (fun coord' =>
  res_bind (get_item coord' "lon") (fun lon =>
  res_bind (forecast_weather lat lon) (fun forecast_data =>
  res_bind (get_item forecast_data "list") (fun entries =>
  res_bind (py_len entries) (fun n =>
  res_bind (res_map_list
              (fun i => res_bind (get_item forecast_data "list") (fun entries' =>
                        res_bind (get_index entries' i) forecast_day))
              (every_eighth (Z.to_nat n))) (fun days =>
  Ok (Weather (Some destination)
              [py_str current_temp; Str (degree ++ "C, "); Str (capitalize s)]
              days)
  ))))))))))))))).

(** Lines 36-82. *)
Definition get_weather_info (destination : string) : weather :=
  match fetch_weather destination with
  | Ok weather_info => weather_info
  | Raise _ => weather_not_available
  end.

End WeatherAgent.

Definition hot_weather : list string :=
  ["Lightweight clothing"; "Sunscreen"; "Sunglasses"; "Hat"].
Definition mild_weather : list string :=
  ["Light layers"; "Long and short sleeve options"].
Definition cool_weather : list string :=
  ["Medium layers"; "Light jacket or sweater"].
Definition cold_weather : list string :=
  ["Warm clothing"; "Heavy jacket"; "Gloves"; "Scarf"].
Definition rain_gear : list string :=
  ["Umbrella"; "Waterproof jacket"; "Waterproof shoes"].

(** The test of line 103. *)
Definition rainy (conditions : list string) : bool :=
  existsb (fun cond => contains "rain" (PyStr.lower cond) ||
                       contains "thunderstorm" (PyStr.lower cond)) conditions.

(** Lines 84-106. *)
Definition get_packing_suggestions (weather_info : weather) : res (list string) :=
  let days := forecast weather_info in
  res_bind (py_sum (map high days)) (fun total_high =>
  res_bind (true_div total_high (Z.of_nat (List.length days))) (fun avg_high =>
  res_bind (py_sum (map low days)) (fun total_low =>
  res_bind (true_div total_low (Z.of_nat (List.length days))) (fun avg_low =>
  let conditions := map description days in
  let suggestions := ["Comfortable walking shoes"] in
  let suggestions :=
    (suggestions ++
     if gt_int avg_high 30 then hot_weather
     else if gt_int avg_high 20 then mild_weather
     else if gt_int avg_high 10 then cool_weather
     else cold_weather)%list in
  Ok (if rainy conditions then (suggestions ++ rain_gear)%list else suggestions))))).

(** *** Sample weather answers *)

Definition sample_conditions (text : string) : json :=
  JArr [JObj [("description", JStr text)]].

Definition sample_current_weather : json :=
  JObj [("main", JObj [("temp", JInt 21)]);
        ("weather", sample_conditions "scattered clouds");
        ("coord", JObj [("lat", JInt 48); ("lon", JInt 2)])].

Definition sample_entry (text : string) (temp_max temp_min : Z) : json :=
  JObj [("dt", JInt 1748779200);
        ("weather", sample_conditions text);
        ("main", JObj [("temp_max", JInt temp_max); ("temp_min", JInt temp_min)])].

(** A forecast list of 40 entries, as the upstream service sends for five
    days in steps of three hours. *)
Definition sample_forecast : json :=
  JObj [("list", JArr (repeat (sample_entry "light rain" 24 15) 40))].

Definition sample_day (text : string) (temp_max temp_min : json) : day :=
  Day "2025-06-01" text temp_max temp_min [StrOf (JInt 0); Str "%"].

(** ** Sample upstream answers

    Concrete bodies in the shape the upstream API documents, used to run the
    functions on explicit inputs. *)

Definition sample_offers_body (rating_raw total : json) (amenities : list json) : json :=
  JArr [JObj [("hotel", JObj [("name", JStr "Ritz"); ("rating", rating_raw);
                              ("amenities", JArr amenities)]);
              ("offers", JArr [JObj [("price", JObj [("total", total)])]])]].

Definition sample_token : res json :=
  Ok (JObj [("access_token", JStr "abc123"); ("expires_in", JInt 1799)]).

Definition sample_city : res json :=
  Ok (JObj [("data", JArr [JObj [("iataCode", JStr "PAR")]])]).

Definition sample_hotel_list : res json :=
  Ok (JObj [("data", JArr [JObj [("hotelId", JStr "HLPAR001")]])]).

Definition sample_hotel_list4 : res json :=
  Ok (JObj [("data", JArr [JObj [("hotelId", JStr "HLPAR001")];
                           JObj [("hotelId", JStr "HLPAR002")];
                           JObj [("hotelId", JStr "HLPAR003")];
                           JObj [("hotelId", JStr "HLPAR004")]])]).

Definition sample_offers (rating_raw total : json) (amenities : list json) : res json :=
  Ok (JObj [("data", sample_offers_body rating_raw total amenities)]).

(** The answers to a hotel lookup: a token, a city code, a list of four
    hotels, then the offers of the first, no offer for the second, and the
    offers of the third, whose second amenity starts with U+00C9. *)
Definition sample_stay : list (res json) :=
  [sample_token; sample_city; sample_hotel_list4;
   sample_offers (JStr "4") (JStr "300.00") [];
   Ok (JObj [("data", JArr [])]);
   sample_offers (JStr "LUXURY") (JStr "451")
                 [JStr "SWIMMING_POOL"; JStr (String (ascii_of_nat 201) "COLE_SPA")]].

Definition sample_hotel (rating : pyfloat) (price total_price : Z)
    (amenities : list string) : hotel :=
  Hotel (JStr "Ritz") (Str "Paris") rating price total_price (map PyStr.points amenities).

Definition sample_listed_hotels : list json :=
  [JObj [("hotelId", JStr "HLPAR001")]; JObj [("hotelId", JStr "HLPAR002")];
   JObj [("hotelId", JStr "HLPAR003")]; JObj [("hotelId", JStr "HLPAR004")]].

Definition sample_world_after_list : world :=
  World (JStr "abc123") (Some 63000001739000000)
        [TokenRequest; CityRequest "Paris"; HotelListRequest (JStr "PAR")] 2 0.

(** A token endpoint that answers first with an empty token, then with a
    token whose lifetime is a text; the clock advances 100 seconds per
    reading. *)
Definition slow_token_exchange : env :=
  Env (fun n => nth n [Ok (JObj [("access_token", JStr ""); ("expires_in", JInt 1799)]);
                       Ok (JObj [("access_token", JStr "NEW"); ("expires_in", JStr "30")])]
                    (Raise RequestException))
      (fun n => 63000000000000000 + Z.of_nat n * 100 * us_per_second)
      (fun n => N.of_nat n).

Definition sample_segment (carrier : string) : json :=
  JObj [("carrierCode", JStr carrier);
        ("departure", JObj [("at", JStr "2025-06-01T10:30:00")]);
        ("arrival", JObj [("at", JStr "2025-06-01T18:45:00")]);
        ("duration", JStr "PT8H15M")].

Definition sample_itineraries (carrier : string) : json :=
  JArr [JObj [("segments", JArr [sample_segment carrier; sample_segment carrier])]].

Definition sample_flight_offer (carrier total : string) : json :=
  JObj [("price", JObj [("total", JStr total)]);
        ("itineraries", sample_itineraries carrier)].

Definition sample_flight (airline : string) (price : Z) : flight :=
  Flight (JStr airline) "10:30" "18:45" "8h 15m" 1 price.

Definition sample_search (raw : list json) : list (res json) :=
  [sample_token; sample_city; Ok (JObj [("data", JArr raw)])].

Definition sample_world_after_search : world :=
  World (JStr "abc123") (Some 63000001739000000)
        [TokenRequest; CityRequest "Paris"; FlightOffersRequest (JStr "PAR") 10 15 2]
        2 0.

Definition five_offers : list json :=
  [sample_flight_offer "AA" "512.40"; sample_flight_offer "LH" "498.00";
   sample_flight_offer "ZZ" "640.75"; sample_flight_offer "BA" "455.10";
   sample_flight_offer "AF" "610.00"].

(** An offer whose outbound flight changes carrier after the first segment. *)
Definition offer_with_two_carriers : json :=
  JObj [("price", JObj [("total", JStr "512.40")]);
        ("itineraries",
         JArr [JObj [("segments", JArr [sample_segment "AA"; sample_segment "LH"])]])].

Definition offer_without_price : json :=
  JObj [("itineraries", sample_itineraries "UA")].

Definition offer_with_text_price : json :=
  JObj [("price", JStr "498.00"); ("itineraries", sample_itineraries "UA")].

(** Case analysis along a chain of [res_bind]: each step either returned
    or the whole chain raised. *)
Ltac res_steps H :=
  repeat match type of H with
         | res_bind ?r _ = _ =>
             let E := fresh "E" in
             destruct r eqn:E; cbn [res_bind] in H; [| discriminate H]
         end.

(** * Properties *)

(** ** The monad *)

Lemma returns_ret {A : Type} (P : A -> Prop) (a : A) : P a -> returns P (ret a).
Proof. intros H w. exists a, w. split; [reflexivity | exact H]. Qed.

Lemma returns_bind {A B : Type} (Q : A -> Prop) (P : B -> Prop) (m : M A) (k : A -> M B) :
  returns Q m -> (forall a, Q a -> returns P (k a)) -> returns P (bind m k).
Proof.
  intros Hm Hk w. destruct (Hm w) as (a & w1 & Em & Qa).
  destruct (Hk a Qa w1) as (b & w2 & Ek & Pb).
  exists b, w2. unfold bind. rewrite Em. auto.
Qed.

Lemma returns_weaken {A : Type} (P Q : A -> Prop) (m : M A) :
  returns P m -> (forall a, P a -> Q a) -> returns Q m.
Proof.
  intros Hm HPQ w. destruct (Hm w) as (a & w' & Em & Pa). exists a, w'. auto.
Qed.

Lemma yields_ret {A : Type} (P : A -> Prop) (a : A) : P a -> yields P (ret a).
Proof. intros H w b w' Eb. inversion Eb; subst. exact H. Qed.

Lemma yields_lift {A : Type} (P : A -> Prop) (r : res A) :
  (forall a, r = Ok a -> P a) -> yields P (lift r).
Proof. intros H w a w' Ea. inversion Ea; subst. apply H. reflexivity. Qed.

Lemma yields_bind {A B : Type} (Q : A -> Prop) (P : B -> Prop) (m : M A) (k : A -> M B) :
  yields Q m -> (forall a, Q a -> yields P (k a)) -> yields P (bind m k).
Proof.
  intros Hm Hk w b w' Eb. unfold bind in Eb.
  destruct (m w) as [[a | e] w1] eqn:Em; [| discriminate].
  exact (Hk a (Hm w a w1 Em) w1 b w' Eb).
Qed.

Lemma yields_any {A : Type} (m : M A) : yields (fun _ => True) m.
Proof. intros w a w' _. exact I. Qed.

Lemma yields_of_returns {A : Type} (P : A -> Prop) (m : M A) :
  returns P m -> yields P m.
Proof.
  intros Hm w a w' Ea. destruct (Hm w) as (a' & w1 & Em & Pa).
  rewrite Em in Ea. inversion Ea; subst. exact Pa.
Qed.

(** A [try] whose handler always returns cannot raise. *)
Lemma returns_try {A : Type} (P : A -> Prop) (m : M A) (h : exn -> M A) :
  yields P m -> (forall e, returns P (h e)) -> returns P (try_catch m h).
Proof.
  intros Hm Hh w. unfold try_catch.
  destruct (m w) as [[a | e] w1] eqn:Em.
  - exists a, w1. split; [reflexivity | exact (Hm w a w1 Em)].
  - exact (Hh e w1).
Qed.

Lemma generates_returns {A : Type} (P : A -> Prop) (m : M A) :
  generates P m -> returns P m.
Proof.
  intros Hm w. destruct (Hm w) as (a & w' & Em & Pa & _). exists a, w'. auto.
Qed.

(** ** Arithmetic of the random draws and of rounding *)

Lemma randint_range (a b x : Z) : a <= b -> a <= a + x mod (b - a + 1) <= b.
Proof.
  intros Hab. pose proof (Z.mod_pos_bound x (b - a + 1)). lia.
Qed.

Lemma choice_in {A : Type} (l : list A) (d : A) (x : Z) :
  l <> [] -> In (nth (Z.to_nat (x mod Z.of_nat (List.length l))) l d) l.
Proof.
  intros Hl. apply nth_In.
  assert (0 < Z.of_nat (List.length l)) by (destruct l; [congruence | simpl; lia]).
  pose proof (Z.mod_pos_bound x (Z.of_nat (List.length l))). lia.
Qed.

Lemma round_half_even_between (a b n : Z) (d : positive) :
  a * Zpos d <= n <= b * Zpos d -> a <= PyFloat.round_half_even n d <= b.
Proof.
  intros Hn. unfold PyFloat.round_half_even.
  pose proof (Z.div_mod n (Zpos d) ltac:(lia)) as Hdm.
  pose proof (Z.mod_pos_bound n (Zpos d) ltac:(lia)) as Hr.
  set (q := n / Zpos d) in *. set (r := n mod Zpos d) in *.
  assert (a <= q) by nia.
  assert (q <= b) by nia.
  assert (q = b -> r = 0) by nia.
  destruct (Z.compare_spec (2 * r) (Zpos d)); [destruct (Z.even q) | |]; lia.
Qed.

Lemma digits2_pos_size (m : positive) : digits2_pos m = Pos.size m.
Proof. induction m; simpl; congruence. Qed.

(** A mantissa of 53 digits lies in [[2^52, 2^53)]. *)
Lemma digits2_pos_53 (m : positive) :
  Zpos (digits2_pos m) = 53 -> 4503599627370496 <= Zpos m < 9007199254740992.
Proof.
  rewrite digits2_pos_size. intros H.
  assert (Hs : Pos.size m = 53%positive) by congruence.
  pose proof (Pos.size_gt m) as Hgt. pose proof (Pos.size_le m) as Hle.
  rewrite Hs in Hgt, Hle.
  apply Pos2Z.pos_lt_pos in Hgt. apply Pos2Z.pos_le_pos in Hle.
  rewrite Pos2Z.inj_xO in Hle.
  change (Zpos (2 ^ 53)) with 9007199254740992 in Hgt, Hle.
  clear Hs H. lia.
Qed.

Lemma compare_cont_Z (m c : positive) :
  PosDef.Pos.compare_cont Eq m c = (Zpos m ?= Zpos c).
Proof. reflexivity. Qed.

(** Order of two positive finite doubles, read off exponent and mantissa. *)
Lemma leb_finite (m1 m2 : positive) (e1 e2 : Z) :
  PyFloat.leb (S754_finite false m1 e1) (S754_finite false m2 e2) = true ->
  e1 < e2 \/ e1 = e2 /\ Zpos m1 <= Zpos m2.
Proof.
  unfold PyFloat.leb, SFleb, SFcompare. rewrite compare_cont_Z. intros H.
  destruct (Z.compare_spec e1 e2); try discriminate; try lia.
  right. split; [assumption |].
  destruct (Z.compare_spec (Zpos m1) (Zpos m2)); try discriminate; lia.
Qed.

(** A valid double at exponent above the subnormal range has 53 digits. *)
Lemma valid_digits (s : bool) (m : positive) (e : Z) :
  valid_binary prec emax (S754_finite s m e) = true -> -1074 < e ->
  Zpos (digits2_pos m) = 53.
Proof.
  unfold valid_binary, bounded, canonical_mantissa, fexp, SpecFloat.emin, prec, emax.
  intros Hv He. apply andb_true_iff in Hv. destruct Hv as [Hc _].
  apply Z.eqb_eq in Hc. revert Hc.
  change (IntDef.Z.max ?a ?b) with (Z.max a b). lia.
Qed.

Lemma tenths_range (K : Z) :
  30 <= K <= 50 ->
  PyFloat.leb (PyFloat.of_Z 3) (PyFloat.of_decimal false (Z.abs_N K) (-1)) = true /\
  PyFloat.leb (PyFloat.of_decimal false (Z.abs_N K) (-1)) (PyFloat.of_Z 5) = true.
Proof.
  intros HK.
  assert (Hall : forallb (fun k =>
            PyFloat.leb (PyFloat.of_Z 3) (PyFloat.of_decimal false (N.of_nat k) (-1)) &&
            PyFloat.leb (PyFloat.of_decimal false (N.of_nat k) (-1)) (PyFloat.of_Z 5))
            (seq 30 21) = true) by (vm_compute; reflexivity).
  rewrite forallb_forall in Hall.
  specialize (Hall (Z.to_nat K)).
  rewrite in_seq in Hall.
  assert (HN : N.of_nat (Z.to_nat K) = Z.abs_N K).
  { rewrite Z_nat_N. symmetry. apply Zabs2N.abs_N_nonneg. lia. }
  rewrite HN in Hall. apply andb_true_iff. apply Hall. lia.
Qed.

Lemma uniform_tenths (u : pyfloat) :
  valid_binary prec emax u = true ->
  PyFloat.leb (PyFloat.of_Z 3) u = true ->
  PyFloat.leb u (PyFloat.of_Z 5) = true ->
  exists K, 30 <= K <= 50 /\ PyFloat.round1 u = PyFloat.of_decimal false (Z.abs_N K) (-1).
Proof.
  intros Hv H3 H5.
  change (PyFloat.of_Z 3) with (S754_finite false 6755399441055744 (-51)) in H3.
  change (PyFloat.of_Z 5) with (S754_finite false 5629499534213120 (-50)) in H5.
  destruct u as [s | s | | s m e]; try discriminate.
  - destruct s; discriminate.
  - destruct s; [discriminate |].
    apply leb_finite in H3. apply leb_finite in H5.
    assert (Hd : Zpos (digits2_pos m) = 53) by (apply (valid_digits false m e Hv); lia).
    apply digits2_pos_53 in Hd.
    assert (He : e = -51 \/ e = -50) by lia.
    destruct He as [-> | ->].
    + exists (PyFloat.round_half_even (10 * Zpos m) (2 ^ 51)). split; [| reflexivity].
      assert (30 <= PyFloat.round_half_even (10 * Zpos m) (2 ^ 51) <= 40); [| lia].
      apply round_half_even_between.
      change (Zpos (2 ^ 51)) with 2251799813685248. lia.
    + exists (PyFloat.round_half_even (10 * Zpos m) (2 ^ 50)). split; [| reflexivity].
      assert (40 <= PyFloat.round_half_even (10 * Zpos m) (2 ^ 50) <= 50); [| lia].
      apply round_half_even_between.
      change (Zpos (2 ^ 50)) with 1125899906842624. lia.
Qed.

Lemma round1_3_to_5 (u : pyfloat) :
  valid_binary prec emax u = true ->
  PyFloat.leb (PyFloat.of_Z 3) u = true ->
  PyFloat.leb u (PyFloat.of_Z 5) = true ->
  PyFloat.leb (PyFloat.of_Z 3) (PyFloat.round1 u) = true /\
  PyFloat.leb (PyFloat.round1 u) (PyFloat.of_Z 5) = true.
Proof.
  intros Hv H3 H5. destruct (uniform_tenths u Hv H3 H5) as (K & HK & ->).
  exact (tenths_range K HK).
Qed.

(** ** The range of [random.uniform(3.0, 5.0)]

    [3.0 + (5.0 - 3.0) * (k * 2**-53)] is computed in binary64 with two
    roundings; the lemmas below follow the mantissa through them. *)

Lemma iter_xO_digits (k p : positive) :
  digits2_pos (Pos.iter xO p k) = (digits2_pos p + k)%positive.
Proof.
  induction k as [| k IH] using Pos.peano_ind.
  - simpl. rewrite Pos.add_1_r. reflexivity.
  - rewrite Pos.iter_succ. simpl. rewrite IH, Pos.add_succ_r. reflexivity.
Qed.

Lemma fexp_53 (e : Z) : -1074 <= e -> fexp prec emax (53 + e) = e.
Proof.
  unfold fexp, SpecFloat.emin, prec, emax.
  change (IntDef.Z.max ?a ?b) with (Z.max a b). lia.
Qed.

(** A mantissa of 53 digits at an exponent in range is not rounded. *)
Lemma binary_round_aux_exact (s : bool) (m : positive) (e : Z) :
  Zpos (digits2_pos m) = 53 -> -1074 <= e <= 971 ->
  binary_round_aux prec emax s (Zpos m) e loc_Exact = S754_finite s m e.
Proof.
  intros Hd He. unfold binary_round_aux, shr_fexp. cbn [Zdigits2].
  rewrite Hd, (fexp_53 e) by lia. rewrite Z.sub_diag.
  cbn [shr shr_record_of_loc shr_m loc_of_shr_record round_nearest_even Zdigits2].
  rewrite Hd, (fexp_53 e) by lia. rewrite Z.sub_diag.
  cbn [shr shr_m].
  assert (Hle : (e <=? emax - prec) = true) by (apply Z.leb_le; unfold emax, prec; lia).
  rewrite Hle. reflexivity.
Qed.

Lemma digits_log2 (x : positive) : Zpos (digits2_pos x) = Z.log2 (Zpos x) + 1.
Proof.
  rewrite digits2_pos_size. destruct x; simpl; try rewrite Pos2Z.inj_succ; lia.
Qed.

Lemma digits_of_range (x : positive) (d : Z) :
  0 < d -> 2 ^ (d - 1) <= Zpos x < 2 ^ d -> Zpos (digits2_pos x) = d.
Proof.
  intros Hd Hx. rewrite digits_log2.
  rewrite (Z.log2_unique (Zpos x) (d - 1)); [lia | lia |].
  replace (Z.succ (d - 1)) with d by lia. exact Hx.
Qed.

Lemma digits_range (x : positive) :
  2 ^ (Zpos (digits2_pos x) - 1) <= Zpos x < 2 ^ Zpos (digits2_pos x).
Proof.
  rewrite digits_log2. replace (Z.log2 (Zpos x) + 1 - 1) with (Z.log2 (Zpos x)) by lia.
  replace (Z.log2 (Zpos x) + 1) with (Z.succ (Z.log2 (Zpos x))) by lia.
  apply Z.log2_spec. lia.
Qed.

Lemma iter_xO_value (d x : positive) : Zpos (Pos.iter xO x d) = Zpos x * 2 ^ Zpos d.
Proof.
  induction d as [| d IH] using Pos.peano_ind.
  - simpl. lia.
  - rewrite Pos.iter_succ.
    change (Zpos (Pos.iter xO x d)~0) with (2 * Zpos (Pos.iter xO x d)).
    rewrite IH, Pos2Z.inj_succ, Z.pow_succ_r by lia. lia.
Qed.

Lemma shr_1_m (mrs : shr_record) :
  0 <= shr_m mrs -> shr_m (shr_1 mrs) = shr_m mrs / 2 /\ 0 <= shr_m (shr_1 mrs).
Proof.
  destruct mrs as [m r s]. cbn [shr_m]. intros Hm.
  destruct m as [| [p | p |] | p]; cbn [shr_1 shr_m]; try lia.
  - split; [reflexivity | lia].
  - split; [| lia]. apply Z.div_unique with 1; lia.
  - split; [| lia]. apply Z.div_unique with 0; lia.
  - split; [reflexivity | lia].
Qed.

Lemma iter_pos_m (n : positive) :
  forall mrs, 0 <= shr_m mrs ->
  shr_m (iter_pos shr_1 n mrs) = shr_m mrs / 2 ^ Zpos n /\
  0 <= shr_m (iter_pos shr_1 n mrs).
Proof.
  induction n as [n IH | n IH |]; intros mrs Hm; simpl iter_pos.
  - destruct (shr_1_m mrs Hm) as [H1 P1].
    destruct (IH _ P1) as [H2 P2]. destruct (IH _ P2) as [H3 P3].
    split; [| exact P3]. rewrite H3, H2, H1.
    rewrite !Z.div_div by (try apply Z.pow_pos_nonneg; lia).
    f_equal. rewrite Pos2Z.inj_xI.
    replace (2 * Zpos n + 1) with (1 + Zpos n + Zpos n) by lia.
    rewrite !Z.pow_add_r by lia. change (2 ^ 1) with 2. lia.
  - destruct (IH _ Hm) as [H2 P2]. destruct (IH _ P2) as [H3 P3].
    split; [| exact P3]. rewrite H3, H2.
    rewrite !Z.div_div by (try apply Z.pow_pos_nonneg; lia).
    f_equal. change (Zpos n~0) with (2 * Zpos n).
    replace (2 * Zpos n) with (Zpos n + Zpos n) by lia.
    rewrite !Z.pow_add_r by lia. lia.
  - destruct (shr_1_m mrs Hm) as [H1 P1]. split; [| exact P1].
    rewrite H1. reflexivity.
Qed.

Lemma mod_pow_split (m a b : Z) :
  0 < a -> 0 < b -> m mod (a * b) = 0 -> m mod a = 0 /\ (m / a) mod b = 0.
Proof.
  intros Ha Hb H. apply Z.mod_divide in H; [| lia]. destruct H as [c Hc]. subst m.
  split.
  - apply Z.mod_divide; [lia |]. exists (c * b). lia.
  - replace (c * (a * b)) with (c * b * a) by lia. rewrite Z.div_mul by lia.
    apply Z.mod_divide; [lia |]. exists c. lia.
Qed.

Lemma shr_1_inexact (mrs : shr_record) :
  0 <= shr_m mrs -> inexact (shr_1 mrs) = true ->
  inexact mrs = true \/ shr_m mrs mod 2 <> 0.
Proof.
  destruct mrs as [m r s]. unfold inexact. cbn [shr_m shr_r shr_s]. intros Hm.
  destruct m as [| [p | p |] | p]; cbn [shr_1 shr_r shr_s]; try lia;
    destruct r, s; cbn; intros H; try discriminate H; try (left; reflexivity); right.
  - rewrite Pos2Z.inj_xI. rewrite Z.add_comm, Z.mul_comm, Z.mod_add by lia. discriminate.
  - discriminate.
Qed.

Lemma iter_pos_inexact (n : positive) :
  forall mrs, 0 <= shr_m mrs -> inexact (iter_pos shr_1 n mrs) = true ->
  inexact mrs = true \/ shr_m mrs mod 2 ^ Zpos n <> 0.
Proof.
  induction n as [n IH | n IH |]; intros mrs Hm; simpl iter_pos; intros H.
  - destruct (shr_1_m mrs Hm) as [H1 P1].
    destruct (iter_pos_m n _ P1) as [H2 P2].
    assert (Hp : 0 < 2 ^ Zpos n) by (apply Z.pow_pos_nonneg; lia).
    assert (Hsplit : forall x, x mod 2 ^ Zpos n~1 = 0 ->
                               x mod 2 = 0 /\ (x / 2) mod 2 ^ Zpos n = 0 /\
                               (x / 2 / 2 ^ Zpos n) mod 2 ^ Zpos n = 0).
    { intros x Hx. rewrite Pos2Z.inj_xI in Hx.
      replace (2 * Zpos n + 1) with (1 + (Zpos n + Zpos n)) in Hx by lia.
      rewrite Z.pow_add_r in Hx by lia. change (2 ^ 1) with 2 in Hx.
      apply mod_pow_split in Hx; [| lia | apply Z.pow_pos_nonneg; lia].
      destruct Hx as [Ha Hb]. split; [exact Ha |].
      rewrite Z.pow_add_r in Hb by lia. apply mod_pow_split in Hb; try lia; try exact Hb. }
    apply IH in H; [| exact P2]. destruct H as [H | H].
    + apply IH in H; [| exact P1]. destruct H as [H | H].
      * apply shr_1_inexact in H; [| exact Hm]. destruct H as [H | H]; [left; exact H |].
        right. intros Hx. apply H. apply (Hsplit _ Hx).
      * right. intros Hx. apply H. rewrite H1. apply (Hsplit _ Hx).
    + right. intros Hx. apply H. rewrite H2, H1. apply (Hsplit _ Hx).
  - destruct (iter_pos_m n _ Hm) as [H2 P2].
    assert (Hp : 0 < 2 ^ Zpos n) by (apply Z.pow_pos_nonneg; lia).
    assert (Hsplit : forall x, x mod 2 ^ Zpos n~0 = 0 ->
                               x mod 2 ^ Zpos n = 0 /\ (x / 2 ^ Zpos n) mod 2 ^ Zpos n = 0).
    { intros x Hx. change (Zpos n~0) with (2 * Zpos n) in Hx.
      replace (2 * Zpos n) with (Zpos n + Zpos n) in Hx by lia.
      rewrite Z.pow_add_r in Hx by lia. apply mod_pow_split in Hx; try lia; try exact Hx. }
    apply IH in H; [| exact P2]. destruct H as [H | H].
    + apply IH in H; [| exact Hm]. destruct H as [H | H]; [left; exact H |].
      right. intros Hx. apply H. apply (Hsplit _ Hx).
    + right. intros Hx. apply H. rewrite H2. apply (Hsplit _ Hx).
  - apply shr_1_inexact in H; [| exact Hm]. exact H.
Qed.

Lemma round_nearest_even_cases (m : Z) (mrs : shr_record) :
  round_nearest_even m (loc_of_shr_record mrs) = m \/
  (round_nearest_even m (loc_of_shr_record mrs) = m + 1 /\ inexact mrs = true).
Proof.
  destruct mrs as [x [|] [|]]; unfold inexact; cbn;
    try destruct (Z.even m); auto.
Qed.

Lemma fexp_large (x : Z) : -1074 <= x - 53 -> fexp prec emax x = x - 53.
Proof.
  unfold fexp, SpecFloat.emin, prec, emax.
  change (IntDef.Z.max ?a ?b) with (Z.max a b). lia.
Qed.

(** A mantissa of 53 digits passes the second normalisation unchanged. *)
Lemma shr_fexp_53 (m : positive) (e : Z) :
  Zpos (digits2_pos m) = 53 -> -1074 <= e ->
  shr_fexp prec emax (Zpos m) e loc_Exact =
  ({| shr_m := Zpos m; shr_r := false; shr_s := false |}, e).
Proof.
  intros Hd He. unfold shr_fexp. cbn [Zdigits2]. rewrite Hd, (fexp_53 e) by lia.
  rewrite Z.sub_diag. reflexivity.
Qed.

Lemma shr_fexp_carry (e : Z) :
  -1074 <= e ->
  shr_fexp prec emax 9007199254740992 e loc_Exact =
  ({| shr_m := 4503599627370496; shr_r := false; shr_s := false |}, e + 1).
Proof.
  intros He. unfold shr_fexp.
  change (Zdigits2 9007199254740992) with 54.
  rewrite (fexp_large (54 + e)) by lia.
  replace (54 + e - 53 - e) with 1 by lia. reflexivity.
Qed.

Lemma round_aux_spec (s : bool) (S : positive) (e : Z) :
  53 < Zpos (digits2_pos S) ->
  -1074 <= e + (Zpos (digits2_pos S) - 53) ->
  e + (Zpos (digits2_pos S) - 53) + 1 <= 971 ->
  exists m' e',
    binary_round_aux prec emax s (Zpos S) e loc_Exact = S754_finite s m' e' /\
    Zpos (digits2_pos m') = 53 /\
    ((e' = e + (Zpos (digits2_pos S) - 53) /\
      (Zpos m' = Zpos S / 2 ^ (Zpos (digits2_pos S) - 53) \/
       (Zpos m' = Zpos S / 2 ^ (Zpos (digits2_pos S) - 53) + 1 /\
        Zpos S mod 2 ^ (Zpos (digits2_pos S) - 53) <> 0))) \/
     (e' = e + (Zpos (digits2_pos S) - 53) + 1 /\
      Zpos m' = 4503599627370496 /\
      Zpos S / 2 ^ (Zpos (digits2_pos S) - 53) + 1 = 9007199254740992 /\
      Zpos S mod 2 ^ (Zpos (digits2_pos S) - 53) <> 0)).
Proof.
  intros Hd Hlo Hhi.
  pose proof (digits_range S) as HS.
  remember (Zpos (digits2_pos S)) as d eqn:Ed.
  remember (d - 53) as n eqn:En.
  assert (Hn : 0 < n) by lia.
  assert (Hpow : 2 ^ (d - 1) = 4503599627370496 * 2 ^ n /\
                 2 ^ d = 9007199254740992 * 2 ^ n).
  { split.
    - replace (d - 1) with (52 + n) by lia. rewrite Z.pow_add_r by lia. reflexivity.
    - replace d with (53 + n) at 1 by lia. rewrite Z.pow_add_r by lia. reflexivity. }
  destruct Hpow as [Hp1 Hp2]. rewrite Hp1, Hp2 in HS.
  assert (Hpn : 0 < 2 ^ n) by (apply Z.pow_pos_nonneg; lia).
  assert (Hq : 4503599627370496 <= Zpos S / 2 ^ n < 9007199254740992).
  { split.
    - apply Z.div_le_lower_bound; lia.
    - apply Z.div_lt_upper_bound; lia. }
  unfold binary_round_aux, shr_fexp at 1. cbn [Zdigits2]. rewrite <- Ed.
  rewrite (fexp_large (d + e)) by lia.
  replace (d + e - 53 - e) with n by lia.
  destruct n as [| np | np] eqn:Enp; try lia.
  cbn [shr shr_record_of_loc].
  set (it := iter_pos shr_1 np {| shr_m := Zpos S; shr_r := false; shr_s := false |}).
  destruct (iter_pos_m np {| shr_m := Zpos S; shr_r := false; shr_s := false |})
    as [Hm Pm]; [cbn; lia |].
  fold it in Hm, Pm. cbn [shr_m] in Hm.
  assert (Hin : inexact it = true -> Zpos S mod 2 ^ Zpos np <> 0).
  { intros H. apply iter_pos_inexact in H; [| cbn; lia].
    destruct H as [H | H]; [discriminate H | exact H]. }
  destruct (round_nearest_even_cases (shr_m it) it) as [Hr | [Hr Hi]]; rewrite Hr, Hm.
  - (* no increment *)
    destruct (Zpos S / 2 ^ Zpos np) as [| q | q] eqn:Eq; try lia.
    assert (Hdq : Zpos (digits2_pos q) = 53)
      by (apply digits_of_range; [lia |]; change (2 ^ (53 - 1)) with 4503599627370496;
          change (2 ^ 53) with 9007199254740992; lia).
    rewrite (shr_fexp_53 q (e + Zpos np) Hdq) by lia. cbn [shr_m].
    assert (Hle : (e + Zpos np <=? emax - prec) = true)
      by (apply Z.leb_le; unfold emax, prec; lia).
    rewrite Hle. exists q, (e + Zpos np).
    split; [reflexivity |]. split; [exact Hdq |]. left. split; [reflexivity |].
    left. reflexivity.
  - (* increment *)
    specialize (Hin Hi).
    destruct (Z.eq_dec (Zpos S / 2 ^ Zpos np + 1) 9007199254740992) as [Hc | Hc].
    + rewrite Hc, shr_fexp_carry by lia. cbn [shr_m].
      assert (Hle : (e + Zpos np + 1 <=? emax - prec) = true)
        by (apply Z.leb_le; unfold emax, prec; lia).
      rewrite Hle. exists 4503599627370496%positive, (e + Zpos np + 1).
      split; [reflexivity |]. split; [reflexivity |]. right.
      repeat split; assumption.
    + destruct (Zpos S / 2 ^ Zpos np + 1) as [| q | q] eqn:Eq; try lia.
      assert (Hdq : Zpos (digits2_pos q) = 53)
        by (apply digits_of_range; [lia |]; change (2 ^ (53 - 1)) with 4503599627370496;
            change (2 ^ 53) with 9007199254740992; lia).
      rewrite (shr_fexp_53 q (e + Zpos np) Hdq) by lia. cbn [shr_m].
      assert (Hle : (e + Zpos np <=? emax - prec) = true)
        by (apply Z.leb_le; unfold emax, prec; lia).
      rewrite Hle. exists q, (e + Zpos np).
      split; [reflexivity |]. split; [exact Hdq |]. left. split; [reflexivity |].
      right. split; [lia | exact Hin].
Qed.

Lemma unit_float_form (p : positive) :
  Zpos p < 9007199254740992 ->
  exists m e,
    unit_float (Zpos p) = S754_finite false m e /\
    Zpos (digits2_pos m) = 53 /\ -105 <= e <= -53.
Proof.
  intros Hp. unfold unit_float. cbn [binary_normalize]. unfold binary_round, shl_align.
  pose proof (digits_range p) as Hr.
  assert (Hsize : 1 <= Zpos (digits2_pos p) <= 53).
  { split; [lia |].
    destruct (Z.le_gt_cases (Zpos (digits2_pos p)) 53) as [H | H]; [exact H | exfalso].
    assert (2 ^ 53 <= 2 ^ (Zpos (digits2_pos p) - 1)) by (apply Z.pow_le_mono_r; lia).
    change (2 ^ 53) with 9007199254740992 in *. lia. }
  assert (Hf : fexp prec emax (Zpos (digits2_pos p) + -53) = Zpos (digits2_pos p) - 106).
  { unfold fexp, SpecFloat.emin, prec, emax.
    change (IntDef.Z.max ?a ?b) with (Z.max a b). lia. }
  rewrite Hf.
  replace (Zpos (digits2_pos p) - 106 - -53) with (Zpos (digits2_pos p) - 53) by lia.
  destruct (Zpos (digits2_pos p) - 53) as [| d | d] eqn:Hd; try lia.
  - exists p, (-53). split; [apply binary_round_aux_exact; lia |]. split; lia.
  - exists (Pos.iter xO p d), (Zpos (digits2_pos p) - 106).
    assert (Hdig : Zpos (digits2_pos (Pos.iter xO p d)) = 53)
      by (rewrite iter_xO_digits; lia).
    split; [apply binary_round_aux_exact; [exact Hdig | lia] |].
    split; [exact Hdig | lia].
Qed.

Lemma mantissa_53 (m : positive) :
  Zpos (digits2_pos m) = 53 -> 4503599627370496 <= Zpos m < 9007199254740992.
Proof. apply digits2_pos_53. Qed.

(** Doubling is exact. *)
Lemma double_exact (m : positive) (e : Z) :
  Zpos (digits2_pos m) = 53 -> -1074 <= e -> e <= 900 ->
  SFmul prec emax (S754_finite false 4503599627370496 (-51)) (S754_finite false m e) =
  S754_finite false m (e + 1).
Proof.
  intros Hd Hlo Hhi. pose proof (mantissa_53 m Hd) as Hm.
  cbn [SFmul xorb].
  assert (HS : Zpos (4503599627370496 * m) = Zpos m * 2 ^ 52)
    by (rewrite Pos2Z.inj_mul; change (2 ^ 52) with 4503599627370496; lia).
  assert (Hdig : Zpos (digits2_pos (4503599627370496 * m)) = 105).
  { apply digits_of_range; [lia |]. rewrite HS.
    change (2 ^ (105 - 1)) with (4503599627370496 * 2 ^ 52).
    change (2 ^ 105) with (9007199254740992 * 2 ^ 52).
    assert (0 < 2 ^ 52) by reflexivity. nia. }
  destruct (round_aux_spec false (4503599627370496 * m) (-51 + e))
    as (m' & e' & Hrun & _ & Hcases); rewrite ?Hdig; try lia.
  rewrite Hdig in Hcases. change (105 - 53) with 52 in Hcases.
  assert (Hq : Zpos (4503599627370496 * m) / 2 ^ 52 = Zpos m)
    by (rewrite HS; apply Z.div_mul; discriminate).
  assert (Hmod : Zpos (4503599627370496 * m) mod 2 ^ 52 = 0)
    by (rewrite HS; apply Z.mod_mul; discriminate).
  rewrite Hq, Hmod in Hcases.
  change (IntDef.Z.add (-51) e) with (-51 + e). rewrite Hrun.
  destruct Hcases as [[He' [Hm' | [_ Hne]]] | (_ & _ & _ & Hne)];
    try (exfalso; apply Hne; reflexivity).
  inversion Hm'; subst m'. f_equal. lia.
Qed.

(** Adding a double below 2 to 3.0 gives a double of 3.0 to 5.0. *)
Lemma add_three (m : positive) (e : Z) :
  Zpos (digits2_pos m) = 53 -> -104 <= e <= -52 ->
  exists m' e',
    SFadd prec emax (S754_finite false 6755399441055744 (-51)) (S754_finite false m e) =
      S754_finite false m' e' /\
    Zpos (digits2_pos m') = 53 /\
    ((e' = -51 /\ 6755399441055744 <= Zpos m') \/
     (e' = -50 /\ Zpos m' <= 5629499534213120)).
Proof.
  intros Hd He. pose proof (mantissa_53 m Hd) as Hm.
  cbn [SFadd]. change (IntDef.Z.min (-51) e) with (Z.min (-51) e).
  replace (Z.min (-51) e) with e by lia.
  unfold shl_align at 1 2.
  change (IntDef.Z.sub e (-51)) with (e - -51). change (IntDef.Z.sub e e) with (e - e).
  rewrite Z.sub_diag.
  destruct (e - -51) as [| dd | dd] eqn:Hdd; try lia.
  cbn [fst cond_Zopp].
  change (IntDef.Z.add (Zpos ?a) (Zpos ?b)) with (Zpos (a + b)).
  cbn [binary_normalize]. unfold binary_round, shl_align.
  remember (-52 - e) as t eqn:Et.
  assert (Ht : 0 <= t <= 52) by lia.
  assert (HP : 0 < 2 ^ t) by (apply Z.pow_pos_nonneg; lia).
  assert (Hdd2 : 2 ^ Zpos dd = 2 * 2 ^ t).
  { replace (Zpos dd) with (1 + t) by lia. rewrite Z.pow_add_r by lia. reflexivity. }
  set (S := (Pos.iter xO 6755399441055744 dd + m)%positive).
  assert (HS : Zpos S = 13510798882111488 * 2 ^ t + Zpos m).
  { unfold S. rewrite Pos2Z.inj_add, iter_xO_value, Hdd2. lia. }
  assert (Hlow : 9007199254740992 * 2 ^ t <= Zpos S) by nia.
  assert (Hup : Zpos S < 22517998136852480 * 2 ^ t) by nia.
  assert (Hpw : forall c, 0 <= c -> 2 ^ (c + t) = 2 ^ c * 2 ^ t)
    by (intros c Hc; apply Z.pow_add_r; lia).
  destruct (Z.lt_ge_cases (Zpos S) (18014398509481984 * 2 ^ t)) as [Hs | Hs].
  - (* below 4 *)
    assert (Hdig : Zpos (digits2_pos S) = 54 + t).
    { apply digits_of_range; [lia |].
      replace (54 + t - 1) with (53 + t) by lia. rewrite !Hpw by lia.
      change (2 ^ 53) with 9007199254740992. change (2 ^ 54) with 18014398509481984. lia. }
    rewrite Hdig, (fexp_large (54 + t + e)) by lia.
    replace (54 + t + e - 53 - e) with (1 + t) by lia.
    destruct (1 + t) as [| u | u] eqn:Hu; try lia.
    destruct (round_aux_spec false S e) as (m' & e' & Hrun & Hd' & Hcases);
      rewrite ?Hdig; try lia.
    rewrite Hdig in Hcases. replace (54 + t - 53) with (1 + t) in Hcases by lia.
    rewrite Hrun. exists m', e'. split; [reflexivity |]. split; [exact Hd' |].
    assert (Hpow : 2 ^ (1 + t) = 2 * 2 ^ t) by (rewrite Z.pow_add_r by lia; reflexivity).
    rewrite Hu in Hpow.
    assert (Hq : 6755399441055744 <= Zpos S / 2 ^ (1 + t)).
    { rewrite Hu, Hpow. apply Z.div_le_lower_bound; nia. }
    rewrite Hu in Hq, Hcases.
    destruct Hcases as [[He' [Hm' | [Hm' _]]] | (He' & Hm' & _)].
    + left. split; lia.
    + left. split; lia.
    + right. split; lia.
  - (* 4 and above *)
    assert (Hdig : Zpos (digits2_pos S) = 55 + t).
    { apply digits_of_range; [lia |].
      replace (55 + t - 1) with (54 + t) by lia. rewrite !Hpw by lia.
      change (2 ^ 54) with 18014398509481984. change (2 ^ 55) with 36028797018963968. lia. }
    rewrite Hdig, (fexp_large (55 + t + e)) by lia.
    replace (55 + t + e - 53 - e) with (2 + t) by lia.
    destruct (2 + t) as [| u | u] eqn:Hu; try lia.
    destruct (round_aux_spec false S e) as (m' & e' & Hrun & Hd' & Hcases);
      rewrite ?Hdig; try lia.
    rewrite Hdig in Hcases. replace (55 + t - 53) with (2 + t) in Hcases by lia.
    rewrite Hrun. exists m', e'. split; [reflexivity |]. split; [exact Hd' |].
    assert (Hpow : 2 ^ (2 + t) = 4 * 2 ^ t) by (rewrite Z.pow_add_r by lia; reflexivity).
    rewrite Hu in Hpow.
    assert (Hq : Zpos S / 2 ^ (2 + t) < 5629499534213120).
    { rewrite Hu, Hpow. apply Z.div_lt_upper_bound; nia. }
    rewrite Hu in Hq, Hcases.
    destruct Hcases as [[He' [Hm' | [Hm' _]]] | (He' & Hm' & Hc & _)].
    + right. split; lia.
    + right. split; lia.
    + exfalso. lia.
Qed.

Lemma uniform_3_5 (k : Z) :
  0 <= k < 9007199254740992 ->
  valid_binary prec emax
    (uniform_value (PyFloat.of_Z 3) (PyFloat.of_Z 5) (unit_float k)) = true /\
  PyFloat.leb (PyFloat.of_Z 3)
    (uniform_value (PyFloat.of_Z 3) (PyFloat.of_Z 5) (unit_float k)) = true /\
  PyFloat.leb (uniform_value (PyFloat.of_Z 3) (PyFloat.of_Z 5) (unit_float k))
    (PyFloat.of_Z 5) = true.
Proof.
  intros Hk. unfold uniform_value.
  change (SFsub prec emax (PyFloat.of_Z 5) (PyFloat.of_Z 3))
    with (S754_finite false 4503599627370496 (-51)).
  change (PyFloat.of_Z 3) with (S754_finite false 6755399441055744 (-51)).
  change (PyFloat.of_Z 5) with (S754_finite false 5629499534213120 (-50)).
  destruct k as [| p | p]; try lia.
  - vm_compute. repeat split.
  - destruct (unit_float_form p (proj2 Hk)) as (m & e & -> & Hd & He).
    rewrite (double_exact m e Hd) by lia.
    destruct (add_three m (e + 1) Hd) as (m' & e' & -> & Hd' & Hcases); [lia |].
    pose proof (mantissa_53 m' Hd') as Hm'.
    assert (Hv : valid_binary prec emax (S754_finite false m' e') = true).
    { unfold valid_binary, bounded, canonical_mantissa. rewrite Hd'.
      apply andb_true_iff. split.
      - apply Z.eqb_eq. apply fexp_53. lia.
      - apply Z.leb_le. unfold emax, prec. lia. }
    split; [exact Hv |].
    unfold PyFloat.leb, SFleb, SFcompare. rewrite !compare_cont_Z.
    destruct Hcases as [[-> Hlo] | [-> Hhi]].
    + change (-51 ?= -51) with Eq. change (-51 ?= -50) with Lt.
      split; [| reflexivity].
      destruct (Z.compare_spec 6755399441055744 (Zpos m')); try reflexivity; lia.
    + change (-51 ?= -50) with Lt. change (-50 ?= -50) with Eq.
      split; [reflexivity |].
      destruct (Z.compare_spec (Zpos m') 5629499534213120); try reflexivity; lia.
Qed.

(** ** The synthetic generators *)

Lemma generates_bind {A B : Type} (Q : A -> Prop) (P : B -> Prop) (m : M A) (k : A -> M B) :
  generates Q m -> (forall a, Q a -> generates P (k a)) -> generates P (bind m k).
Proof.
  intros Hm Hk w. destruct (Hm w) as (a & w1 & Em & Qa & O1).
  destruct (Hk a Qa w1) as (b & w2 & Ek & Pb & O2).
  exists b, w2. unfold bind. rewrite Em.
  repeat split; try assumption; destruct O1 as (? & ? & ?), O2 as (? & ? & ?); congruence.
Qed.

Lemma generates_ret {A : Type} (P : A -> Prop) (a : A) : P a -> generates P (ret a).
Proof. intros H w. exists a, w. repeat split. exact H. Qed.

Lemma repeat_append_generates {A : Type} (P : A -> Prop) (m : M A) :
  generates P m ->
  forall n acc, Forall P acc ->
    generates (fun l => List.length l = (List.length acc + n)%nat /\ Forall P l)
              (repeat_append n m acc).
Proof.
  intros Hm. induction n as [| n IH]; intros acc Hacc; simpl.
  - apply generates_ret. split; [lia | exact Hacc].
  - apply generates_bind with (Q := P); [exact Hm |].
    intros x Px w.
    destruct (IH (acc ++ [x])%list ltac:(apply Forall_app; split; [exact Hacc | repeat constructor; exact Px]) w)
      as (l & w' & El & [Hlen Hall] & Ow).
    exists l, w'. repeat split; try assumption; try apply Ow.
    rewrite Hlen, length_app. simpl. lia.
Qed.

Lemma randint_generates (E : env) (a b : Z) :
  a <= b -> generates (fun x => a <= x <= b) (randint E a b).
Proof.
  intros Hab w. unfold randint, randbelow, bind, ret.
  do 2 eexists. split; [reflexivity |]. split; [| repeat split].
  apply randint_range. exact Hab.
Qed.

Lemma choice_generates {A : Type} (E : env) (seq : list A) (d : A) :
  seq <> [] -> generates (fun x => In x seq) (choice E seq d).
Proof.
  intros Hne w. unfold choice, randbelow, bind, ret.
  do 2 eexists. split; [reflexivity |]. split; [| repeat split].
  apply choice_in. exact Hne.
Qed.

Lemma uniform_generates (E : env) (a b : pyfloat) :
  generates (fun u => exists k, 0 <= k < 9007199254740992 /\
                                u = uniform_value a b (unit_float k))
            (uniform E a b).
Proof.
  intros w. unfold uniform, random, bind, ret.
  do 2 eexists. split; [reflexivity |]. split; [| repeat split].
  eexists. split; [| reflexivity].
  apply Z.mod_pos_bound. lia.
Qed.

Lemma generates_weaken {A : Type} (P Q : A -> Prop) (m : M A) :
  generates P m -> (forall a, P a -> Q a) -> generates Q m.
Proof.
  intros Hm HPQ w. destruct (Hm w) as (a & w' & Em & Pa & Ow). exists a, w'. auto.
Qed.

Lemma mock_flight_generates (E : env) (num_travelers : Z) :
  generates (synthetic_flight num_travelers) (mock_flight E num_travelers).
Proof.
  unfold mock_flight.
  eapply generates_bind; [apply choice_generates; discriminate | intros a Ha].
  eapply generates_bind; [apply (randint_generates E 6 22); lia | intros dep_hour Hdep].
  eapply generates_bind; [apply (randint_generates E 2 8); lia | intros duration_hours Hdur].
  eapply generates_bind; [apply (randint_generates E 0 2); lia | intros nstops Hstops].
  eapply generates_bind; [apply (randint_generates E 300 800); lia | intros base Hbase].
  eapply generates_bind; [apply (randint_generates E 0 59); lia | intros minutes Hmin].
  apply generates_ret.
  cbv beta in *.
  exists a, dep_hour, duration_hours, minutes, base.
  cbn [airline departure_time arrival_time duration stops flight_price].
  repeat split; try reflexivity; try lia. exact Ha.
Qed.

(** The shape of a synthetic hotel; its rating is a draw of
    [random.uniform(3.0, 5.0)] rounded to one decimal, so within 3.0..5.0. *)
Lemma mock_hotel_generates (E : env) (destination : string) (check_in_date check_out_date : Z) :
  generates (fun h => synthetic_hotel destination (check_out_date - check_in_date) h /\
                      rating_3_to_5 h)
            (mock_hotel E destination check_in_date check_out_date).
Proof.
  unfold mock_hotel.
  eapply generates_bind; [apply choice_generates; discriminate | intros n Hn].
  eapply generates_bind; [apply uniform_generates | intros u (k & Hk & Hu)].
  eapply generates_bind; [apply (randint_generates E 80 300); lia | intros p Hp].
  eapply generates_bind; [apply choice_generates; discriminate | intros am Ham].
  cbv beta in *. apply generates_ret. split.
  - unfold synthetic_hotel. cbn [name location rating price total_price amenities].
    repeat split; try reflexivity; try lia; try assumption.
    + exists n. split; [exact Hn | reflexivity].
    + exists u. reflexivity.
  - unfold rating_3_to_5. cbn [rating]. rewrite Hu.
    destruct (uniform_3_5 k Hk) as (Hv & H3 & H5). apply round1_3_to_5; assumption.
Qed.

Lemma mock_flights_generate (E : env) (destination : string) (date1 date2 num_travelers : Z) :
  generates (fun l => List.length l = 3%nat /\ Forall (synthetic_flight num_travelers) l)
            (_get_mock_flight_options E destination date1 date2 num_travelers).
Proof.
  exact (repeat_append_generates _ _ (mock_flight_generates E num_travelers) 3 [] (Forall_nil _)).
Qed.

Lemma mock_hotels_generate (E : env) (destination : string) (date1 date2 num_travelers : Z) :
  generates (fun l => List.length l = 3%nat /\
                      Forall (fun h => synthetic_hotel destination (date2 - date1) h /\
                                       rating_3_to_5 h) l)
            (_get_mock_hotel_options E destination date1 date2 num_travelers).
Proof.
  exact (repeat_append_generates _ _
           (mock_hotel_generates E destination date1 date2) 3 [] (Forall_nil _)).
Qed.

(** C9.  Whatever the random source draws, [_get_mock_flight_options] and
    [_get_mock_hotel_options] return: each gives exactly 3 offers, issues no
    request and leaves the token cache alone.  Each flight has an airline of
    the fixed set, a departure hour in 6..22, a duration of 2..8 hours, 0..2
    stops and a price of 300..800 per traveler times the traveler count; each
    hotel has a nightly price in 80..300 and a rating in 3.0..5.0, the
    rating being [round(3.0 + (5.0 - 3.0) * random(), 1)] computed in
    binary64. *)
Theorem synthetic_generators
    (E : env) (destination : string) (date1 date2 num_travelers : Z) :
  generates (fun l => List.length l = 3%nat /\ Forall (synthetic_flight num_travelers) l)
            (_get_mock_flight_options E destination date1 date2 num_travelers) /\
  generates (fun l => List.length l = 3%nat /\
                      Forall (fun h => synthetic_hotel destination (date2 - date1) h /\
                                       rating_3_to_5 h) l)
            (_get_mock_hotel_options E destination date1 date2 num_travelers).
Proof.
  split; [apply mock_flights_generate | apply mock_hotels_generate].
Qed.

(** ** Token and location lookups never raise *)

Lemma returns_datetime_now (E : env) : returns (fun _ => True) (datetime_now E).
Proof. intros w. unfold datetime_now. eauto. Qed.

Lemma returns_get_world : returns (fun _ => True) get_world.
Proof. intros w. unfold get_world. eauto. Qed.

Lemma token_returns (E : env) : returns (fun _ => True) (_get_amadeus_token E).
Proof.
  unfold _get_amadeus_token.
  eapply returns_bind; [apply returns_datetime_now | intros now _].
  eapply returns_bind; [apply returns_get_world | intros self _].
  destruct (token_valid self now).
  - apply returns_ret. exact I.
  - apply returns_try; [apply yields_any | intros _; apply returns_ret; exact I].
Qed.

Lemma iata_returns (E : env) (city_name : string) :
  returns (fun _ => True) (_get_iata_code E city_name).
Proof.
  unfold _get_iata_code.
  eapply returns_bind; [apply token_returns | intros token _].
  destruct (negb (truthy token)).
  - apply returns_ret. exact I.
  - apply returns_try; [apply yields_any | intros _; apply returns_ret; exact I].
Qed.

(** ** At most three raw records are looked at *)

Lemma take_length (n : nat) (s : string) : (String.length (PyStr.take n s) <= n)%nat.
Proof.
  unfold PyStr.take. revert s. induction n as [| n IH]; intros [| c s]; simpl; try lia.
  specialize (IH s). lia.
Qed.

Lemma chars_length (s : string) : List.length (chars s) = String.length s.
Proof. induction s; simpl; congruence. Qed.

Lemma slice_iterate_length (n : nat) (v first : json) (l : list json) :
  slice_to n v = Ok first -> iterate first = Ok l -> (List.length l <= n)%nat.
Proof.
  intros Hs Hi. destruct v; try discriminate; inversion Hs; subst; simpl in Hi;
    inversion Hi; subst.
  - rewrite chars_length. apply take_length.
  - apply firstn_le_length.
Qed.

Lemma flight_loop_length (offers : list json) :
  forall acc l, flight_loop offers acc = Ok l ->
    (List.length l <= List.length acc + List.length offers)%nat.
Proof.
  induction offers as [| o rest IH]; intros acc l H; simpl in H.
  - inversion H; subst. lia.
  - destruct (parse_flight_offer o) as [f | []]; try discriminate;
      apply IH in H; try rewrite length_app in H; simpl in *; lia.
Qed.

Lemma res_map_list_length {A B : Type} (f : A -> res B) (l : list A) :
  forall l', res_map_list f l = Ok l' -> List.length l' = List.length l.
Proof.
  induction l as [| x rest IH]; intros l' H; simpl in H.
  - inversion H. reflexivity.
  - destruct (f x); [| discriminate]. simpl in H.
    destruct (res_map_list f rest); [| discriminate]. simpl in H.
    inversion H; subst. simpl. f_equal. apply IH. reflexivity.
Qed.

Lemma hotel_loop_length (E : env) (destination : string) (d1 d2 n : Z) (ids : list json) :
  forall acc,
    returns (fun l => (List.length l <= List.length acc + List.length ids)%nat)
            (hotel_loop E destination d1 d2 n ids acc).
Proof.
  induction ids as [| id rest IH]; intros acc; simpl.
  - apply returns_ret. lia.
  - eapply returns_bind with (Q := fun _ => True).
    + apply returns_try; [apply yields_any | intros _; apply returns_ret; exact I].
    + intros r _. eapply returns_weaken; [apply IH |].
      intros l Hl. destruct r; try rewrite length_app in Hl; simpl in *; lia.
Qed.

(** C1.  Whatever the query, the cached token state and the upstream
    answers (a failed authentication, a transport error, an HTTP error
    status, a malformed or empty body at any endpoint), [get_flight_options]
    and [get_hotel_options] return, never raise, and the list returned holds
    at least one and at most three offers. *)
Theorem always_some_offers
    (E : env) (destination : string) (date1 date2 num_travelers : Z) :
  returns (fun l : list flight => (1 <= List.length l <= 3)%nat)
          (get_flight_options E destination date1 date2 num_travelers) /\
  returns (fun l : list hotel => (1 <= List.length l <= 3)%nat)
          (get_hotel_options E destination date1 date2 num_travelers).
Proof.
  assert (Hmf : returns (fun l : list flight => (1 <= List.length l <= 3)%nat)
                  (_get_mock_flight_options E destination date1 date2 num_travelers)).
  { eapply returns_weaken;
      [apply generates_returns; apply mock_flights_generate | intros l [Hl _]; lia]. }
  assert (Hmh : returns (fun l : list hotel => (1 <= List.length l <= 3)%nat)
                  (_get_mock_hotel_options E destination date1 date2 num_travelers)).
  { eapply returns_weaken;
      [apply generates_returns; apply mock_hotels_generate | intros l [Hl _]; lia]. }
  split.
  - unfold get_flight_options.
    eapply returns_bind; [apply token_returns | intros token _].
    destruct (negb (truthy token)); [exact Hmf |].
    eapply returns_bind; [apply iata_returns | intros code _].
    destruct (negb (truthy code)); [exact Hmf |].
    apply returns_try; [| intros _; exact Hmf].
    eapply yields_bind; [apply yields_any | intros data _].
    eapply yields_bind; [apply yields_any | intros found _].
    eapply yields_bind with
      (Q := fun first3 => forall l, iterate first3 = Ok l -> (List.length l <= 3)%nat).
    { apply yields_lift. intros first3 Hs l Hl.
      exact (slice_iterate_length 3 found first3 l Hs Hl). }
    intros first3 H3.
    eapply yields_bind with (Q := fun offers => (List.length offers <= 3)%nat);
      [apply yields_lift; exact H3 | intros offers Hoffers].
    eapply yields_bind with (Q := fun l : list flight => (List.length l <= 3)%nat).
    { apply yields_lift. intros l Hl. apply flight_loop_length in Hl. simpl in Hl. lia. }
    intros [| f l] Hl.
    + apply yields_of_returns. exact Hmf.
    + apply yields_ret. simpl in *. lia.
  - unfold get_hotel_options.
    eapply returns_bind; [apply token_returns | intros token _].
    destruct (negb (truthy token)); [exact Hmh |].
    eapply returns_bind; [apply iata_returns | intros code _].
    destruct (negb (truthy code)); [exact Hmh |].
    apply returns_try; [| intros _; exact Hmh].
    eapply yields_bind; [apply yields_any | intros data _].
    eapply yields_bind; [apply yields_any | intros found _].
    eapply yields_bind; [apply yields_any | intros empty _].
    destruct empty; [apply yields_of_returns; exact Hmh |].
    eapply yields_bind with
      (Q := fun first3 => forall l, iterate first3 = Ok l -> (List.length l <= 3)%nat).
    { apply yields_lift. intros first3 Hs l Hl.
      exact (slice_iterate_length 3 found first3 l Hs Hl). }
    intros first3 H3.
    eapply yields_bind with (Q := fun hotels => (List.length hotels <= 3)%nat);
      [apply yields_lift; exact H3 | intros hotels Hhotels].
    eapply yields_bind with (Q := fun ids => (List.length ids <= 3)%nat).
    { apply yields_lift. intros ids Hids. apply res_map_list_length in Hids. lia. }
    intros ids Hids.
    eapply yields_bind with (Q := fun l : list hotel => (List.length l <= 3)%nat).
    { apply yields_of_returns. eapply returns_weaken; [apply hotel_loop_length |].
      intros l Hl. simpl in Hl. lia. }
    intros [| h l] Hl.
    + apply yields_of_returns. exact Hmh.
    + apply yields_ret. simpl in *. lia.
Qed.

(** ** A stay of zero nights *)

Lemma div_int_zero (x : pyfloat) : PyFloat.div_int x 0 = Raise ZeroDivisionError.
Proof. reflexivity. Qed.

Lemma parse_hotel_zero_nights (destination : string) (found : json) (h : hotel) :
  parse_hotel_offer destination 0 found <> Ok h.
Proof.
  unfold parse_hotel_offer. intros H. res_steps H.
  match goal with
  | E : PyFloat.div_int _ 0 = Ok _ |- _ => rewrite div_int_zero in E; discriminate E
  end.
Qed.

(** Where a stay of one night parses, a stay of zero nights fails in the
    division of line 285. *)
Lemma parse_hotel_zero_division (destination : string) (found : json) (h : hotel) :
  parse_hotel_offer destination 1 found = Ok h ->
  parse_hotel_offer destination 0 found = Raise ZeroDivisionError.
Proof.
  unfold parse_hotel_offer. intros H.
  repeat match type of H with
         | res_bind (PyFloat.div_int _ _) _ = _ => fail 1
         | res_bind ?r _ = _ =>
             let E := fresh "E" in
             destruct r eqn:E; cbn [res_bind] in H |- *; [| discriminate H]
         end.
  rewrite div_int_zero. reflexivity.
Qed.

Lemma fetch_hotel_zero_nights (E : env) (destination : string) (d n : Z) (hotel_id : json) :
  yields (fun r => r = None) (fetch_hotel E destination d d n hotel_id).
Proof.
  unfold fetch_hotel. rewrite Z.sub_diag.
  eapply yields_bind; [apply yields_any | intros offers_data _].
  eapply yields_bind; [apply yields_any | intros found _].
  eapply yields_bind; [apply yields_any | intros empty _].
  destruct empty; [apply yields_ret; reflexivity |].
  eapply yields_bind with (Q := fun _ => False); [| intros ? []].
  apply yields_lift. intros h Hh. exact (parse_hotel_zero_nights _ _ _ Hh).
Qed.

Lemma hotel_loop_zero_nights (E : env) (destination : string) (d n : Z) (ids : list json) :
  forall acc, returns (fun l => l = acc) (hotel_loop E destination d d n ids acc).
Proof.
  induction ids as [| id rest IH]; intros acc; simpl.
  - apply returns_ret. reflexivity.
  - eapply returns_bind with (Q := fun r => r = None).
    + apply returns_try; [apply fetch_hotel_zero_nights |].
      intros _. apply returns_ret. reflexivity.
    + intros r ->. apply IH.
Qed.

(** C10.  With [check_out_date] equal to [check_in_date], [get_hotel_options]
    returns whatever the upstream answers: a hotel body that would parse for
    a one-night stay raises [ZeroDivisionError] in the per-night division, no
    hotel body parses, the per-hotel handler skips every hotel (the loop
    leaves [hotel_options] as it found it), and the result is exactly 3
    synthetic hotels, each with [total_price] 0. *)
Theorem same_day_stay_is_synthetic
    (E : env) (destination : string) (date num_travelers : Z) :
  (forall found h, parse_hotel_offer destination 1 found = Ok h ->
                   parse_hotel_offer destination (date - date) found =
                   Raise ZeroDivisionError) /\
  (forall found h, parse_hotel_offer destination (date - date) found <> Ok h) /\
  (forall ids acc, returns (fun l => l = acc)
                           (hotel_loop E destination date date num_travelers ids acc)) /\
  returns (fun l => List.length l = 3%nat /\
                    Forall (fun h => synthetic_hotel destination 0 h /\ total_price h = 0) l)
          (get_hotel_options E destination date date num_travelers).
Proof.
  rewrite Z.sub_diag.
  split; [exact (parse_hotel_zero_division destination) |].
  split; [exact (parse_hotel_zero_nights destination) |].
  split; [exact (hotel_loop_zero_nights E destination date num_travelers) |].
  assert (Hm : returns (fun l => List.length l = 3%nat /\
                 Forall (fun h => synthetic_hotel destination 0 h /\ total_price h = 0) l)
                 (_get_mock_hotel_options E destination date date num_travelers)).
  { eapply returns_weaken; [apply generates_returns; apply mock_hotels_generate |].
    rewrite Z.sub_diag. intros l [Hlen Hall]. split; [exact Hlen |].
    apply Forall_impl with (2 := Hall). intros h [Hs _]. split; [exact Hs |].
    destruct Hs as (_ & _ & _ & _ & Ht & _). rewrite Ht. lia. }
  unfold get_hotel_options.
  eapply returns_bind; [apply token_returns | intros token _].
  destruct (negb (truthy token)); [exact Hm |].
  eapply returns_bind; [apply iata_returns | intros code _].
  destruct (negb (truthy code)); [exact Hm |].
  apply returns_try; [| intros _; exact Hm].
  eapply yields_bind; [apply yields_any | intros data _].
  eapply yields_bind; [apply yields_any | intros found _].
  eapply yields_bind; [apply yields_any | intros empty _].
  destruct empty; [apply yields_of_returns; exact Hm |].
  eapply yields_bind; [apply yields_any | intros first3 _].
  eapply yields_bind; [apply yields_any | intros hotels _].
  eapply yields_bind; [apply yields_any | intros ids _].
  eapply yields_bind with (Q := fun l : list hotel => l = []).
  { apply yields_of_returns. apply hotel_loop_zero_nights. }
  intros l ->. apply yields_of_returns. exact Hm.
Qed.

Lemma same_day_stay_is_synthetic_witness :
  parse_hotel_offer "Paris" 1 (sample_offers_body (JStr "4") (JStr "300.00") []) =
    Ok (Hotel (JStr "Ritz") (Str "Paris") (PyFloat.of_Z 4) 300 300 default_amenities) /\
  parse_hotel_offer "Paris" (10 - 10) (sample_offers_body (JStr "4") (JStr "300.00") []) =
    Raise ZeroDivisionError.
Proof.
  split; [vm_compute; reflexivity |].
  apply (proj1 (same_day_stay_is_synthetic (scripted []) "Paris" 10 2)
               (sample_offers_body (JStr "4") (JStr "300.00") [])
               (Hotel (JStr "Ritz") (Str "Paris") (PyFloat.of_Z 4) 300 300
                      default_amenities)).
  vm_compute. reflexivity.
Defined.

(** ** One upstream hotel *)

(** What a successful parse went through. *)
Lemma parse_hotel_offer_inv (destination : string) (nights : Z) (found : json) (h : hotel) :
  parse_hotel_offer destination nights found = Ok h ->
  exists first hotel_data offers offer rating_raw r price_obj total total_f per_night ams,
    get_first found = Ok first /\
    get_item first "hotel" = Ok hotel_data /\
    get_item first "offers" = Ok offers /\
    get_first offers = Ok offer /\
    dict_get hotel_data "rating" (JStr "3") = Ok rating_raw /\
    rating_of rating_raw = Ok r /\
    get_item offer "price" = Ok price_obj /\
    get_item price_obj "total" = Ok total /\
    py_float total = Ok total_f /\
    PyFloat.div_int total_f nights = Ok per_night /\
    amenities_of hotel_data = Ok ams /\
    rating h = PyFloat.round1 r /\
    PyFloat.round0 per_night = Ok (price h) /\
    PyFloat.round0 total_f = Ok (total_price h) /\
    amenities h = firstn 5 ams.
Proof.
  unfold parse_hotel_offer. intros H. res_steps H. inversion H; subst; clear H.
  cbn [rating price total_price amenities].
  do 11 eexists.
  repeat match goal with |- _ /\ _ => split end; try eassumption; reflexivity.
Qed.

Lemma div_int_value (x y : pyfloat) (n : Z) :
  PyFloat.div_int x n = Ok y -> y = SFdiv prec emax x (PyFloat.of_Z n).
Proof.
  unfold PyFloat.div_int, PyFloat.of_int.
  destruct (PyFloat.of_Z n); cbn [res_bind]; intros H;
    try discriminate H; inversion H; reflexivity.
Qed.

(** ** Rating and amenities of an upstream hotel *)

Lemma rating_of_numeric (rating_raw : json) (r : pyfloat) :
  py_float rating_raw = Ok r -> rating_of rating_raw = Ok r.
Proof. unfold rating_of. intros ->. reflexivity. Qed.

Lemma rating_of_category (s : string) :
  PyStr.to_float s = None ->
  rating_of (JStr s) = Ok (match lookup s rating_map with
                           | Some r => r
                           | None => PyFloat.of_Z 3
                           end).
Proof. unfold rating_of, py_float. intros ->. reflexivity. Qed.

(** The category scores are left alone by [round(_, 1)]. *)
Lemma round1_category (s : string) :
  PyFloat.round1 (match lookup s rating_map with
                  | Some r => r
                  | None => PyFloat.of_Z 3
                  end) =
  match lookup s rating_map with
  | Some r => r
  | None => PyFloat.of_Z 3
  end.
Proof.
  unfold rating_map, lookup.
  repeat match goal with
         | |- context [String.eqb s ?k] => destruct (String.eqb s k)
         end; vm_compute; reflexivity.
Qed.

Lemma amenity_names_inv (items : list json) :
  forall names, res_map_list amenity_name items = Ok names ->
    exists tokens, items = map JStr tokens /\ names = map format_amenity tokens.
Proof.
  induction items as [| x rest IH]; intros names H; simpl in H.
  - inversion H. exists []. split; reflexivity.
  - unfold amenity_name at 1 in H. destruct x; try discriminate H.
    cbn [as_str res_bind] in H.
    destruct (res_map_list amenity_name rest) as [ns |]; [| discriminate H].
    cbn [res_bind] in H. inversion H; subst.
    destruct (IH ns eq_refl) as (tokens & -> & ->).
    exists (s :: tokens). split; reflexivity.
Qed.

Lemma amenities_of_inv (hotel_data : json) (ams : list PyStr.unicode) :
  amenities_of hotel_data = Ok ams ->
  exists raw tokens,
    dict_get hotel_data "amenities" (JArr []) = Ok raw /\
    iterate raw = Ok (map JStr tokens) /\
    ams = match tokens with
          | [] => default_amenities
          | _ => map format_amenity tokens
          end.
Proof.
  unfold amenities_of. intros H. res_steps H. inversion H; subst; clear H.
  destruct (amenity_names_inv _ _ E1) as (tokens & -> & ->).
  exists a, tokens. repeat split; try assumption.
  destruct tokens; reflexivity.
Qed.

(** ** Shape of every hotel offer *)

Lemma amenities_options_length (l : list PyStr.unicode) :
  In l amenities_options -> (List.length l <= 5)%nat.
Proof.
  unfold amenities_options. simpl.
  intros [<- | [<- | [<- | [<- | []]]]]; simpl; lia.
Qed.

Lemma fetch_hotel_yields (E : env) (P : hotel -> Prop) (destination : string)
    (d1 d2 n : Z) (hotel_id : json) :
  (forall found h, parse_hotel_offer destination (d2 - d1) found = Ok h -> P h) ->
  yields (fun r => forall h, r = Some h -> P h) (fetch_hotel E destination d1 d2 n hotel_id).
Proof.
  intros HP. unfold fetch_hotel.
  eapply yields_bind; [apply yields_any | intros offers_data _].
  eapply yields_bind; [apply yields_any | intros found _].
  eapply yields_bind; [apply yields_any | intros empty _].
  destruct empty; [apply yields_ret; discriminate |].
  eapply yields_bind with (Q := P).
  - apply yields_lift. intros h Hh. exact (HP found h Hh).
  - intros h Ph. apply yields_ret. intros h' Hh'. inversion Hh'; subst. exact Ph.
Qed.

Lemma hotel_loop_forall (E : env) (P : hotel -> Prop) (destination : string)
    (d1 d2 n : Z) (ids : list json) :
  (forall found h, parse_hotel_offer destination (d2 - d1) found = Ok h -> P h) ->
  forall acc, Forall P acc ->
    returns (Forall P) (hotel_loop E destination d1 d2 n ids acc).
Proof.
  intros HP. induction ids as [| id rest IH]; intros acc Hacc; simpl.
  - apply returns_ret. exact Hacc.
  - eapply returns_bind with (Q := fun r => forall h, r = Some h -> P h).
    + apply returns_try; [apply fetch_hotel_yields; exact HP |].
      intros _. apply returns_ret. discriminate.
    + intros [h |] Hr; apply IH; [| exact Hacc].
      apply Forall_app. split; [exact Hacc |]. repeat constructor. apply Hr. reflexivity.
Qed.

(** X21.  Every hotel [get_hotel_options] returns, built from an upstream
    answer or synthetic, has at most 5 amenities. *)
Theorem at_most_five_amenities
    (E : env) (destination : string) (date1 date2 num_travelers : Z) :
  returns (Forall (fun h => (List.length (amenities h) <= 5)%nat))
          (get_hotel_options E destination date1 date2 num_travelers).
Proof.
  assert (Hm : returns (Forall (fun h => (List.length (amenities h) <= 5)%nat))
                 (_get_mock_hotel_options E destination date1 date2 num_travelers)).
  { eapply returns_weaken; [apply generates_returns; apply mock_hotels_generate |].
    intros l [_ Hall]. apply Forall_impl with (2 := Hall). intros h [Hs _].
    destruct Hs as (_ & _ & _ & _ & _ & Ham). apply amenities_options_length. exact Ham. }
  unfold get_hotel_options.
  eapply returns_bind; [apply token_returns | intros token _].
  destruct (negb (truthy token)); [exact Hm |].
  eapply returns_bind; [apply iata_returns | intros code _].
  destruct (negb (truthy code)); [exact Hm |].
  apply returns_try; [| intros _; exact Hm].
  eapply yields_bind; [apply yields_any | intros data _].
  eapply yields_bind; [apply yields_any | intros found _].
  eapply yields_bind; [apply yields_any | intros empty _].
  destruct empty; [apply yields_of_returns; exact Hm |].
  eapply yields_bind; [apply yields_any | intros first3 _].
  eapply yields_bind; [apply yields_any | intros hotels _].
  eapply yields_bind; [apply yields_any | intros ids _].
  eapply yields_bind with (Q := Forall (fun h => (List.length (amenities h) <= 5)%nat)).
  { apply yields_of_returns. apply hotel_loop_forall with (acc := []).
    - intros found' h Hh.
      destruct (parse_hotel_offer_inv _ _ _ _ Hh)
        as (first & hotel_data & offers & offer & rating_raw & r & price_obj & total &
            total_f & per_night & ams & H1 & H2 & H3 & H4 & H5 & H6 & H7 & H8 & H9 &
            H10 & H11 & H12 & H13 & H14 & H15).
      rewrite H15. apply firstn_le_length.
    - constructor. }
  intros [| h l] Hl.
  - apply yields_of_returns. exact Hm.
  - apply yields_ret. exact Hl.
Qed.

(** C5.  The upstream states a rating of "7" for the one listed hotel:
    [get_hotel_options] returns that hotel with a rating of 7.0, above the
    5.0 the claim and the comment of line 275 (a 5-point scale) promise.
    Lines 277-282 and 299 pass a numeric rating on without a range check. *)
Theorem rating_above_five_is_returned :
  exists h w',
    get_hotel_options
      (scripted [sample_token; sample_city; sample_hotel_list;
                 Ok (JObj [("data", sample_offers_body (JStr "7") (JStr "300.00") [])])])
      "Paris" 10 13 2 init = (Ok [h], w') /\
    rating h = PyFloat.of_Z 7 /\
    PyFloat.leb (rating h) (PyFloat.of_Z 5) = false.
Proof.
  eexists. eexists. split; [vm_compute; reflexivity |].
  split; vm_compute; reflexivity.
Qed.

(** ** The flight search *)

Lemma flight_search_result
    (E : env) (destination : string) (date1 date2 n : Z)
    (w : world) (raw : list json) (w' : world) :
  flight_search_reaches E destination date1 date2 n w raw w' ->
  get_flight_options E destination date1 date2 n w =
  match flight_loop (firstn 3 raw) [] with
  | Ok (f :: l) => (Ok (f :: l), w')
  | _ => _get_mock_flight_options E destination date1 date2 n w'
  end.
Proof.
  intros (token & w1 & code & w2 & data & Htok & Tt & Hcode & Tc & Hup & Hdata & ->).
  unfold get_flight_options, bind at 1. rewrite Htok, Tt. cbn [negb].
  unfold bind at 1. rewrite Hcode, Tc. cbn [negb].
  unfold try_catch, bind, http, lift. rewrite Hup, Hdata.
  cbn [slice_to iterate].
  destruct (flight_loop (firstn 3 raw) []) as [[| f l] | e]; cbv beta iota.
  - destruct (mock_flights_generate E destination date1 date2 n
                (log_request (FlightOffersRequest code date1 date2 n) w2))
      as (l & w'' & -> & _).
    reflexivity.
  - reflexivity.
  - reflexivity.
Qed.

Lemma flight_loop_parsed (offers : list json) (fs : list flight) :
  Forall2 (fun o f => parse_flight_offer o = Ok f) offers fs ->
  forall acc, flight_loop offers acc = Ok (acc ++ fs)%list.
Proof.
  induction 1 as [| o f offers fs Ho _ IH]; intros acc; simpl.
  - rewrite app_nil_r. reflexivity.
  - rewrite Ho, IH, <- app_assoc. reflexivity.
Qed.

Lemma flight_loop_survivors (offers : list json) :
  (forall o, In o offers -> skippable (parse_flight_offer o)) ->
  forall acc, flight_loop offers acc = Ok (acc ++ survivors offers)%list.
Proof.
  induction offers as [| o rest IH]; intros Hs acc; simpl.
  - rewrite app_nil_r. reflexivity.
  - assert (Ho := Hs o (or_introl eq_refl)).
    assert (Hrest : forall o', In o' rest -> skippable (parse_flight_offer o'))
      by (intros o' Hin; apply Hs; right; exact Hin).
    unfold survivors in *. simpl.
    destruct (parse_flight_offer o) as [f | []]; simpl in Ho; try contradiction;
      rewrite (IH Hrest); try rewrite <- app_assoc; reflexivity.
Qed.

Lemma flight_loop_aborts (offers : list json) :
  (exists o, In o offers /\ ~ skippable (parse_flight_offer o)) ->
  forall acc, exists e, flight_loop offers acc = Raise e.
Proof.
  induction offers as [| o rest IH]; intros (o' & Hin & Hno) acc.
  - destruct Hin.
  - simpl. destruct Hin as [<- | Hin].
    + destruct (parse_flight_offer o) as [f | []]; simpl in Hno;
        try (exfalso; apply Hno; exact I); eexists; reflexivity.
    + assert (Hex : exists o, In o rest /\ ~ skippable (parse_flight_offer o))
        by (exists o'; split; assumption).
      destruct (parse_flight_offer o) as [f | []];
        try (eexists; reflexivity); apply IH; exact Hex.
Qed.

(** C7.  When the flight search is reached and the first three raw offers
    of its answer parse, [get_flight_options] returns exactly those parses,
    in upstream order; with 5 raw offers that is exactly 3 offers.  In
    general the result is a function of the first three raw offers alone,
    and never holds more than 3. *)
Theorem first_three_flights
    (E : env) (destination : string) (date1 date2 num_travelers : Z)
    (w : world) (raw : list json) (w' : world) (fs : list flight) :
  flight_search_reaches E destination date1 date2 num_travelers w raw w' ->
  Forall2 (fun o f => parse_flight_offer o = Ok f) (firstn 3 raw) fs ->
  (raw <> [] ->
   get_flight_options E destination date1 date2 num_travelers w = (Ok fs, w')) /\
  (List.length raw = 5%nat -> List.length fs = 3%nat) /\
  (List.length fs <= 3)%nat /\
  get_flight_options E destination date1 date2 num_travelers w =
    match flight_loop (firstn 3 raw) [] with
    | Ok (f :: l) => (Ok (f :: l), w')
    | _ => _get_mock_flight_options E destination date1 date2 num_travelers w'
    end.
Proof.
  intros Hreach Hparse.
  pose proof (flight_search_result _ _ _ _ _ _ _ _ Hreach) as Hres.
  pose proof (Forall2_length Hparse) as Hlen.
  split; [| split; [| split]].
  - intros Hne. rewrite Hres, (flight_loop_parsed _ _ Hparse). simpl.
    destruct fs as [| f l]; [| reflexivity].
    destruct raw; [congruence | discriminate Hlen].
  - intros H5. rewrite <- Hlen, length_firstn. lia.
  - rewrite <- Hlen. apply firstn_le_length.
  - exact Hres.
Qed.

(** X20.  In the flight search, an offer whose parsing raises [KeyError]
    or [IndexError] is skipped by the handler of line 189 and the rest of
    the batch is still parsed: when the first three raw offers fail in no
    other way, the result is the offers that parse, in order, and the
    synthetic fallback is taken exactly when none does.  An offer failing
    with any other exception reaches the handler of line 199, and the whole
    call answers with synthetic offers.  Given 3 raw offers of which the 2nd
    is an object without a ["price"] field and the others parse, the result
    is the 2 parsed offers. *)
Theorem skipped_flight_offers
    (E : env) (destination : string) (date1 date2 num_travelers : Z)
    (w : world) (raw : list json) (w' : world) :
  flight_search_reaches E destination date1 date2 num_travelers w raw w' ->
  ((forall o, In o (firstn 3 raw) -> skippable (parse_flight_offer o)) ->
   (survivors (firstn 3 raw) <> [] ->
    get_flight_options E destination date1 date2 num_travelers w =
      (Ok (survivors (firstn 3 raw)), w')) /\
   (survivors (firstn 3 raw) = [] ->
    get_flight_options E destination date1 date2 num_travelers w =
      _get_mock_flight_options E destination date1 date2 num_travelers w')) /\
  ((exists o, In o (firstn 3 raw) /\ ~ skippable (parse_flight_offer o)) ->
   get_flight_options E destination date1 date2 num_travelers w =
     _get_mock_flight_options E destination date1 date2 num_travelers w') /\
  (forall o1 fields o3 f1 f3,
     raw = [o1; JObj fields; o3] ->
     lookup "price" fields = None ->
     parse_flight_offer o1 = Ok f1 ->
     parse_flight_offer o3 = Ok f3 ->
     get_flight_options E destination date1 date2 num_travelers w = (Ok [f1; f3], w')).
Proof.
  intros Hreach.
  pose proof (flight_search_result _ _ _ _ _ _ _ _ Hreach) as Hres.
  split; [| split].
  - intros Hskip. rewrite Hres, (flight_loop_survivors _ Hskip). cbn [app].
    split.
    + destruct (survivors (firstn 3 raw)); intros Hne; [congruence | reflexivity].
    + intros ->. reflexivity.
  - intros Hbad. rewrite Hres.
    destruct (flight_loop_aborts _ Hbad []) as (e & ->). reflexivity.
  - intros o1 fields o3 f1 f3 -> Hprice H1 H3. rewrite Hres.
    cbn [firstn flight_loop]. rewrite H1.
    assert (H2 : parse_flight_offer (JObj fields) = Raise KeyError)
      by (unfold parse_flight_offer, get_item; rewrite Hprice; reflexivity).
    rewrite H2, H3. reflexivity.
Qed.

Lemma first_three_flights_witness :
  flight_search_reaches (scripted (sample_search five_offers)) "Paris" 10 15 2 init
                        five_offers sample_world_after_search /\
  Forall2 (fun o f => parse_flight_offer o = Ok f) (firstn 3 five_offers)
          [sample_flight "American Airlines" 512; sample_flight "Lufthansa" 498;
           sample_flight "ZZ" 641] /\
  get_flight_options (scripted (sample_search five_offers)) "Paris" 10 15 2 init =
    (Ok [sample_flight "American Airlines" 512; sample_flight "Lufthansa" 498;
         sample_flight "ZZ" 641],
     sample_world_after_search).
Proof.
  assert (Hreach : flight_search_reaches (scripted (sample_search five_offers))
                     "Paris" 10 15 2 init five_offers sample_world_after_search).
  { exists (JStr "abc123"),
           (World (JStr "abc123") (Some 63000001739000000) [TokenRequest] 1 0),
           (JStr "PAR"),
           (World (JStr "abc123") (Some 63000001739000000)
                  [TokenRequest; CityRequest "Paris"] 2 0),
           (JObj [("data", JArr five_offers)]).
    repeat split. }
  assert (Hparse : Forall2 (fun o f => parse_flight_offer o = Ok f) (firstn 3 five_offers)
                     [sample_flight "American Airlines" 512; sample_flight "Lufthansa" 498;
                      sample_flight "ZZ" 641]).
  { repeat constructor. }
  split; [exact Hreach |]. split; [exact Hparse |].
  apply (proj1 (first_three_flights (scripted (sample_search five_offers)) "Paris"
                  10 15 2 init five_offers sample_world_after_search _ Hreach Hparse)).
  discriminate.
Defined.

Lemma skipped_flight_offers_witness :
  flight_search_reaches
    (scripted (sample_search [sample_flight_offer "AA" "512.40"; offer_without_price;
                              sample_flight_offer "LH" "498.00"]))
    "Paris" 10 15 2 init
    [sample_flight_offer "AA" "512.40"; offer_without_price;
     sample_flight_offer "LH" "498.00"]
    sample_world_after_search /\
  get_flight_options
    (scripted (sample_search [sample_flight_offer "AA" "512.40"; offer_without_price;
                              sample_flight_offer "LH" "498.00"]))
    "Paris" 10 15 2 init =
    (Ok [sample_flight "American Airlines" 512; sample_flight "Lufthansa" 498],
     sample_world_after_search).
Proof.
  assert (Hreach : flight_search_reaches
            (scripted (sample_search [sample_flight_offer "AA" "512.40"; offer_without_price;
                                      sample_flight_offer "LH" "498.00"]))
            "Paris" 10 15 2 init
            [sample_flight_offer "AA" "512.40"; offer_without_price;
             sample_flight_offer "LH" "498.00"]
            sample_world_after_search).
  { exists (JStr "abc123"),
           (World (JStr "abc123") (Some 63000001739000000) [TokenRequest] 1 0),
           (JStr "PAR"),
           (World (JStr "abc123") (Some 63000001739000000)
                  [TokenRequest; CityRequest "Paris"] 2 0),
           (JObj [("data", JArr [sample_flight_offer "AA" "512.40"; offer_without_price;
                                 sample_flight_offer "LH" "498.00"])]).
    repeat split. }
  split; [exact Hreach |].
  apply (proj2 (proj2 (skipped_flight_offers _ _ _ _ _ _ _ _ Hreach))
           (sample_flight_offer "AA" "512.40")
           [("itineraries", sample_itineraries "UA")]
           (sample_flight_offer "LH" "498.00")); reflexivity.
Defined.

(** C2.  The 2nd of 3 raw offers carries its price as a string in place of
    an object, the other two parse.  Parsing the 2nd raises [TypeError],
    which the handler of line 189 ([except (KeyError, IndexError)]) does not
    catch: the batch is given up and the call returns three synthetic
    offers, not the two offers that parse.  The hotel loop, at line 307,
    skips a hotel on any exception. *)
Theorem shape_mismatch_aborts_batch :
  parse_flight_offer (sample_flight_offer "AA" "512.40") =
    Ok (sample_flight "American Airlines" 512) /\
  parse_flight_offer offer_with_text_price = Raise TypeError /\
  parse_flight_offer (sample_flight_offer "LH" "498.00") =
    Ok (sample_flight "Lufthansa" 498) /\
  get_flight_options
    (scripted (sample_search [sample_flight_offer "AA" "512.40"; offer_with_text_price;
                              sample_flight_offer "LH" "498.00"]))
    "Paris" 10 15 2 init =
  _get_mock_flight_options
    (scripted (sample_search [sample_flight_offer "AA" "512.40"; offer_with_text_price;
                              sample_flight_offer "LH" "498.00"]))
    "Paris" 10 15 2 sample_world_after_search /\
  fst (get_flight_options
         (scripted (sample_search [sample_flight_offer "AA" "512.40"; offer_with_text_price;
                                   sample_flight_offer "LH" "498.00"]))
         "Paris" 10 15 2 init) <>
  Ok [sample_flight "American Airlines" 512; sample_flight "Lufthansa" 498].
Proof.
  repeat split; try (vm_compute; reflexivity).
  vm_compute. discriminate.
Qed.

(** ** The token cache *)

(** The three ways a call that does not hit the cache can end: the exchange
    succeeds; it fails before line 50 and leaves both fields alone; it fails
    after line 50 has stored the new token. *)
Lemma token_refresh_cases (E : env) (w : world) :
  token_valid w (clock E (clock_reads w)) = false ->
  (exists body tok expires_in secs delta,
     upstream E (List.length (requests w)) = Ok body /\
     get_item body "access_token" = Ok tok /\
     get_item body "expires_in" = Ok expires_in /\
     py_sub expires_in 60 = Ok secs /\
     timedelta_seconds secs = Ok delta /\
     datetime_add (clock E (clock_reads w)) delta = Ok (clock E (clock_reads w) + delta) /\
     _get_amadeus_token E w =
       (Ok tok, World tok (Some (clock E (clock_reads w) + delta))
                      (requests w ++ [TokenRequest]) (S (clock_reads w)) (rng_reads w))) \/
  _get_amadeus_token E w =
    (Ok JNull, World (access_token w) (token_expiry w)
                     (requests w ++ [TokenRequest]) (S (clock_reads w)) (rng_reads w)) \/
  (exists body tok,
     upstream E (List.length (requests w)) = Ok body /\
     get_item body "access_token" = Ok tok /\
     _get_amadeus_token E w =
       (Ok JNull, World tok (token_expiry w)
                        (requests w ++ [TokenRequest]) (S (clock_reads w)) (rng_reads w))).
Proof.
  intros Hv. remember (_get_amadeus_token E w) as run eqn:Hrun.
  unfold _get_amadeus_token, bind at 1, datetime_now in Hrun.
  unfold bind at 1, get_world in Hrun.
  unfold token_valid in *. cbn [access_token token_expiry clock_reads] in *.
  rewrite Hv in Hrun.
  unfold try_catch, bind, http, lift, set_access_token, set_token_expiry, get_world,
    log_request, ret in Hrun.
  cbn [access_token token_expiry requests clock_reads rng_reads] in Hrun.
  destruct (upstream E (List.length (requests w))) as [body | e] eqn:Hup;
    [| right; left; exact Hrun].
  destruct (get_item body "access_token") as [tok | e] eqn:Htok;
    [| right; left; exact Hrun].
  destruct (get_item body "expires_in") as [ei | e] eqn:Hei;
    [| right; right; exists body, tok; repeat split; assumption].
  destruct (py_sub ei 60) as [secs | e] eqn:Hsecs;
    [| right; right; exists body, tok; repeat split; assumption].
  destruct (timedelta_seconds secs) as [delta | e] eqn:Hdelta;
    [| right; right; exists body, tok; repeat split; assumption].
  destruct (datetime_add (clock E (clock_reads w)) delta) as [expiry | e] eqn:Hadd;
    [| right; right; exists body, tok; repeat split; assumption].
  left. exists body, tok, ei, secs, delta.
  assert (expiry = clock E (clock_reads w) + delta).
  { unfold datetime_add in Hadd.
    destruct ((0 <=? clock E (clock_reads w) + delta) &&
              (clock E (clock_reads w) + delta <? datetime_end));
      [inversion Hadd; reflexivity | discriminate Hadd]. }
  subst expiry. repeat split; assumption.
Qed.

Lemma token_cache_hit (E : env) (w : world) :
  token_valid w (clock E (clock_reads w)) = true ->
  _get_amadeus_token E w =
    (Ok (access_token w),
     World (access_token w) (token_expiry w) (requests w) (S (clock_reads w)) (rng_reads w)).
Proof.
  intros Hv. unfold _get_amadeus_token, bind at 1, datetime_now.
  unfold bind at 1, get_world.
  unfold token_valid in *. cbn [access_token token_expiry clock_reads] in *.
  rewrite Hv. reflexivity.
Qed.

(** C3.  Three calls on a fresh instance, 100 seconds apart.  The first
    exchange answers with an empty token and a lifetime of 1799 seconds: the
    expiry is stored.  The second call finds the token falsy and asks again;
    the answer carries the token "NEW" and its lifetime as the text "30".
    Line 50 stores "NEW", line 52 raises [TypeError], and the expiry of the
    first answer stays in place.  The third call, 100 seconds after "NEW"
    was issued for 30 seconds, hands "NEW" out of the cache without a
    request. *)
Theorem stale_expiry_covers_new_token :
  exists w1 w2 w3,
    _get_amadeus_token slow_token_exchange init = (Ok (JStr ""), w1) /\
    _get_amadeus_token slow_token_exchange w1 = (Ok JNull, w2) /\
    _get_amadeus_token slow_token_exchange w2 = (Ok (JStr "NEW"), w3) /\
    access_token w2 = JStr "NEW" /\
    token_expiry w2 = token_expiry w1 /\
    requests w3 = requests w2 /\
    requests w3 = [TokenRequest; TokenRequest] /\
    clock slow_token_exchange 1 + 30 * us_per_second < clock slow_token_exchange 2.
Proof.
  do 3 eexists.
  split; [vm_compute; reflexivity |].
  split; [vm_compute; reflexivity |].
  split; [vm_compute; reflexivity |].
  repeat split.
Qed.

(** ** A failed exchange (C4)

    The token endpoint answers with a body that has an ["access_token"] but
    no ["expires_in"], while the cache holds an expired pair.  The call
    returns [None] without raising, yet line 50 has already stored the new
    token: the cache is left holding the new token next to the old expiry. *)
Theorem failed_refresh_overwrites_token :
  _get_amadeus_token
    (scripted [Ok (JObj [("access_token", JStr "NEW")])])
    (World (JStr "OLD") (Some 0) [] 0 0) =
  (Ok JNull, World (JStr "NEW") (Some 0) [TokenRequest] 1 0).
Proof. vm_compute. reflexivity. Qed.

(** * Further properties *)

(** ** One token call *)

Lemma token_valid_cached (w : world) (now : Z) :
  token_valid w now = true ->
  truthy (access_token w) = true /\
  exists expiry, token_expiry w = Some expiry /\ now < expiry.
Proof.
  unfold token_valid. intros H. apply andb_true_iff in H. destruct H as [Ht He].
  split; [exact Ht |]. destruct (token_expiry w) as [expiry |]; [| discriminate He].
  exists expiry. split; [reflexivity | apply Z.ltb_lt; exact He].
Qed.

Lemma token_step (E : env) (w : world) :
  exists tok w1 t,
    _get_amadeus_token E w = (Ok tok, w1) /\
    requests w1 = (requests w ++ t)%list /\
    optional TokenRequest t /\
    clock_reads w1 = S (clock_reads w) /\
    rng_reads w1 = rng_reads w /\
    (truthy tok = true ->
     access_token w1 = tok /\ exists expiry, token_expiry w1 = Some expiry).
Proof.
  destruct (token_valid w (clock E (clock_reads w))) eqn:Hv.
  - rewrite (token_cache_hit E w Hv). do 2 eexists. exists [].
    split; [reflexivity |].
    cbn [requests clock_reads rng_reads access_token token_expiry].
    rewrite app_nil_r. repeat split; try (left; reflexivity).
    destruct (token_valid_cached _ _ Hv) as (_ & expiry & He & _).
    exists expiry. exact He.
  - destruct (token_refresh_cases E w Hv)
      as [(body & tok & ei & secs & delta & _ & _ & _ & _ & _ & _ & Hr) |
          [Hr | (body & tok & _ & _ & Hr)]];
      rewrite Hr; do 2 eexists; exists [TokenRequest];
      cbn [requests clock_reads rng_reads access_token token_expiry];
      (split; [reflexivity |]); repeat split; try (right; reflexivity);
      try discriminate.
    eexists. reflexivity.
Qed.

(** X1.  A call of [_get_amadeus_token] never raises, reads the clock once
    and issues no request or exactly one, the token request.  What it
    returns is falsy, or it is the token the instance now holds, and the
    instance holds an expiry with it. *)
Theorem token_call_outcomes (E : env) (w : world) :
  exists tok w',
    _get_amadeus_token E w = (Ok tok, w') /\
    clock_reads w' = S (clock_reads w) /\
    (requests w' = requests w \/ requests w' = (requests w ++ [TokenRequest])%list) /\
    (truthy tok = false \/
     access_token w' = tok /\ exists expiry, token_expiry w' = Some expiry).
Proof.
  destruct (token_step E w) as (tok & w1 & t & Hrun & Hreq & Ht & Hclock & _ & Htok).
  exists tok, w1. split; [exact Hrun |]. split; [exact Hclock |]. split.
  - destruct Ht as [-> | ->]; [left; rewrite Hreq; apply app_nil_r | right; exact Hreq].
  - destruct (truthy tok); [right; apply Htok; reflexivity | left; reflexivity].
Qed.

(** ** The city lookup *)

Lemma iata_without_token (E : env) (city_name : string) (w w1 : world) (tok : json) :
  _get_amadeus_token E w = (Ok tok, w1) ->
  truthy tok = false ->
  _get_iata_code E city_name w = (Ok JNull, w1).
Proof.
  intros Hrun Ht. unfold _get_iata_code, bind at 1. rewrite Hrun, Ht. reflexivity.
Qed.

Lemma iata_with_token (E : env) (city_name : string) (w w1 : world) (tok : json) :
  _get_amadeus_token E w = (Ok tok, w1) ->
  truthy tok = true ->
  exists code,
    _get_iata_code E city_name w = (Ok code, log_request (CityRequest city_name) w1) /\
    (code = JNull \/
     exists body found first,
       upstream E (List.length (requests w1)) = Ok body /\
       dict_get body "data" JNull = Ok found /\
       get_first found = Ok first /\
       get_item first "iataCode" = Ok code).
Proof.
  intros Hrun Ht. unfold _get_iata_code, bind at 1. rewrite Hrun, Ht. cbn [negb].
  unfold try_catch, bind, http, lift, ret.
  destruct (upstream E (List.length (requests w1))) as [body | e] eqn:Hup;
    [| exists JNull; split; [reflexivity | left; reflexivity]].
  destruct (dict_get body "data" JNull) as [found | e] eqn:Hfound;
    [| exists JNull; split; [reflexivity | left; reflexivity]].
  destruct (if truthy found
            then res_bind (py_len found) (fun n => Ok (negb (0 <? n)))
            else Ok true) as [[|] | e];
    try (exists JNull; split; [reflexivity | left; reflexivity]).
  destruct (get_first found) as [first | e] eqn:Hfirst;
    [| exists JNull; split; [reflexivity | left; reflexivity]].
  destruct (get_item first "iataCode") as [code | e] eqn:Hcode;
    [| exists JNull; split; [reflexivity | left; reflexivity]].
  exists code. split; [reflexivity |]. right. exists body, found, first.
  repeat split; assumption.
Qed.

(** X2.  [_get_iata_code] never raises.  Without a truthy token it answers
    [None] and issues no city request.  With one it issues exactly one city
    request and answers [None] or the ["iataCode"] of the first entry of the
    ["data"] of the body it got. *)
Theorem iata_code_outcomes (E : env) (city_name : string) (w : world) :
  exists tok w1,
    _get_amadeus_token E w = (Ok tok, w1) /\
    ((truthy tok = false /\
      _get_iata_code E city_name w = (Ok JNull, w1)) \/
     (truthy tok = true /\
      exists code,
        _get_iata_code E city_name w =
          (Ok code, log_request (CityRequest city_name) w1) /\
        (code = JNull \/
         exists body found first,
           upstream E (List.length (requests w1)) = Ok body /\
           dict_get body "data" JNull = Ok found /\
           get_first found = Ok first /\
           get_item first "iataCode" = Ok code))).
Proof.
  destruct (token_step E w) as (tok & w1 & _ & Hrun & _).
  exists tok, w1. split; [exact Hrun |].
  destruct (truthy tok) eqn:Ht.
  - right. split; [reflexivity |]. exact (iata_with_token E city_name w w1 tok Hrun Ht).
  - left. split; [reflexivity |]. exact (iata_without_token E city_name w w1 tok Hrun Ht).
Qed.

(** ** The synthetic generators only draw random numbers *)

Lemma mock_flights_frame (E : env) (destination : string) (date1 date2 n : Z) (w : world) :
  exists l w',
    _get_mock_flight_options E destination date1 date2 n w = (Ok l, w') /\
    (List.length l = 3%nat /\ Forall (synthetic_flight n) l) /\
    requests w' = requests w /\
    same_cache w w'.
Proof.
  destruct (mock_flights_generate E destination date1 date2 n w)
    as (l & w' & Hrun & Hl & Ha & He & Hr).
  exists l, w'. repeat split; try assumption; try apply Hl.
  change (clock_reads w') with
    (clock_reads (snd (Ok l, w'))). rewrite <- Hrun. reflexivity.
Qed.

Lemma mock_hotels_frame (E : env) (destination : string) (date1 date2 n : Z) (w : world) :
  exists l w',
    _get_mock_hotel_options E destination date1 date2 n w = (Ok l, w') /\
    (List.length l = 3%nat /\
     Forall (fun h => synthetic_hotel destination (date2 - date1) h) l) /\
    requests w' = requests w /\
    same_cache w w'.
Proof.
  destruct (mock_hotels_generate E destination date1 date2 n w)
    as (l & w' & Hrun & Hl & Ha & He & Hr).
  exists l, w'. repeat split; try assumption; try apply Hl.
  - apply Forall_impl with (2 := proj2 Hl). intros h [Hs _]. exact Hs.
  - change (clock_reads w') with
      (clock_reads (snd (Ok l, w'))). rewrite <- Hrun. reflexivity.
Qed.

(** ** The requests of a flight lookup *)

Lemma flights_without_token
    (E : env) (destination : string) (date1 date2 n : Z) (w w1 : world) (tok : json) :
  _get_amadeus_token E w = (Ok tok, w1) ->
  truthy tok = false ->
  get_flight_options E destination date1 date2 n w =
  _get_mock_flight_options E destination date1 date2 n w1.
Proof.
  intros Hrun Ht. unfold get_flight_options. cbv zeta.
  unfold bind at 1. rewrite Hrun, Ht. reflexivity.
Qed.

Lemma flights_without_code
    (E : env) (destination : string) (date1 date2 n : Z) (w w1 w2 : world)
    (tok code : json) :
  _get_amadeus_token E w = (Ok tok, w1) ->
  truthy tok = true ->
  _get_iata_code E destination w1 = (Ok code, w2) ->
  truthy code = false ->
  get_flight_options E destination date1 date2 n w =
  _get_mock_flight_options E destination date1 date2 n w2.
Proof.
  intros Hrun Ht Hcode Hc. unfold get_flight_options. cbv zeta.
  unfold bind at 1. rewrite Hrun, Ht. cbn [negb].
  unfold bind at 1. rewrite Hcode, Hc. reflexivity.
Qed.

Lemma flights_with_code
    (E : env) (destination : string) (date1 date2 n : Z) (w w1 w2 : world)
    (tok code : json) :
  _get_amadeus_token E w = (Ok tok, w1) ->
  truthy tok = true ->
  _get_iata_code E destination w1 = (Ok code, w2) ->
  truthy code = true ->
  exists l w3,
    get_flight_options E destination date1 date2 n w = (Ok l, w3) /\
    requests w3 = (requests w2 ++ [FlightOffersRequest code date1 date2 n])%list /\
    same_cache w2 w3.
Proof.
  intros Hrun Ht Hcode Hc. unfold get_flight_options. cbv zeta.
  unfold bind at 1. rewrite Hrun, Ht. cbn [negb].
  unfold bind at 1. rewrite Hcode, Hc. cbn [negb].
  destruct (mock_flights_frame E destination date1 date2 n
              (log_request (FlightOffersRequest code date1 date2 n) w2))
    as (ml & mw & Hmock & _ & Hmreq & Hmcache).
  assert (Hfall : exists l w3,
             _get_mock_flight_options E destination date1 date2 n
               (log_request (FlightOffersRequest code date1 date2 n) w2) = (Ok l, w3) /\
             requests w3 = (requests w2 ++ [FlightOffersRequest code date1 date2 n])%list /\
             same_cache w2 w3).
  { exists ml, mw. split; [exact Hmock |]. split; [exact Hmreq | exact Hmcache]. }
  unfold try_catch, bind, http, lift.
  destruct (upstream E (List.length (requests w2))) as [data | e]; [| exact Hfall].
  destruct (dict_get data "data" (JArr [])) as [found | e]; [| exact Hfall].
  destruct (slice_to 3 found) as [first3 | e]; [| exact Hfall].
  destruct (iterate first3) as [offers | e]; [| exact Hfall].
  destruct (flight_loop offers []) as [[| f l] | e]; cbv beta iota.
  - rewrite Hmock. exists ml, mw. split; [reflexivity |].
    split; [exact Hmreq | exact Hmcache].
  - exists (f :: l), (log_request (FlightOffersRequest code date1 date2 n) w2).
    repeat split.
  - exact Hfall.
Qed.

(** X3.  A flight lookup never raises and issues its requests in a fixed
    order: at most one token request from its own token call, at most one
    from the token call of the city lookup, then nothing more, or the city
    request alone, or the city request followed by one flight search.  That
    is at most four requests. *)
Theorem flight_request_sequence
    (E : env) (destination : string) (date1 date2 num_travelers : Z) (w : world) :
  exists l w' t1 t2 rest,
    get_flight_options E destination date1 date2 num_travelers w = (Ok l, w') /\
    requests w' = (requests w ++ t1 ++ t2 ++ rest)%list /\
    optional TokenRequest t1 /\
    optional TokenRequest t2 /\
    flight_requests destination date1 date2 num_travelers rest /\
    (List.length (t1 ++ t2 ++ rest) <= 4)%nat.
Proof.
  destruct (token_step E w) as (tok & w1 & t1 & Hrun & Hreq1 & Ht1 & _).
  destruct (truthy tok) eqn:Ht.
  - destruct (token_step E w1) as (tok2 & w1' & t2 & Hrun2 & Hreq2 & Ht2 & _).
    destruct (truthy tok2) eqn:Ht2'.
    + destruct (iata_with_token E destination w1 w1' tok2 Hrun2 Ht2') as (code & Hcode & _).
      destruct (truthy code) eqn:Hc.
      * destruct (flights_with_code E destination date1 date2 num_travelers
                    w w1 _ tok code Hrun Ht Hcode Hc) as (l & w3 & Hget & Hreq3 & _).
        exists l, w3, t1, t2,
          [CityRequest destination;
           FlightOffersRequest code date1 date2 num_travelers].
        split; [exact Hget |].
        split; [rewrite Hreq3; cbn [log_request requests];
                rewrite Hreq2, Hreq1, <- !app_assoc; reflexivity |].
        repeat split; try assumption.
        -- right. right. exists code. reflexivity.
        -- destruct Ht1 as [-> | ->], Ht2 as [-> | ->]; simpl; lia.
      * rewrite (flights_without_code E destination date1 date2 num_travelers
                   w w1 _ tok code Hrun Ht Hcode Hc).
        destruct (mock_flights_frame E destination date1 date2 num_travelers
                    (log_request (CityRequest destination) w1'))
          as (l & w3 & Hmock & _ & Hmreq & _).
        exists l, w3, t1, t2, [CityRequest destination].
        split; [exact Hmock |].
        split; [rewrite Hmreq; cbn [log_request requests];
                rewrite Hreq2, Hreq1, <- !app_assoc; reflexivity |].
        repeat split; try assumption.
        -- right. left. reflexivity.
        -- destruct Ht1 as [-> | ->], Ht2 as [-> | ->]; simpl; lia.
    + rewrite (flights_without_code E destination date1 date2 num_travelers
                 w w1 w1' tok JNull Hrun Ht
                 (iata_without_token E destination w1 w1' tok2 Hrun2 Ht2') eq_refl).
      destruct (mock_flights_frame E destination date1 date2 num_travelers w1')
        as (l & w3 & Hmock & _ & Hmreq & _).
      exists l, w3, t1, t2, [].
      split; [exact Hmock |].
      split; [rewrite Hmreq, Hreq2, Hreq1, app_nil_r, <- app_assoc; reflexivity |].
      repeat split; try assumption.
      * left. reflexivity.
      * destruct Ht1 as [-> | ->], Ht2 as [-> | ->]; simpl; lia.
  - rewrite (flights_without_token E destination date1 date2 num_travelers w w1 tok Hrun Ht).
    destruct (mock_flights_frame E destination date1 date2 num_travelers w1)
      as (l & w3 & Hmock & _ & Hmreq & _).
    exists l, w3, t1, [], [].
    split; [exact Hmock |].
    split; [rewrite Hmreq, Hreq1, !app_nil_r; reflexivity |].
    repeat split; try assumption.
    + left. reflexivity.
    + left. reflexivity.
    + destruct Ht1 as [-> | ->]; simpl; lia.
Qed.

(** ** The requests of a hotel lookup *)

Lemma fetch_hotel_step
    (E : env) (destination : string) (date1 date2 n : Z) (hotel_id : json) (w : world) :
  exists r,
    try_catch (fetch_hotel E destination date1 date2 n hotel_id) (fun _ => ret None) w =
    (Ok r, log_request (HotelOffersRequest hotel_id n date1 date2) w).
Proof.
  unfold try_catch, fetch_hotel, bind, http, lift, ret.
  destruct (upstream E (List.length (requests w))) as [offers_data | e];
    [| eexists; reflexivity].
  destruct (dict_get offers_data "data" JNull) as [found | e]; [| eexists; reflexivity].
  destruct (is_empty found) as [[|] | e]; try (eexists; reflexivity).
  destruct (parse_hotel_offer destination (date2 - date1) found) as [h | e];
    eexists; reflexivity.
Qed.

Lemma hotel_loop_requests
    (E : env) (destination : string) (date1 date2 n : Z) (hotel_ids : list json) :
  forall acc w,
  exists l w',
    hotel_loop E destination date1 date2 n hotel_ids acc w = (Ok l, w') /\
    requests w' =
      (requests w ++
       map (fun hotel_id => HotelOffersRequest hotel_id n date1 date2) hotel_ids)%list /\
    same_cache w w'.
Proof.
  induction hotel_ids as [| hotel_id rest IH]; intros acc w.
  - exists acc, w. cbn. rewrite app_nil_r. repeat split.
  - cbn [hotel_loop]. unfold bind at 1.
    destruct (fetch_hotel_step E destination date1 date2 n hotel_id w) as (r & ->).
    destruct (IH (match r with
                  | Some h => (acc ++ [h])%list
                  | None => acc
                  end)
                 (log_request (HotelOffersRequest hotel_id n date1 date2) w))
      as (l & w' & Hrun & Hreq & Hcache).
    exists l, w'. split; [exact Hrun |]. split; [| exact Hcache].
    rewrite Hreq. cbn [log_request requests map]. rewrite <- app_assoc. reflexivity.
Qed.

(** The per-hotel [try] adds the hotel of the answer it gets, or none. *)
Lemma fetch_hotel_result
    (E : env) (destination : string) (date1 date2 n : Z) (hotel_id : json) (w : world) :
  try_catch (fetch_hotel E destination date1 date2 n hotel_id) (fun _ => ret None) w =
  (Ok (hotel_of_answer destination (date2 - date1) (upstream E (List.length (requests w)))),
   log_request (HotelOffersRequest hotel_id n date1 date2) w).
Proof.
  unfold try_catch, fetch_hotel, bind, http, lift, ret, hotel_of_answer.
  destruct (upstream E (List.length (requests w))) as [offers_data | e]; [| reflexivity].
  destruct (dict_get offers_data "data" JNull) as [found | e]; [| reflexivity].
  destruct (is_empty found) as [[|] | e]; try reflexivity.
  destruct (parse_hotel_offer destination (date2 - date1) found) as [h | e]; reflexivity.
Qed.

(** The loop collects the hotels of the answers to its requests, in request
    order. *)
Lemma hotel_loop_result
    (E : env) (destination : string) (date1 date2 n : Z) (hotel_ids : list json) :
  forall acc w,
    hotel_loop E destination date1 date2 n hotel_ids acc w =
    (Ok (acc ++ upstream_hotels E destination (date2 - date1)
                                (List.length (requests w)) (List.length hotel_ids))%list,
     World (access_token w) (token_expiry w)
           (requests w ++
            map (fun hotel_id => HotelOffersRequest hotel_id n date1 date2) hotel_ids)
           (clock_reads w) (rng_reads w)).
Proof.
  induction hotel_ids as [| hotel_id rest IH]; intros acc w.
  - destruct w. cbn. rewrite !app_nil_r. reflexivity.
  - cbn [hotel_loop]. unfold bind at 1. rewrite fetch_hotel_result, IH.
    cbn [log_request access_token token_expiry requests clock_reads rng_reads
         List.length map].
    rewrite length_app, Nat.add_1_r, <- !app_assoc.
    unfold upstream_hotels. cbn [seq flat_map List.app].
    destruct (hotel_of_answer destination (date2 - date1)
                (upstream E (List.length (requests w)))) as [h |];
      [rewrite <- app_assoc |]; reflexivity.
Qed.

Lemma upstream_hotels_length
    (E : env) (destination : string) (nights : Z) (count : nat) :
  forall start,
    (List.length (upstream_hotels E destination nights start count) <= count)%nat.
Proof.
  unfold upstream_hotels. induction count as [| count IH]; intros start; [simpl; lia |].
  cbn [seq flat_map]. rewrite length_app. specialize (IH (S start)).
  destruct (hotel_of_answer destination nights (upstream E start)); simpl; lia.
Qed.

(** X5.  The loop over the listed hotels never raises and issues exactly
    one offers request per hotel id, in list order, whatever the earlier
    requests answered; the hotels it collects are the hotels of the answers
    to these requests, in request order, appended to the ones collected
    before, at most one per id. *)
Theorem one_offers_request_per_hotel
    (E : env) (destination : string) (date1 date2 num_travelers : Z)
    (hotel_ids : list json) (acc : list hotel) (w : world) :
  exists fetched w',
    hotel_loop E destination date1 date2 num_travelers hotel_ids acc w =
      (Ok (acc ++ fetched)%list, w') /\
    fetched = upstream_hotels E destination (date2 - date1)
                              (List.length (requests w)) (List.length hotel_ids) /\
    (List.length fetched <= List.length hotel_ids)%nat /\
    requests w' =
      (requests w ++
       map (fun hotel_id => HotelOffersRequest hotel_id num_travelers date1 date2)
           hotel_ids)%list.
Proof.
  do 2 eexists. split; [apply hotel_loop_result |].
  split; [reflexivity |]. split; [apply upstream_hotels_length | reflexivity].
Qed.

Lemma hotels_without_token
    (E : env) (destination : string) (date1 date2 n : Z) (w w1 : world) (tok : json) :
  _get_amadeus_token E w = (Ok tok, w1) ->
  truthy tok = false ->
  get_hotel_options E destination date1 date2 n w =
  _get_mock_hotel_options E destination date1 date2 n w1.
Proof.
  intros Hrun Ht. unfold get_hotel_options. cbv zeta.
  unfold bind at 1. rewrite Hrun, Ht. reflexivity.
Qed.

Lemma hotels_without_code
    (E : env) (destination : string) (date1 date2 n : Z) (w w1 w2 : world)
    (tok code : json) :
  _get_amadeus_token E w = (Ok tok, w1) ->
  truthy tok = true ->
  _get_iata_code E destination w1 = (Ok code, w2) ->
  truthy code = false ->
  get_hotel_options E destination date1 date2 n w =
  _get_mock_hotel_options E destination date1 date2 n w2.
Proof.
  intros Hrun Ht Hcode Hc. unfold get_hotel_options. cbv zeta.
  unfold bind at 1. rewrite Hrun, Ht. cbn [negb].
  unfold bind at 1. rewrite Hcode, Hc. reflexivity.
Qed.

Lemma hotels_with_code
    (E : env) (destination : string) (date1 date2 n : Z) (w w1 w2 : world)
    (tok code : json) :
  _get_amadeus_token E w = (Ok tok, w1) ->
  truthy tok = true ->
  _get_iata_code E destination w1 = (Ok code, w2) ->
  truthy code = true ->
  exists l w3 hotel_ids,
    get_hotel_options E destination date1 date2 n w = (Ok l, w3) /\
    (List.length hotel_ids <= 3)%nat /\
    requests w3 =
      (requests w2 ++ HotelListRequest code ::
       map (fun hotel_id => HotelOffersRequest hotel_id n date1 date2) hotel_ids)%list /\
    same_cache w2 w3.
Proof.
  intros Hrun Ht Hcode Hc. unfold get_hotel_options. cbv zeta.
  unfold bind at 1. rewrite Hrun, Ht. cbn [negb].
  unfold bind at 1. rewrite Hcode, Hc. cbn [negb].
  destruct (mock_hotels_frame E destination date1 date2 n
              (log_request (HotelListRequest code) w2))
    as (ml & mw & Hmock & _ & Hmreq & Hmcache).
  assert (Hfall : exists l w3 hotel_ids,
             _get_mock_hotel_options E destination date1 date2 n
               (log_request (HotelListRequest code) w2) = (Ok l, w3) /\
             (List.length hotel_ids <= 3)%nat /\
             requests w3 =
               (requests w2 ++ HotelListRequest code ::
                map (fun hotel_id => HotelOffersRequest hotel_id n date1 date2)
                    hotel_ids)%list /\
             same_cache w2 w3).
  { exists ml, mw, []. split; [exact Hmock |]. split; [simpl; lia |].
    split; [exact Hmreq | exact Hmcache]. }
  unfold try_catch at 1. unfold bind at 1. unfold http at 1.
  destruct (upstream E (List.length (requests w2))) as [hotels_data | e]; [| exact Hfall].
  unfold bind at 1. unfold lift at 1.
  destruct (dict_get hotels_data "data" JNull) as [found | e]; [| exact Hfall].
  unfold bind at 1. unfold lift at 1.
  destruct (is_empty found) as [[|] | e]; [| | exact Hfall].
  { rewrite Hmock. exists ml, mw, []. split; [reflexivity |]. split; [simpl; lia |].
    split; [exact Hmreq | exact Hmcache]. }
  unfold bind at 1. unfold lift at 1.
  destruct (slice_to 3 found) as [first3 | e] eqn:Hslice; [| exact Hfall].
  unfold bind at 1. unfold lift at 1.
  destruct (iterate first3) as [hotels | e] eqn:Hiter; [| exact Hfall].
  unfold bind at 1. unfold lift at 1.
  destruct (res_map_list (fun h => get_item h "hotelId") hotels) as [hotel_ids | e] eqn:Hids;
    [| exact Hfall].
  assert (Hlen : (List.length hotel_ids <= 3)%nat).
  { apply res_map_list_length in Hids. rewrite Hids.
    exact (slice_iterate_length 3 found first3 hotels Hslice Hiter). }
  unfold bind at 1.
  destruct (hotel_loop_requests E destination date1 date2 n hotel_ids []
              (log_request (HotelListRequest code) w2))
    as (l & w3 & Hloop & Hreq & Hcache).
  rewrite Hloop. destruct l as [| h l].
  - destruct (mock_hotels_frame E destination date1 date2 n w3)
      as (ml' & mw' & Hmock' & _ & Hmreq' & Hmcache').
    rewrite Hmock'. exists ml', mw', hotel_ids. split; [reflexivity |].
    split; [exact Hlen |]. split.
    + rewrite Hmreq', Hreq. cbn [log_request requests]. rewrite <- app_assoc. reflexivity.
    + unfold same_cache in *. cbn [log_request access_token token_expiry clock_reads] in Hcache.
      destruct Hcache as (? & ? & ?), Hmcache' as (? & ? & ?). repeat split; congruence.
  - exists (h :: l), w3, hotel_ids. split; [reflexivity |].
    split; [exact Hlen |]. split.
    + rewrite Hreq. cbn [log_request requests]. rewrite <- app_assoc. reflexivity.
    + exact Hcache.
Qed.

(** X4.  A hotel lookup never raises and issues its requests in a fixed
    order: at most one token request from its own token call, at most one
    from the token call of the city lookup, then nothing more, or the city
    request alone, or the city request, the hotel list request and one
    offers request for each of at most three listed hotels.  That is at most
    seven requests. *)
Theorem hotel_request_sequence
    (E : env) (destination : string) (date1 date2 num_travelers : Z) (w : world) :
  exists l w' t1 t2 rest,
    get_hotel_options E destination date1 date2 num_travelers w = (Ok l, w') /\
    requests w' = (requests w ++ t1 ++ t2 ++ rest)%list /\
    optional TokenRequest t1 /\
    optional TokenRequest t2 /\
    hotel_requests destination date1 date2 num_travelers rest /\
    (List.length (t1 ++ t2 ++ rest) <= 7)%nat.
Proof.
  destruct (token_step E w) as (tok & w1 & t1 & Hrun & Hreq1 & Ht1 & _).
  destruct (truthy tok) eqn:Ht.
  - destruct (token_step E w1) as (tok2 & w1' & t2 & Hrun2 & Hreq2 & Ht2 & _).
    destruct (truthy tok2) eqn:Ht2'.
    + destruct (iata_with_token E destination w1 w1' tok2 Hrun2 Ht2') as (code & Hcode & _).
      destruct (truthy code) eqn:Hc.
      * destruct (hotels_with_code E destination date1 date2 num_travelers
                    w w1 _ tok code Hrun Ht Hcode Hc)
          as (l & w3 & hotel_ids & Hget & Hlen & Hreq3 & _).
        exists l, w3, t1, t2,
          (CityRequest destination :: HotelListRequest code ::
           map (fun hotel_id => HotelOffersRequest hotel_id num_travelers date1 date2)
               hotel_ids).
        split; [exact Hget |].
        split; [rewrite Hreq3; cbn [log_request requests];
                rewrite Hreq2, Hreq1, <- !app_assoc; reflexivity |].
        repeat split; try assumption.
        -- right. right. exists code, hotel_ids. split; [exact Hlen | reflexivity].
        -- rewrite !length_app. cbn [List.length]. rewrite length_map.
           destruct Ht1 as [-> | ->], Ht2 as [-> | ->]; simpl; lia.
      * rewrite (hotels_without_code E destination date1 date2 num_travelers
                   w w1 _ tok code Hrun Ht Hcode Hc).
        destruct (mock_hotels_frame E destination date1 date2 num_travelers
                    (log_request (CityRequest destination) w1'))
          as (l & w3 & Hmock & _ & Hmreq & _).
        exists l, w3, t1, t2, [CityRequest destination].
        split; [exact Hmock |].
        split; [rewrite Hmreq; cbn [log_request requests];
                rewrite Hreq2, Hreq1, <- !app_assoc; reflexivity |].
        repeat split; try assumption.
        -- right. left. reflexivity.
        -- destruct Ht1 as [-> | ->], Ht2 as [-> | ->]; simpl; lia.
    + rewrite (hotels_without_code E destination date1 date2 num_travelers
                 w w1 w1' tok JNull Hrun Ht
                 (iata_without_token E destination w1 w1' tok2 Hrun2 Ht2') eq_refl).
      destruct (mock_hotels_frame E destination date1 date2 num_travelers w1')
        as (l & w3 & Hmock & _ & Hmreq & _).
      exists l, w3, t1, t2, [].
      split; [exact Hmock |].
      split; [rewrite Hmreq, Hreq2, Hreq1, app_nil_r, <- app_assoc; reflexivity |].
      repeat split; try assumption.
      * left. reflexivity.
      * destruct Ht1 as [-> | ->], Ht2 as [-> | ->]; simpl; lia.
  - rewrite (hotels_without_token E destination date1 date2 num_travelers w w1 tok Hrun Ht).
    destruct (mock_hotels_frame E destination date1 date2 num_travelers w1)
      as (l & w3 & Hmock & _ & Hmreq & _).
    exists l, w3, t1, [], [].
    split; [exact Hmock |].
    split; [rewrite Hmreq, Hreq1, !app_nil_r; reflexivity |].
    repeat split; try assumption.
    + left. reflexivity.
    + left. reflexivity.
    + destruct Ht1 as [-> | ->]; simpl; lia.
Qed.

(** ** Lookups without a token *)

Lemma token_exchange_fails (E : env) (w : world) (e : exn) :
  token_valid w (clock E (clock_reads w)) = false ->
  upstream E (List.length (requests w)) = Raise e ->
  _get_amadeus_token E w =
    (Ok JNull, World (access_token w) (token_expiry w)
                     (requests w ++ [TokenRequest]) (S (clock_reads w)) (rng_reads w)).
Proof.
  intros Hv Hup.
  destruct (token_refresh_cases E w Hv)
    as [(body & tok & ei & secs & delta & Hbody & _) | [Hr | (body & tok & Hbody & _)]];
    [rewrite Hup in Hbody; discriminate Hbody | exact Hr |
     rewrite Hup in Hbody; discriminate Hbody].
Qed.

(** X6.  When no valid token is cached and the token request fails in
    transport or with an error status, a flight lookup and a hotel lookup
    each issue that one request and nothing else, leave the token fields as
    they were, and answer with three synthetic offers. *)
Theorem token_endpoint_down
    (E : env) (destination : string) (date1 date2 num_travelers : Z)
    (w : world) (e : exn) :
  token_valid w (clock E (clock_reads w)) = false ->
  upstream E (List.length (requests w)) = Raise e ->
  (exists l w',
     get_flight_options E destination date1 date2 num_travelers w = (Ok l, w') /\
     requests w' = (requests w ++ [TokenRequest])%list /\
     access_token w' = access_token w /\
     token_expiry w' = token_expiry w /\
     List.length l = 3%nat /\
     Forall (synthetic_flight num_travelers) l) /\
  (exists l w',
     get_hotel_options E destination date1 date2 num_travelers w = (Ok l, w') /\
     requests w' = (requests w ++ [TokenRequest])%list /\
     access_token w' = access_token w /\
     token_expiry w' = token_expiry w /\
     List.length l = 3%nat /\
     Forall (synthetic_hotel destination (date2 - date1)) l).
Proof.
  intros Hv Hup. assert (Hrun := token_exchange_fails E w e Hv Hup). split.
  - rewrite (flights_without_token E destination date1 date2 num_travelers
               w _ JNull Hrun eq_refl).
    destruct (mock_flights_frame E destination date1 date2 num_travelers
                (World (access_token w) (token_expiry w)
                       (requests w ++ [TokenRequest]) (S (clock_reads w)) (rng_reads w)))
      as (l & w' & Hmock & [Hlen Hall] & Hreq & Ha & He & _).
    exists l, w'. repeat split; assumption.
  - rewrite (hotels_without_token E destination date1 date2 num_travelers
               w _ JNull Hrun eq_refl).
    destruct (mock_hotels_frame E destination date1 date2 num_travelers
                (World (access_token w) (token_expiry w)
                       (requests w ++ [TokenRequest]) (S (clock_reads w)) (rng_reads w)))
      as (l & w' & Hmock & [Hlen Hall] & Hreq & Ha & He & _).
    exists l, w'. repeat split; assumption.
Qed.

Lemma token_endpoint_down_witness :
  token_valid init (clock (scripted []) (clock_reads init)) = false /\
  upstream (scripted []) (List.length (requests init)) = Raise RequestException /\
  exists l w',
    get_flight_options (scripted []) "Paris" 10 15 2 init = (Ok l, w') /\
    requests w' = [TokenRequest] /\
    access_token w' = JNull /\
    token_expiry w' = None /\
    List.length l = 3%nat /\
    Forall (synthetic_flight 2) l.
Proof.
  split; [reflexivity |]. split; [reflexivity |].
  apply (proj1 (token_endpoint_down (scripted []) "Paris" 10 15 2 init RequestException
                  eq_refl eq_refl)).
Defined.

(** ** Lookups served from the cache *)

Lemma flights_with_token
    (E : env) (destination : string) (date1 date2 n : Z) (w w1 : world) (tok : json) :
  _get_amadeus_token E w = (Ok tok, w1) ->
  truthy tok = true ->
  token_valid w1 (clock E (clock_reads w1)) = true ->
  exists l w2 rest,
    get_flight_options E destination date1 date2 n w = (Ok l, w2) /\
    requests w2 = (requests w1 ++ CityRequest destination :: rest)%list /\
    (rest = [] \/ exists code, rest = [FlightOffersRequest code date1 date2 n]) /\
    access_token w2 = access_token w1 /\
    token_expiry w2 = token_expiry w1 /\
    clock_reads w2 = S (clock_reads w1).
Proof.
  intros Hrun Ht Hv.
  assert (Hhit := token_cache_hit E w1 Hv).
  destruct (token_valid_cached _ _ Hv) as (Ht1 & _).
  destruct (iata_with_token E destination w1 _ _ Hhit Ht1) as (code & Hcode & _).
  destruct (truthy code) eqn:Hc.
  - destruct (flights_with_code E destination date1 date2 n w w1 _ tok code Hrun Ht Hcode Hc)
      as (l & w3 & Hget & Hreq & Ha & He & Hk).
    exists l, w3, [FlightOffersRequest code date1 date2 n].
    split; [exact Hget |].
    split; [rewrite Hreq; cbn [log_request requests]; rewrite <- app_assoc; reflexivity |].
    split; [right; exists code; reflexivity |].
    repeat split; assumption.
  - rewrite (flights_without_code E destination date1 date2 n w w1 _ tok code
               Hrun Ht Hcode Hc).
    destruct (mock_flights_frame E destination date1 date2 n
                (log_request (CityRequest destination)
                   (World (access_token w1) (token_expiry w1) (requests w1)
                          (S (clock_reads w1)) (rng_reads w1))))
      as (l & w3 & Hmock & _ & Hreq & Ha & He & Hk).
    exists l, w3, []. split; [exact Hmock |].
    split; [rewrite Hreq; reflexivity |].
    split; [left; reflexivity |].
    repeat split; assumption.
Qed.

Lemma hotels_with_token
    (E : env) (destination : string) (date1 date2 n : Z) (w w1 : world) (tok : json) :
  _get_amadeus_token E w = (Ok tok, w1) ->
  truthy tok = true ->
  token_valid w1 (clock E (clock_reads w1)) = true ->
  exists l w2 rest,
    get_hotel_options E destination date1 date2 n w = (Ok l, w2) /\
    requests w2 = (requests w1 ++ CityRequest destination :: rest)%list /\
    (rest = [] \/
     exists code hotel_ids,
       (List.length hotel_ids <= 3)%nat /\
       rest = HotelListRequest code ::
              map (fun hotel_id => HotelOffersRequest hotel_id n date1 date2) hotel_ids) /\
    access_token w2 = access_token w1 /\
    token_expiry w2 = token_expiry w1 /\
    clock_reads w2 = S (clock_reads w1).
Proof.
  intros Hrun Ht Hv.
  assert (Hhit := token_cache_hit E w1 Hv).
  destruct (token_valid_cached _ _ Hv) as (Ht1 & _).
  destruct (iata_with_token E destination w1 _ _ Hhit Ht1) as (code & Hcode & _).
  destruct (truthy code) eqn:Hc.
  - destruct (hotels_with_code E destination date1 date2 n w w1 _ tok code Hrun Ht Hcode Hc)
      as (l & w3 & hotel_ids & Hget & Hlen & Hreq & Ha & He & Hk).
    exists l, w3,
      (HotelListRequest code ::
       map (fun hotel_id => HotelOffersRequest hotel_id n date1 date2) hotel_ids).
    split; [exact Hget |].
    split; [rewrite Hreq; cbn [log_request requests]; rewrite <- app_assoc; reflexivity |].
    split; [right; exists code, hotel_ids; split; [exact Hlen | reflexivity] |].
    repeat split; assumption.
  - rewrite (hotels_without_code E destination date1 date2 n w w1 _ tok code
               Hrun Ht Hcode Hc).
    destruct (mock_hotels_frame E destination date1 date2 n
                (log_request (CityRequest destination)
                   (World (access_token w1) (token_expiry w1) (requests w1)
                          (S (clock_reads w1)) (rng_reads w1))))
      as (l & w3 & Hmock & _ & Hreq & Ha & He & Hk).
    exists l, w3, []. split; [exact Hmock |].
    split; [rewrite Hreq; reflexivity |].
    split; [left; reflexivity |].
    repeat split; assumption.
Qed.

(** X7.  While the cached token is valid at the two clock readings a lookup
    makes, a flight lookup and a hotel lookup issue no token request: the
    first request is the city request, followed at most by the search (for
    hotels, the hotel list and the offers requests).  Both token fields are
    left as they were. *)
Theorem lookups_served_from_cache
    (E : env) (destination : string) (date1 date2 num_travelers : Z) (w : world) :
  token_valid w (clock E (clock_reads w)) = true ->
  token_valid w (clock E (S (clock_reads w))) = true ->
  (exists l w' rest,
     get_flight_options E destination date1 date2 num_travelers w = (Ok l, w') /\
     requests w' = (requests w ++ CityRequest destination :: rest)%list /\
     (rest = [] \/
      exists code, rest = [FlightOffersRequest code date1 date2 num_travelers]) /\
     access_token w' = access_token w /\
     token_expiry w' = token_expiry w) /\
  (exists l w' rest,
     get_hotel_options E destination date1 date2 num_travelers w = (Ok l, w') /\
     requests w' = (requests w ++ CityRequest destination :: rest)%list /\
     (rest = [] \/
      exists code hotel_ids,
        (List.length hotel_ids <= 3)%nat /\
        rest = HotelListRequest code ::
               map (fun hotel_id =>
                      HotelOffersRequest hotel_id num_travelers date1 date2)
                   hotel_ids) /\
     access_token w' = access_token w /\
     token_expiry w' = token_expiry w).
Proof.
  intros Hv0 Hv1.
  assert (Hhit := token_cache_hit E w Hv0).
  destruct (token_valid_cached _ _ Hv0) as (Ht & _).
  split.
  - destruct (flights_with_token E destination date1 date2 num_travelers w _ _ Hhit Ht Hv1)
      as (l & w' & rest & Hget & Hreq & Hrest & Ha & He & _).
    exists l, w', rest. repeat split; assumption.
  - destruct (hotels_with_token E destination date1 date2 num_travelers w _ _ Hhit Ht Hv1)
      as (l & w' & rest & Hget & Hreq & Hrest & Ha & He & _).
    exists l, w', rest. repeat split; assumption.
Qed.

Lemma lookups_served_from_cache_witness :
  token_valid sample_world_after_search
    (clock (scripted []) (clock_reads sample_world_after_search)) = true /\
  token_valid sample_world_after_search
    (clock (scripted []) (S (clock_reads sample_world_after_search))) = true /\
  exists l w' rest,
    get_hotel_options (scripted []) "Paris" 10 15 2 sample_world_after_search = (Ok l, w') /\
    requests w' =
      (requests sample_world_after_search ++ CityRequest "Paris" :: rest)%list /\
    (rest = [] \/
     exists code hotel_ids,
       (List.length hotel_ids <= 3)%nat /\
       rest = HotelListRequest code ::
              map (fun hotel_id => HotelOffersRequest hotel_id 2 10 15) hotel_ids) /\
    access_token w' = access_token sample_world_after_search /\
    token_expiry w' = token_expiry sample_world_after_search.
Proof.
  split; [reflexivity |]. split; [reflexivity |].
  apply (proj2 (lookups_served_from_cache (scripted []) "Paris" 10 15 2
                  sample_world_after_search eq_refl eq_refl)).
Defined.

Lemma token_valid_intro (w : world) (now expiry : Z) :
  truthy (access_token w) = true ->
  token_expiry w = Some expiry ->
  now < expiry ->
  token_valid w now = true.
Proof.
  intros Ht He Hnow. unfold token_valid. rewrite Ht, He.
  apply Z.ltb_lt in Hnow. rewrite Hnow. reflexivity.
Qed.

(** X8.  The planning run of [main] calls [get_flight_options] and then
    [get_hotel_options] on one instance.  If the first token call of the
    flight lookup returns a truthy token, and the clock is still before the
    expiry stored with it at the three later readings of the run, then both
    lookups return and, after that first token call, the run issues no
    further token request; the instance ends holding the same token and
    expiry. *)
Theorem one_exchange_per_planning_run
    (E : env) (destination : string) (date1 date2 num_travelers : Z)
    (w w1 : world) (tok : json) (expiry : Z) :
  _get_amadeus_token E w = (Ok tok, w1) ->
  truthy tok = true ->
  token_expiry w1 = Some expiry ->
  clock E (S (clock_reads w)) < expiry ->
  clock E (S (S (clock_reads w))) < expiry ->
  clock E (S (S (S (clock_reads w)))) < expiry ->
  exists flights w2 hotels w3 l,
    get_flight_options E destination date1 date2 num_travelers w = (Ok flights, w2) /\
    get_hotel_options E destination date1 date2 num_travelers w2 = (Ok hotels, w3) /\
    requests w3 = (requests w1 ++ l)%list /\
    ~ In TokenRequest l /\
    access_token w3 = tok /\
    token_expiry w3 = Some expiry.
Proof.
  intros Hrun Ht He H1 H2 H3.
  destruct (token_step E w) as (tok' & w1' & t & Hrun' & _ & _ & Hk1 & _ & Hheld).
  rewrite Hrun in Hrun'. inversion Hrun'; subst tok' w1'. clear Hrun'.
  destruct (Hheld Ht) as (Ha1 & _).
  assert (Ht1 : truthy (access_token w1) = true) by (rewrite Ha1; exact Ht).
  assert (Hv1 : token_valid w1 (clock E (clock_reads w1)) = true).
  { apply token_valid_intro with expiry; [exact Ht1 | exact He |]. rewrite Hk1. exact H1. }
  destruct (flights_with_token E destination date1 date2 num_travelers w w1 tok Hrun Ht Hv1)
    as (flights & w2 & rest & Hget & Hreq2 & Hrest & Ha2 & He2 & Hk2).
  assert (Ht2 : truthy (access_token w2) = true) by (rewrite Ha2; exact Ht1).
  assert (Hv2 : token_valid w2 (clock E (clock_reads w2)) = true).
  { apply token_valid_intro with expiry; [exact Ht2 | rewrite He2; exact He |].
    rewrite Hk2, Hk1. exact H2. }
  assert (Hhit := token_cache_hit E w2 Hv2).
  assert (Hv3 : token_valid
                  (World (access_token w2) (token_expiry w2) (requests w2)
                         (S (clock_reads w2)) (rng_reads w2))
                  (clock E (S (clock_reads w2))) = true).
  { apply token_valid_intro with expiry;
      cbn [access_token token_expiry]; [exact Ht2 | rewrite He2; exact He |].
    rewrite Hk2, Hk1. exact H3. }
  destruct (hotels_with_token E destination date1 date2 num_travelers w2 _ _ Hhit Ht2 Hv3)
    as (hotels & w3 & rest' & Hget' & Hreq3 & Hrest' & Ha3 & He3 & _).
  cbn [access_token token_expiry requests] in Hreq3, Ha3, He3.
  exists flights, w2, hotels, w3,
    ((CityRequest destination :: rest) ++ CityRequest destination :: rest')%list.
  split; [exact Hget |]. split; [exact Hget' |].
  split; [rewrite Hreq3, Hreq2, <- app_assoc; reflexivity |].
  split; [| split; congruence].
  intros Hin. apply in_app_or in Hin.
  destruct Hin as [[Hin | Hin] | [Hin | Hin]]; try discriminate Hin.
  - destruct Hrest as [-> | (code & ->)]; [destruct Hin |].
    destruct Hin as [Hin | []]. discriminate Hin.
  - destruct Hrest' as [-> | (code & hotel_ids & _ & ->)]; [destruct Hin |].
    destruct Hin as [Hin | Hin]; [discriminate Hin |].
    apply in_map_iff in Hin. destruct Hin as (hotel_id & Hin & _). discriminate Hin.
Qed.

Lemma one_exchange_per_planning_run_witness :
  _get_amadeus_token (scripted [sample_token; sample_city]) init =
    (Ok (JStr "abc123"),
     World (JStr "abc123") (Some 63000001739000000) [TokenRequest] 1 0) /\
  truthy (JStr "abc123") = true /\
  clock (scripted [sample_token; sample_city]) 3 < 63000001739000000 /\
  exists flights w2 hotels w3 l,
    get_flight_options (scripted [sample_token; sample_city]) "Paris" 10 15 2 init =
      (Ok flights, w2) /\
    get_hotel_options (scripted [sample_token; sample_city]) "Paris" 10 15 2 w2 =
      (Ok hotels, w3) /\
    requests w3 = ([TokenRequest] ++ l)%list /\
    ~ In TokenRequest l /\
    access_token w3 = JStr "abc123" /\
    token_expiry w3 = Some 63000001739000000.
Proof.
  split; [vm_compute; reflexivity |]. split; [reflexivity |].
  split; [vm_compute; reflexivity |].
  apply (one_exchange_per_planning_run (scripted [sample_token; sample_city])
           "Paris" 10 15 2 init
           (World (JStr "abc123") (Some 63000001739000000) [TokenRequest] 1 0)
           (JStr "abc123") 63000001739000000);
    vm_compute; reflexivity.
Defined.

(** ** The shape of a parsed flight offer *)

Lemma list_ascii_app (s t : string) :
  list_ascii_of_string (s ++ t) = (list_ascii_of_string s ++ list_ascii_of_string t)%list.
Proof. induction s as [| c s IH]; simpl; [reflexivity | rewrite IH; reflexivity]. Qed.

(** Replacing every occurrence of one character: what is left is a
    character of the replacement, or a character of the original other than
    the replaced one. *)
Lemma replace_char_in (c : ascii) (new s : string) (x : ascii) :
  In x (list_ascii_of_string (PyStr.replace (String c "") new s)) ->
  In x (list_ascii_of_string new) \/ (In x (list_ascii_of_string s) /\ x <> c).
Proof.
  unfold PyStr.replace. induction s as [| a s IH]; simpl; [intros [] |].
  destruct (ascii_dec c a) as [-> | Hne].
  - assert (Hp : prefix "" s = true) by (destruct s; reflexivity).
    rewrite Hp, list_ascii_app. intros Hin. apply in_app_or in Hin.
    destruct Hin as [Hin | Hin]; [left; exact Hin |].
    destruct (IH Hin) as [H | [H Hx]]; [left; exact H | right; split; [right; exact H | exact Hx]].
  - simpl. intros [<- | Hin].
    + right. split; [left; reflexivity | intros Heq; apply Hne; symmetry; exact Heq].
    + destruct (IH Hin) as [H | [H Hx]]; [left; exact H | right; split; [right; exact H | exact Hx]].
Qed.

Lemma clock_time_length (at_ : json) (t : string) :
  clock_time at_ = Ok t -> (String.length t <= 5)%nat.
Proof.
  unfold clock_time. destruct (as_str at_) as [s | e]; cbn [res_bind]; [| discriminate].
  destruct (PyStr.split "T" s) as [| a [| b rest]]; try discriminate.
  intros H. inversion H. apply take_length.
Qed.

Lemma lookup_In {A : Type} (k : string) (l : list (string * A)) (v : A) :
  lookup k l = Some v -> In (k, v) l.
Proof.
  induction l as [| [k' v'] l IH]; simpl; [discriminate |].
  destruct (String.eqb k k') eqn:Hk.
  - apply String.eqb_eq in Hk. subst k'. intros H. inversion H. left. reflexivity.
  - intros H. right. apply IH. exact H.
Qed.

Lemma parse_flight_offer_inv (offer : json) (f : flight) :
  parse_flight_offer offer = Ok f ->
  exists price_obj total price itineraries itinerary segments outbound carrier_code
         departure departure_at arrival arrival_at duration_str n,
    get_item offer "price" = Ok price_obj /\
    get_item price_obj "total" = Ok total /\
    py_float total = Ok price /\
    get_item offer "itineraries" = Ok itineraries /\
    get_first itineraries = Ok itinerary /\
    get_item itinerary "segments" = Ok segments /\
    get_first segments = Ok outbound /\
    get_item outbound "carrierCode" = Ok carrier_code /\
    get_item outbound "departure" = Ok departure /\
    get_item departure "at" = Ok departure_at /\
    clock_time departure_at = Ok (departure_time f) /\
    get_item outbound "arrival" = Ok arrival /\
    get_item arrival "at" = Ok arrival_at /\
    clock_time arrival_at = Ok (arrival_time f) /\
    get_item outbound "duration" = Ok (JStr duration_str) /\
    duration f =
      PyStr.replace "M" "m" (PyStr.replace "H" "h " (PyStr.replace "PT" "" duration_str)) /\
    py_len segments = Ok n /\
    stops f = n - 1 /\
    airlines_get carrier_code = Ok (airline f) /\
    PyFloat.round0 price = Ok (flight_price f).
Proof.
  unfold parse_flight_offer. intros H. res_steps H. inversion H; subst; clear H.
  cbn [airline departure_time arrival_time duration stops flight_price].
  match goal with
  | Hd : as_str ?d = Ok _ |- _ => destruct d; try discriminate Hd; inversion Hd; subst
  end.
  do 14 eexists.
  repeat match goal with |- _ /\ _ => split end.
  all: first [reflexivity | eassumption].
Qed.

(** X9.  Every flight offer that parses has a stop count of at least 0, a
    departure and an arrival time of at most 5 characters, a duration text
    free of the upper-case letters [H] and [M], a price that is the upstream
    total read as a float and rounded to an integer, and as airline what the
    table gives for the carrier code of the first segment of the first
    itinerary, [offer["itineraries"][0]["segments"][0]["carrierCode"]]:
    either that code as sent or the full name the table holds for it. *)
Theorem parsed_flight_shape (offer : json) (f : flight) :
  parse_flight_offer offer = Ok f ->
  0 <= stops f /\
  (String.length (departure_time f) <= 5)%nat /\
  (String.length (arrival_time f) <= 5)%nat /\
  (forall c, In c (list_ascii_of_string (duration f)) -> c <> "H"%char /\ c <> "M"%char) /\
  (exists price_obj total x,
     get_item offer "price" = Ok price_obj /\
     get_item price_obj "total" = Ok total /\
     py_float total = Ok x /\
     PyFloat.round0 x = Ok (flight_price f)) /\
  (exists itineraries itinerary segments outbound carrier_code,
     get_item offer "itineraries" = Ok itineraries /\
     get_first itineraries = Ok itinerary /\
     get_item itinerary "segments" = Ok segments /\
     get_first segments = Ok outbound /\
     get_item outbound "carrierCode" = Ok carrier_code /\
     airlines_get carrier_code = Ok (airline f) /\
     (airline f = carrier_code \/
      exists code full,
        carrier_code = JStr code /\ In (code, full) airlines /\ airline f = JStr full)).
Proof.
  intros H.
  destruct (parse_flight_offer_inv offer f H)
    as (price_obj & total & x & itineraries & itinerary & segments & outbound &
        carrier_code & departure & departure_at & arrival & arrival_at &
        duration_str & n & Hp & Htot & Hx & Hits & Hit & Hsegs & Hout & Hcc & _ & _ &
        Hdep & _ & _ & Harr & _ & Hdur & Hn & Hstops & Hair & Hround).
  split; [| split; [| split; [| split; [| split]]]].
  - rewrite Hstops. destruct segments as [| | | | s | items | fields]; try discriminate Hout.
    + destruct s as [| c s]; [discriminate Hout |]. inversion Hout; subst outbound.
      discriminate Hcc.
    + destruct items as [| o items]; [discriminate Hout |].
      cbn in Hn. inversion Hn; subst n. lia.
  - exact (clock_time_length _ _ Hdep).
  - exact (clock_time_length _ _ Harr).
  - intros c Hin. rewrite Hdur in Hin.
    apply (replace_char_in "M" "m") in Hin.
    destruct Hin as [[<- | []] | [Hin HM]]; [split; discriminate |].
    apply (replace_char_in "H" "h ") in Hin.
    destruct Hin as [[<- | [<- | []]] | [_ HH]];
      [split; discriminate | split; discriminate | split; assumption].
  - exists price_obj, total, x. repeat split; assumption.
  - exists itineraries, itinerary, segments, outbound, carrier_code.
    do 5 (split; [assumption |]). split; [exact Hair |].
    unfold airlines_get in Hair.
    destruct carrier_code as [| | | | code | |]; try discriminate Hair;
      try (left; inversion Hair; reflexivity).
    destruct (lookup code airlines) as [full |] eqn:Hl.
    + right. exists code, full. inversion Hair.
      split; [reflexivity | split; [apply lookup_In; exact Hl | reflexivity]].
    + left. inversion Hair. reflexivity.
Qed.

Lemma parsed_flight_shape_witness :
  parse_flight_offer offer_with_two_carriers = Ok (sample_flight "American Airlines" 512) /\
  get_item (sample_segment "AA") "carrierCode" = Ok (JStr "AA") /\
  airline (sample_flight "American Airlines" 512) = JStr "American Airlines" /\
  exists itineraries itinerary segments outbound carrier_code,
    get_item offer_with_two_carriers "itineraries" = Ok itineraries /\
    get_first itineraries = Ok itinerary /\
    get_item itinerary "segments" = Ok segments /\
    get_first segments = Ok outbound /\
    get_item outbound "carrierCode" = Ok carrier_code /\
    airlines_get carrier_code = Ok (airline (sample_flight "American Airlines" 512)) /\
    (airline (sample_flight "American Airlines" 512) = carrier_code \/
     exists code full,
       carrier_code = JStr code /\ In (code, full) airlines /\
       airline (sample_flight "American Airlines" 512) = JStr full).
Proof.
  split; [vm_compute; reflexivity |]. split; [reflexivity |]. split; [reflexivity |].
  apply (parsed_flight_shape offer_with_two_carriers (sample_flight "American Airlines" 512)).
  vm_compute. reflexivity.
Defined.

(** ** Which hotels are asked for offers *)

Lemma res_map_list_Forall2 {A B : Type} (f : A -> res B) (l : list A) (ys : list B) :
  Forall2 (fun x y => f x = Ok y) l ys -> res_map_list f l = Ok ys.
Proof.
  induction 1 as [| x y l ys Hx _ IH]; simpl; [reflexivity |].
  rewrite Hx, IH. reflexivity.
Qed.

Lemma res_map_list_raises {A B : Type} (f : A -> res B) (l : list A) :
  (exists x e, In x l /\ f x = Raise e) -> exists e, res_map_list f l = Raise e.
Proof.
  induction l as [| a l IH]; intros (x & e & Hin & Hx); [destruct Hin |].
  simpl. destruct Hin as [-> | Hin].
  - rewrite Hx. exists e. reflexivity.
  - destruct (f a) as [b | e']; [| exists e'; reflexivity]. cbn [res_bind].
    destruct (IH (ex_intro _ x (ex_intro _ e (conj Hin Hx)))) as (e' & ->).
    exists e'. reflexivity.
Qed.

Lemma is_empty_list (raw : list json) :
  is_empty (JArr raw) = Ok (match raw with [] => true | _ => false end).
Proof. destruct raw as [| x raw]; [reflexivity |]. unfold is_empty. cbn. reflexivity. Qed.

(** X10.  When the hotel list is reached and each of its first three
    entries has a ["hotelId"], the lookup returns and the requests it issues
    after the list request are exactly the offers requests for those ids, in
    list order: hotels past the third are never asked for offers. *)
Theorem first_three_hotels_asked
    (E : env) (destination : string) (date1 date2 num_travelers : Z)
    (w : world) (code : json) (raw : list json) (w' : world) (hotel_ids : list json) :
  hotel_list_reaches E destination w code raw w' ->
  Forall2 (fun h hotel_id => get_item h "hotelId" = Ok hotel_id) (firstn 3 raw) hotel_ids ->
  exists l w'',
    get_hotel_options E destination date1 date2 num_travelers w = (Ok l, w'') /\
    requests w'' =
      (requests w' ++
       map (fun hotel_id => HotelOffersRequest hotel_id num_travelers date1 date2)
           hotel_ids)%list.
Proof.
  intros (token & w1 & w2 & data & Htok & Tt & Hcode & Tc & Hup & Hdata & ->) Hids.
  unfold get_hotel_options. cbv zeta.
  unfold bind at 1. rewrite Htok, Tt. cbn [negb].
  unfold bind at 1. rewrite Hcode, Tc. cbn [negb].
  unfold try_catch at 1. unfold bind at 1. unfold http at 1. rewrite Hup.
  unfold bind at 1. unfold lift at 1. rewrite Hdata.
  unfold bind at 1. unfold lift at 1. rewrite is_empty_list.
  destruct raw as [| h0 raw].
  - inversion Hids; subst hotel_ids.
    destruct (mock_hotels_frame E destination date1 date2 num_travelers
                (log_request (HotelListRequest code) w2))
      as (l & w3 & Hmock & _ & Hreq & _).
    rewrite Hmock. exists l, w3. split; [reflexivity |].
    rewrite Hreq. cbn [map]. rewrite app_nil_r. reflexivity.
  - unfold bind at 1. unfold lift at 1. cbn [slice_to].
    unfold bind at 1. unfold lift at 1. cbn [iterate].
    unfold bind at 1. unfold lift at 1.
    rewrite (res_map_list_Forall2 _ _ _ Hids).
    unfold bind at 1.
    destruct (hotel_loop_requests E destination date1 date2 num_travelers hotel_ids []
                (log_request (HotelListRequest code) w2))
      as (l & w3 & Hloop & Hreq & _).
    rewrite Hloop. destruct l as [| h l].
    + destruct (mock_hotels_frame E destination date1 date2 num_travelers w3)
        as (ml & mw & Hmock & _ & Hmreq & _).
      rewrite Hmock. exists ml, mw. split; [reflexivity |].
      rewrite Hmreq. exact Hreq.
    + exists (h :: l), w3. split; [reflexivity | exact Hreq].
Qed.

Lemma first_three_hotels_asked_witness :
  hotel_list_reaches (scripted sample_stay) "Paris" init (JStr "PAR")
                     sample_listed_hotels sample_world_after_list /\
  Forall2 (fun h hotel_id => get_item h "hotelId" = Ok hotel_id)
          (firstn 3 sample_listed_hotels)
          [JStr "HLPAR001"; JStr "HLPAR002"; JStr "HLPAR003"] /\
  List.length sample_listed_hotels = 4%nat /\
  exists l w'',
    get_hotel_options (scripted sample_stay) "Paris" 10 13 2 init = (Ok l, w'') /\
    requests w'' =
      [TokenRequest; CityRequest "Paris"; HotelListRequest (JStr "PAR");
       HotelOffersRequest (JStr "HLPAR001") 2 10 13;
       HotelOffersRequest (JStr "HLPAR002") 2 10 13;
       HotelOffersRequest (JStr "HLPAR003") 2 10 13].
Proof.
  assert (Hreach : hotel_list_reaches (scripted sample_stay) "Paris" init (JStr "PAR")
                     sample_listed_hotels sample_world_after_list).
  { do 4 eexists. repeat split; vm_compute; reflexivity. }
  assert (Hids : Forall2 (fun h hotel_id => get_item h "hotelId" = Ok hotel_id)
                         (firstn 3 sample_listed_hotels)
                         [JStr "HLPAR001"; JStr "HLPAR002"; JStr "HLPAR003"]).
  { repeat constructor. }
  split; [exact Hreach |]. split; [exact Hids |]. split; [reflexivity |].
  exact (first_three_hotels_asked _ "Paris" 10 13 2 init (JStr "PAR") _ _ _ Hreach Hids).
Defined.

(** X11.  When the hotel list is reached and one of its first three entries
    has no usable ["hotelId"], the whole list is given up: no offers request
    is issued for any hotel, and the lookup answers with three synthetic
    hotels. *)
Theorem listed_hotel_without_id
    (E : env) (destination : string) (date1 date2 num_travelers : Z)
    (w : world) (code : json) (raw : list json) (w' : world) (h : json) (e : exn) :
  hotel_list_reaches E destination w code raw w' ->
  In h (firstn 3 raw) ->
  get_item h "hotelId" = Raise e ->
  exists l w'',
    get_hotel_options E destination date1 date2 num_travelers w = (Ok l, w'') /\
    requests w'' = requests w' /\
    List.length l = 3%nat /\
    Forall (synthetic_hotel destination (date2 - date1)) l.
Proof.
  intros (token & w1 & w2 & data & Htok & Tt & Hcode & Tc & Hup & Hdata & ->) Hin Hh.
  unfold get_hotel_options. cbv zeta.
  unfold bind at 1. rewrite Htok, Tt. cbn [negb].
  unfold bind at 1. rewrite Hcode, Tc. cbn [negb].
  unfold try_catch at 1. unfold bind at 1. unfold http at 1. rewrite Hup.
  unfold bind at 1. unfold lift at 1. rewrite Hdata.
  unfold bind at 1. unfold lift at 1. rewrite is_empty_list.
  destruct raw as [| h0 raw]; [destruct Hin |].
  unfold bind at 1. unfold lift at 1. cbn [slice_to].
  unfold bind at 1. unfold lift at 1. cbn [iterate].
  unfold bind at 1. unfold lift at 1.
  destruct (res_map_list_raises (fun x => get_item x "hotelId") (firstn 3 (h0 :: raw))
              (ex_intro _ h (ex_intro _ e (conj Hin Hh)))) as (e' & ->).
  destruct (mock_hotels_frame E destination date1 date2 num_travelers
              (log_request (HotelListRequest code) w2))
    as (l & w3 & Hmock & [Hlen Hall] & Hreq & _).
  rewrite Hmock. exists l, w3. repeat split; assumption.
Qed.

Lemma listed_hotel_without_id_witness :
  exists l w'',
    get_hotel_options
      (scripted [sample_token; sample_city;
                 Ok (JObj [("data", JArr [JObj [("hotelId", JStr "HLPAR001")];
                                          JObj [("name", JStr "Ritz")]])])])
      "Paris" 10 15 2 init = (Ok l, w'') /\
    requests w'' = [TokenRequest; CityRequest "Paris"; HotelListRequest (JStr "PAR")] /\
    List.length l = 3%nat /\
    Forall (synthetic_hotel "Paris" (15 - 10)) l.
Proof.
  apply (listed_hotel_without_id _ "Paris" 10 15 2 init (JStr "PAR")
           [JObj [("hotelId", JStr "HLPAR001")]; JObj [("name", JStr "Ritz")]]
           (World (JStr "abc123") (Some 63000001739000000)
                  [TokenRequest; CityRequest "Paris"; HotelListRequest (JStr "PAR")] 2 0)
           (JObj [("name", JStr "Ritz")]) KeyError).
  - do 4 eexists. repeat split; vm_compute; reflexivity.
  - right. left. reflexivity.
  - reflexivity.
Defined.

(** ** Hotels derived from the upstream *)

Lemma dict_get_present (v : json) (k : string) (found : json) :
  dict_get v k JNull = Ok found ->
  is_empty found = Ok false ->
  get_item v k = Ok found.
Proof.
  destruct v as [| | | | | | fields]; simpl; try discriminate.
  destruct (lookup k fields) as [x |]; intros H He; inversion H; subst; [reflexivity |].
  discriminate He.
Qed.

Lemma hotel_of_answer_inv
    (destination : string) (nights : Z) (answer : res json) (h : hotel) :
  hotel_of_answer destination nights answer = Some h ->
  exists offers_data found,
    answer = Ok offers_data /\
    get_item offers_data "data" = Ok found /\
    parse_hotel_offer destination nights found = Ok h.
Proof.
  unfold hotel_of_answer. destruct answer as [offers_data | e]; [| discriminate].
  destruct (dict_get offers_data "data" JNull) as [found | e] eqn:Hd; [| discriminate].
  destruct (is_empty found) as [[|] | e] eqn:He; try discriminate.
  destruct (parse_hotel_offer destination nights found) as [h' | e] eqn:Hp; [| discriminate].
  intros H. inversion H; subst h'. exists offers_data, found.
  split; [reflexivity |]. split; [exact (dict_get_present _ _ _ Hd He) | exact Hp].
Qed.

(** Every hotel of [upstream_hotels] is the hotel of one of the answers. *)
Lemma upstream_hotels_In
    (E : env) (destination : string) (nights : Z) (start count : nat) (h : hotel) :
  In h (upstream_hotels E destination nights start count) ->
  exists k,
    (start <= k < start + count)%nat /\
    hotel_of_answer destination nights (upstream E k) = Some h.
Proof.
  unfold upstream_hotels. intros Hin. apply in_flat_map in Hin.
  destruct Hin as (k & Hk & Hh). apply in_seq in Hk. exists k. split; [exact Hk |].
  destruct (hotel_of_answer destination nights (upstream E k)) as [h' |];
    [| destruct Hh].
  destruct Hh as [-> | []]. reflexivity.
Qed.

(** Once the hotel list is reached and each of its first three entries has
    an id, the lookup returns the hotels of the offers answers, as long as
    there is one. *)
Lemma hotels_listed
    (E : env) (destination : string) (date1 date2 n : Z)
    (w : world) (code : json) (raw : list json) (w' : world) (hotel_ids : list json) :
  hotel_list_reaches E destination w code raw w' ->
  Forall2 (fun x hotel_id => get_item x "hotelId" = Ok hotel_id) (firstn 3 raw) hotel_ids ->
  upstream_hotels E destination (date2 - date1)
                  (List.length (requests w')) (List.length hotel_ids) <> [] ->
  get_hotel_options E destination date1 date2 n w =
  (Ok (upstream_hotels E destination (date2 - date1)
                       (List.length (requests w')) (List.length hotel_ids)),
   World (access_token w') (token_expiry w')
         (requests w' ++
          map (fun hotel_id => HotelOffersRequest hotel_id n date1 date2) hotel_ids)
         (clock_reads w') (rng_reads w')).
Proof.
  intros (token & w1 & w2 & data & Htok & Tt & Hcode & Tc & Hup & Hdata & ->) Hids Hne.
  unfold get_hotel_options. cbv zeta.
  unfold bind at 1. rewrite Htok, Tt. cbn [negb].
  unfold bind at 1. rewrite Hcode, Tc. cbn [negb].
  unfold try_catch at 1. unfold bind at 1. unfold http at 1. rewrite Hup.
  unfold bind at 1. unfold lift at 1. rewrite Hdata.
  unfold bind at 1. unfold lift at 1. rewrite is_empty_list.
  destruct raw as [| h0 raw].
  - inversion Hids; subst hotel_ids. exfalso. apply Hne. reflexivity.
  - unfold bind at 1. unfold lift at 1. cbn [slice_to].
    unfold bind at 1. unfold lift at 1. cbn [iterate].
    unfold bind at 1. unfold lift at 1.
    rewrite (res_map_list_Forall2 _ _ _ Hids).
    unfold bind at 1. rewrite hotel_loop_result. cbn [List.app].
    destruct (upstream_hotels E destination (date2 - date1)
                (List.length (requests (log_request (HotelListRequest code) w2)))
                (List.length hotel_ids)) as [| h l] eqn:Hl.
    + exfalso. apply Hne. reflexivity.
    + reflexivity.
Qed.

(** C6.  When [get_hotel_options] reaches the hotel list and the offers
    answers give at least one hotel, it returns the hotels of these answers,
    and for a stay of at least one night
    ([check_out_date - check_in_date >= 1]) the [price] field of each is
    the total of its answer, [data[0].offers[0].price.total] read as a
    float, divided by [check_out_date - check_in_date] and rounded to an
    integer (ties to even); a total of 300 over 3 nights gives 100. *)
Theorem nightly_price_is_total_over_nights
    (E : env) (destination : string) (check_in_date check_out_date num_travelers : Z)
    (w : world) (code : json) (raw : list json) (w' : world) (hotel_ids : list json) :
  1 <= check_out_date - check_in_date ->
  hotel_list_reaches E destination w code raw w' ->
  Forall2 (fun x hotel_id => get_item x "hotelId" = Ok hotel_id) (firstn 3 raw) hotel_ids ->
  upstream_hotels E destination (check_out_date - check_in_date)
                  (List.length (requests w')) (List.length hotel_ids) <> [] ->
  exists l w'',
    get_hotel_options E destination check_in_date check_out_date num_travelers w =
      (Ok l, w'') /\
    l = upstream_hotels E destination (check_out_date - check_in_date)
                        (List.length (requests w')) (List.length hotel_ids) /\
    forall h, In h l ->
      exists k offers_data total total_f,
        (List.length (requests w') <= k < List.length (requests w') + List.length hotel_ids)%nat /\
        upstream E k = Ok offers_data /\
        hotel_of_answer destination (check_out_date - check_in_date) (Ok offers_data) =
          Some h /\
        answer_total offers_data = Ok total /\
        py_float total = Ok total_f /\
        PyFloat.round0
          (SFdiv prec emax total_f (PyFloat.of_Z (check_out_date - check_in_date))) =
          Ok (price h) /\
        (total_f = PyFloat.of_Z 300 -> check_out_date - check_in_date = 3 ->
         price h = 100).
Proof.
  intros Hn Hreach Hids Hne.
  do 2 eexists. split; [exact (hotels_listed _ _ _ _ _ _ _ _ _ _ Hreach Hids Hne) |].
  split; [reflexivity |].
  intros h Hin. destruct (upstream_hotels_In _ _ _ _ _ _ Hin) as (k & Hk & Hh).
  destruct (hotel_of_answer_inv _ _ _ _ Hh) as (offers_data & found & Hans & Hdata & Hp).
  destruct (parse_hotel_offer_inv _ _ _ _ Hp)
    as (first & hotel_data & offers & offer & rating_raw & r & price_obj & total &
        total_f & per_night & ams & H1 & H2 & H3 & H4 & H5 & H6 & H7 & H8 & H9 &
        H10 & H11 & H12 & H13 & H14 & H15).
  apply div_int_value in H10. subst per_night.
  exists k, offers_data, total, total_f.
  split; [exact Hk |]. split; [exact Hans |].
  split; [rewrite <- Hans; exact Hh |].
  split; [unfold answer_total; rewrite Hdata; cbn [res_bind];
          rewrite H1; cbn [res_bind]; rewrite H3; cbn [res_bind];
          rewrite H4; cbn [res_bind]; rewrite H7; cbn [res_bind]; exact H8 |].
  split; [exact H9 |]. split; [exact H13 |].
  intros -> Hthree. rewrite Hthree in H13.
  assert (Hc : PyFloat.round0 (SFdiv prec emax (PyFloat.of_Z 300) (PyFloat.of_Z 3)) = Ok 100)
    by (vm_compute; reflexivity).
  rewrite Hc in H13. inversion H13. reflexivity.
Qed.

Lemma sample_stay_reaches :
  hotel_list_reaches (scripted sample_stay) "Paris" init (JStr "PAR")
                     sample_listed_hotels sample_world_after_list.
Proof. do 4 eexists. repeat split; vm_compute; reflexivity. Defined.

Lemma sample_stay_ids :
  Forall2 (fun x hotel_id => get_item x "hotelId" = Ok hotel_id)
          (firstn 3 sample_listed_hotels)
          [JStr "HLPAR001"; JStr "HLPAR002"; JStr "HLPAR003"].
Proof. repeat constructor. Defined.

Lemma nightly_price_is_total_over_nights_witness :
  1 <= 13 - 10 /\
  upstream_hotels (scripted sample_stay) "Paris" (13 - 10) 3 3 =
    [sample_hotel (PyFloat.of_Z 4) 100 300 ["Wi-Fi"; "Breakfast"];
     sample_hotel (PyFloat.of_Z 3) 150 451
                  ["Swimming Pool"; String (ascii_of_nat 201) "cole Spa"]] /\
  exists l w'',
    get_hotel_options (scripted sample_stay) "Paris" 10 13 2 init = (Ok l, w'') /\
    l = upstream_hotels (scripted sample_stay) "Paris" (13 - 10) 3 3 /\
    forall h, In h l ->
      exists k offers_data total total_f,
        (3 <= k < 3 + 3)%nat /\
        upstream (scripted sample_stay) k = Ok offers_data /\
        hotel_of_answer "Paris" (13 - 10) (Ok offers_data) = Some h /\
        answer_total offers_data = Ok total /\
        py_float total = Ok total_f /\
        PyFloat.round0 (SFdiv prec emax total_f (PyFloat.of_Z (13 - 10))) = Ok (price h) /\
        (total_f = PyFloat.of_Z 300 -> 13 - 10 = 3 -> price h = 100).
Proof.
  split; [lia |]. split; [vm_compute; reflexivity |].
  apply (nightly_price_is_total_over_nights (scripted sample_stay) "Paris" 10 13 2 init
           (JStr "PAR") sample_listed_hotels sample_world_after_list
           [JStr "HLPAR001"; JStr "HLPAR002"; JStr "HLPAR003"]).
  - lia.
  - exact sample_stay_reaches.
  - exact sample_stay_ids.
  - vm_compute. discriminate.
Defined.

(** C8 (amended).  When [get_hotel_options] reaches the hotel list and the
    offers answers give at least one hotel, it returns the hotels of these
    answers, and for each of them, [hotel_data] being [data[0].hotel] of
    its answer: the [rating] field is [round(x, 1)] of the upstream rating
    read as a float [x] when [float] accepts it; for a string [float]
    rejects it is the score of the table ECONOMY=2.0, STANDARD=3.0,
    SUPERIOR=4.0, DELUXE=5.0, and 3.0 for any other string, so 3.0 for
    "LUXURY".  The amenity list is the upstream tokens with underscores
    turned into spaces and title-cased, cut to 5; it is the default
    ["Wi-Fi", "Breakfast"] exactly when the upstream gives no token. *)
Theorem upstream_rating_and_amenities
    (E : env) (destination : string) (check_in_date check_out_date num_travelers : Z)
    (w : world) (code : json) (raw : list json) (w' : world) (hotel_ids : list json) :
  hotel_list_reaches E destination w code raw w' ->
  Forall2 (fun x hotel_id => get_item x "hotelId" = Ok hotel_id) (firstn 3 raw) hotel_ids ->
  upstream_hotels E destination (check_out_date - check_in_date)
                  (List.length (requests w')) (List.length hotel_ids) <> [] ->
  exists l w'',
    get_hotel_options E destination check_in_date check_out_date num_travelers w =
      (Ok l, w'') /\
    l = upstream_hotels E destination (check_out_date - check_in_date)
                        (List.length (requests w')) (List.length hotel_ids) /\
    forall h, In h l ->
      exists k offers_data hotel_data rating_raw raw_amenities tokens,
        (List.length (requests w') <= k < List.length (requests w') + List.length hotel_ids)%nat /\
        upstream E k = Ok offers_data /\
        hotel_of_answer destination (check_out_date - check_in_date) (Ok offers_data) =
          Some h /\
        answer_hotel offers_data = Ok hotel_data /\
        dict_get hotel_data "rating" (JStr "3") = Ok rating_raw /\
        (forall x, py_float rating_raw = Ok x -> rating h = PyFloat.round1 x) /\
        (forall s, rating_raw = JStr s -> PyStr.to_float s = None ->
                   rating h = match lookup s rating_map with
                              | Some score => score
                              | None => PyFloat.of_Z 3
                              end) /\
        (rating_raw = JStr "LUXURY" -> rating h = PyFloat.of_Z 3) /\
        dict_get hotel_data "amenities" (JArr []) = Ok raw_amenities /\
        iterate raw_amenities = Ok (map JStr tokens) /\
        amenities h = match tokens with
                      | [] => default_amenities
                      | _ => firstn 5 (map format_amenity tokens)
                      end.
Proof.
  intros Hreach Hids Hne.
  do 2 eexists. split; [exact (hotels_listed _ _ _ _ _ _ _ _ _ _ Hreach Hids Hne) |].
  split; [reflexivity |].
  intros h Hin. destruct (upstream_hotels_In _ _ _ _ _ _ Hin) as (k & Hk & Hh).
  destruct (hotel_of_answer_inv _ _ _ _ Hh) as (offers_data & found & Hans & Hdata & Hp).
  destruct (parse_hotel_offer_inv _ _ _ _ Hp)
    as (first & hotel_data & offers & offer & rating_raw & r & price_obj & total &
        total_f & per_night & ams & H1 & H2 & H3 & H4 & H5 & H6 & H7 & H8 & H9 &
        H10 & H11 & H12 & H13 & H14 & H15).
  destruct (amenities_of_inv _ _ H11) as (raw_amenities & tokens & Hraw & Hit & Hams).
  assert (Hcat : forall s, rating_raw = JStr s -> PyStr.to_float s = None ->
            rating h = match lookup s rating_map with
                       | Some score => score
                       | None => PyFloat.of_Z 3
                       end).
  { intros s -> Hs. rewrite (rating_of_category s Hs) in H6. inversion H6; subst r.
    rewrite H12. apply round1_category. }
  exists k, offers_data, hotel_data, rating_raw, raw_amenities, tokens.
  split; [exact Hk |]. split; [exact Hans |].
  split; [rewrite <- Hans; exact Hh |].
  split; [unfold answer_hotel; rewrite Hdata; cbn [res_bind];
          rewrite H1; cbn [res_bind]; exact H2 |].
  split; [exact H5 |].
  split; [intros x Hx; rewrite (rating_of_numeric _ _ Hx) in H6; inversion H6; subst r;
          exact H12 |].
  split; [exact Hcat |].
  split; [intros Hl; rewrite (Hcat "LUXURY" Hl); [reflexivity | vm_compute; reflexivity] |].
  split; [exact Hraw |]. split; [exact Hit |].
  rewrite H15, Hams. destruct tokens; reflexivity.
Qed.

Lemma upstream_rating_and_amenities_witness :
  upstream_hotels (scripted sample_stay) "Paris" (13 - 10) 3 3 =
    [sample_hotel (PyFloat.of_Z 4) 100 300 ["Wi-Fi"; "Breakfast"];
     sample_hotel (PyFloat.of_Z 3) 150 451
                  ["Swimming Pool"; String (ascii_of_nat 201) "cole Spa"]] /\
  exists l w'',
    get_hotel_options (scripted sample_stay) "Paris" 10 13 2 init = (Ok l, w'') /\
    l = upstream_hotels (scripted sample_stay) "Paris" (13 - 10) 3 3 /\
    forall h, In h l ->
      exists k offers_data hotel_data rating_raw raw_amenities tokens,
        (3 <= k < 3 + 3)%nat /\
        upstream (scripted sample_stay) k = Ok offers_data /\
        hotel_of_answer "Paris" (13 - 10) (Ok offers_data) = Some h /\
        answer_hotel offers_data = Ok hotel_data /\
        dict_get hotel_data "rating" (JStr "3") = Ok rating_raw /\
        (forall x, py_float rating_raw = Ok x -> rating h = PyFloat.round1 x) /\
        (forall s, rating_raw = JStr s -> PyStr.to_float s = None ->
                   rating h = match lookup s rating_map with
                              | Some score => score
                              | None => PyFloat.of_Z 3
                              end) /\
        (rating_raw = JStr "LUXURY" -> rating h = PyFloat.of_Z 3) /\
        dict_get hotel_data "amenities" (JArr []) = Ok raw_amenities /\
        iterate raw_amenities = Ok (map JStr tokens) /\
        amenities h = match tokens with
                      | [] => default_amenities
                      | _ => firstn 5 (map format_amenity tokens)
                      end.
Proof.
  split; [vm_compute; reflexivity |].
  apply (upstream_rating_and_amenities (scripted sample_stay) "Paris" 10 13 2 init
           (JStr "PAR") sample_listed_hotels sample_world_after_list
           [JStr "HLPAR001"; JStr "HLPAR002"; JStr "HLPAR003"]).
  - exact sample_stay_reaches.
  - exact sample_stay_ids.
  - vm_compute. discriminate.
Defined.

(** The claim of C8 as worded, "the rating is the numeric value of the
    upstream rating field", fails on an upstream rating of "4.25": the hotel
    [get_hotel_options] returns carries 4.2. *)
Lemma rating_is_rounded_counterexample :
  exists h w' x,
    get_hotel_options
      (scripted [sample_token; sample_city; sample_hotel_list;
                 sample_offers (JStr "4.25") (JStr "300.00") []])
      "Paris" 10 13 2 init = (Ok [h], w') /\
    py_float (JStr "4.25") = Ok x /\
    rating h = PyFloat.of_decimal false 42 (-1) /\
    rating h <> x.
Proof.
  do 3 eexists. split; [vm_compute; reflexivity |].
  split; [vm_compute; reflexivity |].
  split; [vm_compute; reflexivity |].
  vm_compute. discriminate.
Qed.

(** ** After a failed exchange *)

Lemma token_refresh_logged (E : env) (w : world) :
  token_valid w (clock E (clock_reads w)) = false ->
  exists tok w',
    _get_amadeus_token E w = (Ok tok, w') /\
    requests w' = (requests w ++ [TokenRequest])%list.
Proof.
  intros Hv.
  destruct (token_refresh_cases E w Hv)
    as [(body & tok & ei & secs & delta & _ & _ & _ & _ & _ & _ & Hr) |
        [Hr | (body & tok & _ & _ & Hr)]];
    rewrite Hr; do 2 eexists; split; reflexivity.
Qed.

(** X12.  A token call that returns no usable token is not remembered as a
    failure: provided the expiry the instance held before the call, if any,
    has passed when the next call reads the clock, that next call issues a
    token request again. *)
Theorem failed_exchange_is_retried (E : env) (w w' : world) (tok : json) :
  _get_amadeus_token E w = (Ok tok, w') ->
  truthy tok = false ->
  (forall expiry, token_expiry w = Some expiry -> expiry <= clock E (clock_reads w')) ->
  exists tok2 w'',
    _get_amadeus_token E w' = (Ok tok2, w'') /\
    requests w'' = (requests w' ++ [TokenRequest])%list.
Proof.
  intros Hrun Ht Hpast. apply token_refresh_logged.
  destruct (token_valid w (clock E (clock_reads w))) eqn:Hv.
  - rewrite (token_cache_hit E w Hv) in Hrun. inversion Hrun; subst.
    destruct (token_valid_cached _ _ Hv) as (Htruthy & _). congruence.
  - destruct (token_refresh_cases E w Hv)
      as [(body & t & ei & secs & delta & _ & _ & _ & _ & _ & _ & Hr) |
          [Hr | (body & t & _ & _ & Hr)]];
      rewrite Hr in Hrun; inversion Hrun; subst; clear Hrun;
      unfold token_valid; cbn [access_token token_expiry clock_reads] in *.
    + rewrite Ht. reflexivity.
    + destruct (token_expiry w) as [expiry |]; [| apply andb_false_r].
      specialize (Hpast expiry eq_refl).
      apply andb_false_iff. right. apply Z.ltb_ge. exact Hpast.
    + destruct (token_expiry w) as [expiry |]; [| apply andb_false_r].
      specialize (Hpast expiry eq_refl).
      apply andb_false_iff. right. apply Z.ltb_ge. exact Hpast.
Qed.

Lemma failed_exchange_is_retried_witness :
  _get_amadeus_token (scripted [Ok (JObj [("access_token", JStr "NEW")])])
    (World (JStr "OLD") (Some 0) [] 0 0) =
    (Ok JNull, World (JStr "NEW") (Some 0) [TokenRequest] 1 0) /\
  truthy JNull = false /\
  0 <= clock (scripted [Ok (JObj [("access_token", JStr "NEW")])]) 1 /\
  exists tok2 w'',
    _get_amadeus_token (scripted [Ok (JObj [("access_token", JStr "NEW")])])
      (World (JStr "NEW") (Some 0) [TokenRequest] 1 0) = (Ok tok2, w'') /\
    requests w'' = [TokenRequest; TokenRequest].
Proof.
  split; [vm_compute; reflexivity |]. split; [reflexivity |].
  split; [vm_compute; discriminate |].
  apply (failed_exchange_is_retried
           (scripted [Ok (JObj [("access_token", JStr "NEW")])])
           (World (JStr "OLD") (Some 0) [] 0 0)
           (World (JStr "NEW") (Some 0) [TokenRequest] 1 0) JNull).
  - vm_compute. reflexivity.
  - reflexivity.
  - intros expiry H. inversion H. vm_compute. discriminate.
Defined.

(** X13.  Without a valid cached token, the first request a flight or a
    hotel lookup issues is the token request. *)
Theorem lookup_authenticates_first
    (E : env) (destination : string) (date1 date2 num_travelers : Z) (w : world) :
  token_valid w (clock E (clock_reads w)) = false ->
  (exists l w' rest,
     get_flight_options E destination date1 date2 num_travelers w = (Ok l, w') /\
     requests w' = (requests w ++ TokenRequest :: rest)%list) /\
  (exists l w' rest,
     get_hotel_options E destination date1 date2 num_travelers w = (Ok l, w') /\
     requests w' = (requests w ++ TokenRequest :: rest)%list).
Proof.
  intros Hv. destruct (token_refresh_logged E w Hv) as (tok & w1 & Hrun & Hreq1).
  split.
  - destruct (truthy tok) eqn:Ht.
    + destruct (token_step E w1) as (tok2 & w2 & t2' & Hrun2 & Hreq2 & _).
      destruct (truthy tok2) eqn:Ht2.
      * destruct (iata_with_token E destination w1 w2 tok2 Hrun2 Ht2) as (code & Hcode & _).
        destruct (truthy code) eqn:Hc.
        -- destruct (flights_with_code E destination date1 date2 num_travelers
                       w w1 _ tok code Hrun Ht Hcode Hc) as (l' & w3 & Hget' & Hreq3 & _).
           exists l', w3, (t2' ++ [CityRequest destination;
                                   FlightOffersRequest code date1 date2 num_travelers])%list.
           split; [exact Hget' |].
           rewrite Hreq3. cbn [log_request requests].
           rewrite Hreq2, Hreq1, <- !app_assoc. reflexivity.
        -- rewrite (flights_without_code E destination date1 date2 num_travelers
                      w w1 _ tok code Hrun Ht Hcode Hc).
           destruct (mock_flights_frame E destination date1 date2 num_travelers
                       (log_request (CityRequest destination) w2))
             as (l' & w3 & Hmock & _ & Hmreq & _).
           exists l', w3, (t2' ++ [CityRequest destination])%list.
           split; [exact Hmock |].
           rewrite Hmreq. cbn [log_request requests].
           rewrite Hreq2, Hreq1, <- !app_assoc. reflexivity.
      * rewrite (flights_without_code E destination date1 date2 num_travelers
                   w w1 w2 tok JNull Hrun Ht
                   (iata_without_token E destination w1 w2 tok2 Hrun2 Ht2) eq_refl).
        destruct (mock_flights_frame E destination date1 date2 num_travelers w2)
          as (l' & w3 & Hmock & _ & Hmreq & _).
        exists l', w3, t2'. split; [exact Hmock |].
        rewrite Hmreq, Hreq2, Hreq1, <- app_assoc. reflexivity.
    + rewrite (flights_without_token E destination date1 date2 num_travelers w w1 tok Hrun Ht).
      destruct (mock_flights_frame E destination date1 date2 num_travelers w1)
        as (l' & w3 & Hmock & _ & Hmreq & _).
      exists l', w3, []. split; [exact Hmock |]. rewrite Hmreq. exact Hreq1.
  - destruct (truthy tok) eqn:Ht.
    + destruct (token_step E w1) as (tok2 & w2 & t2' & Hrun2 & Hreq2 & _).
      destruct (truthy tok2) eqn:Ht2.
      * destruct (iata_with_token E destination w1 w2 tok2 Hrun2 Ht2) as (code & Hcode & _).
        destruct (truthy code) eqn:Hc.
        -- destruct (hotels_with_code E destination date1 date2 num_travelers
                       w w1 _ tok code Hrun Ht Hcode Hc)
             as (l' & w3 & hotel_ids & Hget' & _ & Hreq3 & _).
           exists l', w3,
             (t2' ++ CityRequest destination :: HotelListRequest code ::
              map (fun hotel_id =>
                     HotelOffersRequest hotel_id num_travelers date1 date2)
                  hotel_ids)%list.
           split; [exact Hget' |].
           rewrite Hreq3. cbn [log_request requests].
           rewrite Hreq2, Hreq1, <- !app_assoc. reflexivity.
        -- rewrite (hotels_without_code E destination date1 date2 num_travelers
                      w w1 _ tok code Hrun Ht Hcode Hc).
           destruct (mock_hotels_frame E destination date1 date2 num_travelers
                       (log_request (CityRequest destination) w2))
             as (l' & w3 & Hmock & _ & Hmreq & _).
           exists l', w3, (t2' ++ [CityRequest destination])%list.
           split; [exact Hmock |].
           rewrite Hmreq. cbn [log_request requests].
           rewrite Hreq2, Hreq1, <- !app_assoc. reflexivity.
      * rewrite (hotels_without_code E destination date1 date2 num_travelers
                   w w1 w2 tok JNull Hrun Ht
                   (iata_without_token E destination w1 w2 tok2 Hrun2 Ht2) eq_refl).
        destruct (mock_hotels_frame E destination date1 date2 num_travelers w2)
          as (l' & w3 & Hmock & _ & Hmreq & _).
        exists l', w3, t2'. split; [exact Hmock |].
        rewrite Hmreq, Hreq2, Hreq1, <- app_assoc. reflexivity.
    + rewrite (hotels_without_token E destination date1 date2 num_travelers w w1 tok Hrun Ht).
      destruct (mock_hotels_frame E destination date1 date2 num_travelers w1)
        as (l' & w3 & Hmock & _ & Hmreq & _).
      exists l', w3, []. split; [exact Hmock |]. rewrite Hmreq. exact Hreq1.
Qed.

Lemma lookup_authenticates_first_witness :
  token_valid init (clock (scripted (sample_search five_offers)) (clock_reads init)) = false /\
  exists l w' rest,
    get_flight_options (scripted (sample_search five_offers)) "Paris" 10 15 2 init =
      (Ok l, w') /\
    requests w' = (requests init ++ TokenRequest :: rest)%list.
Proof.
  split; [reflexivity |].
  apply (proj1 (lookup_authenticates_first (scripted (sample_search five_offers))
                  "Paris" 10 15 2 init eq_refl)).
Defined.

(** ** The itinerary summary of the chat assistant *)

Lemma take_length_min (n : nat) (s : string) :
  String.length (PyStr.take n s) = Nat.min n (String.length s).
Proof.
  unfold PyStr.take. revert s.
  induction n as [| n IH]; intros [| c s]; simpl; try reflexivity.
  rewrite IH. reflexivity.
Qed.

Lemma take_all (n : nat) (s : string) :
  (String.length s <= n)%nat -> PyStr.take n s = s.
Proof.
  unfold PyStr.take. revert s.
  induction n as [| n IH]; intros [| c s]; simpl; intros H; try reflexivity; try lia.
  rewrite IH; [reflexivity | lia].
Qed.

Lemma take_app (n : nat) (s t : string) :
  (n <= String.length s)%nat -> PyStr.take n (s ++ t) = PyStr.take n s.
Proof.
  unfold PyStr.take. revert s.
  induction n as [| n IH]; intros [| c s]; simpl; intros H; try reflexivity; try lia.
  - destruct t; reflexivity.
  - rewrite IH; [reflexivity | lia].
Qed.

Lemma take_take (n : nat) (s : string) : PyStr.take n (PyStr.take n s) = PyStr.take n s.
Proof. apply take_all. apply take_length. Qed.

Lemma string_length_app (s t : string) :
  String.length (s ++ t) = (String.length s + String.length t)%nat.
Proof. induction s as [| c s IH]; simpl; [reflexivity | rewrite IH; reflexivity]. Qed.

(** X14.  The summary of an itinerary text is never longer than 503
    characters and starts with the same 500 characters as the text; a text
    of at most 500 characters is its own summary, a longer one is cut to 500
    characters followed by three dots; and summarising a summary changes
    nothing. *)
Theorem itinerary_summary_bounded (s : string) :
  exists t,
    _summarize_itinerary (JStr s) = Str t /\
    (String.length t <= 503)%nat /\
    PyStr.take 500 t = PyStr.take 500 s /\
    ((String.length s <= 500)%nat -> t = s) /\
    ((500 < String.length s)%nat ->
     t = (PyStr.take 500 s ++ "...")%string /\ String.length t = 503%nat) /\
    _summarize_itinerary (JStr t) = Str t.
Proof.
  unfold _summarize_itinerary.
  destruct (500 <? String.length s)%nat eqn:Hlen.
  - apply Nat.ltb_lt in Hlen.
    assert (H500 : String.length (PyStr.take 500 s) = 500%nat)
      by (rewrite take_length_min; lia).
    assert (H503 : String.length (PyStr.take 500 s ++ "...") = 503%nat)
      by (rewrite string_length_app, H500; reflexivity).
    exists (PyStr.take 500 s ++ "...")%string.
    split; [reflexivity |]. split; [lia |].
    split; [rewrite take_app by lia; apply take_take |].
    split; [lia |]. split; [intros _; split; [reflexivity | exact H503] |].
    assert (Hlt : (500 <? String.length (PyStr.take 500 s ++ "..."))%nat = true)
      by (apply Nat.ltb_lt; lia).
    rewrite Hlt, take_app by lia. rewrite take_take. reflexivity.
  - apply Nat.ltb_ge in Hlen. exists s.
    split; [reflexivity |]. split; [lia |]. split; [reflexivity |].
    split; [reflexivity |]. split; [lia |].
    assert (Hlt : (500 <? String.length s)%nat = false) by (apply Nat.ltb_ge; lia).
    rewrite Hlt. reflexivity.
Qed.

Lemma itinerary_summary_bounded_witness :
  exists t,
    _summarize_itinerary (JStr (repeat_string 200 "Day")) = Str t /\
    String.length t = 503%nat.
Proof.
  destruct (itinerary_summary_bounded (repeat_string 200 "Day"))
    as (t & Ht & _ & _ & _ & Hlong & _).
  exists t. split; [exact Ht |]. apply Hlong. vm_compute. lia.
Defined.

(** ** The weather forecast *)

Lemma res_map_list_inv {A B : Type} (f : A -> res B) (l : list A) (ys : list B) :
  res_map_list f l = Ok ys -> Forall2 (fun x y => f x = Ok y) l ys.
Proof.
  revert ys. induction l as [| x l IH]; intros ys; simpl.
  - intros H. inversion H. constructor.
  - destruct (f x) as [y |] eqn:Hx; cbn [res_bind]; [| discriminate].
    destruct (res_map_list f l) as [ys' |]; cbn [res_bind]; [| discriminate].
    intros H. inversion H. constructor; [exact Hx | apply IH; reflexivity].
Qed.

Lemma Forall2_nth_error {A B : Type} (R : A -> B -> Prop) (l : list A) (ys : list B) :
  Forall2 R l ys ->
  forall k y, nth_error ys k = Some y -> exists x, nth_error l k = Some x /\ R x y.
Proof.
  induction 1 as [| x y l ys Hxy _ IH]; intros k y' Hk.
  - destruct k; discriminate Hk.
  - destruct k as [| k]; simpl in *.
    + inversion Hk; subst. exists x. split; [reflexivity | exact Hxy].
    + apply IH. exact Hk.
Qed.

Lemma every_eighth_length (n : nat) : List.length (every_eighth n) = ((n + 7) / 8)%nat.
Proof. unfold every_eighth. rewrite length_map, length_seq. reflexivity. Qed.

Lemma every_eighth_nth (n k i : nat) :
  nth_error (every_eighth n) k = Some i -> i = (8 * k)%nat.
Proof.
  unfold every_eighth. intros H.
  rewrite nth_error_map in H.
  destruct (nth_error (seq 0 ((n + 7) / 8)) k) as [j |] eqn:Hj; [| discriminate H].
  simpl in H. inversion H; subst i. clear H.
  assert (Hk : (k < (n + 7) / 8)%nat).
  { assert (Hlt : (k < List.length (seq 0 ((n + 7) / 8)))%nat)
      by (apply nth_error_Some; rewrite Hj; discriminate).
    rewrite length_seq in Hlt. exact Hlt. }
  apply nth_error_nth with (d := O) in Hj.
  rewrite seq_nth in Hj by exact Hk. lia.
Qed.

Lemma py_len_nat (v : json) (z : Z) : py_len v = Ok z -> Z.of_nat (Z.to_nat z) = z.
Proof.
  destruct v; simpl; intros H; inversion H; rewrite Nat2Z.id; reflexivity.
Qed.

(** X15.  [get_weather_info] answers all or nothing.  Either it gives the
    fixed answer of a failed lookup, with the current conditions "Not
    available" and an empty forecast, or it names the destination and its
    forecast has one day for every eighth entry of the upstream list: for a
    list of [n] entries, [(n + 7) / 8] days, the [k]-th built from entry
    [8 * k]. *)
Theorem forecast_every_eighth_entry
    (current_weather : string -> res json)
    (forecast_weather : json -> json -> res json)
    (utc_date : json -> res string) (destination : string) :
  get_weather_info current_weather forecast_weather utc_date destination =
    weather_not_available \/
  exists lat lon forecast_data entries days,
    forecast_weather lat lon = Ok forecast_data /\
    get_item forecast_data "list" = Ok entries /\
    forecast (get_weather_info current_weather forecast_weather utc_date destination) =
      days /\
    destination_of
      (get_weather_info current_weather forecast_weather utc_date destination) =
      Some destination /\
    (exists n, py_len entries = Ok (Z.of_nat n) /\
               List.length days = ((n + 7) / 8)%nat) /\
    forall k d,
      nth_error days k = Some d ->
      exists day_data,
        get_index entries (8 * k) = Ok day_data /\
        forecast_day utc_date day_data = Ok d.
Proof.
  unfold get_weather_info.
  destruct (fetch_weather current_weather forecast_weather utc_date destination)
    as [w | e] eqn:H; [| left; reflexivity].
  right. unfold fetch_weather in H. res_steps H.
  inversion H; subst w; clear H. cbn [forecast destination_of].
  match goal with
  | Hf : forecast_weather ?lat ?lon = Ok ?fd,
    He : get_item ?fd "list" = Ok ?entries,
    Hn : py_len ?entries = Ok ?n,
    Hd : res_map_list _ _ = Ok ?days |- _ =>
      exists lat, lon, fd, entries, days;
      split; [exact Hf |]; split; [exact He |];
      split; [reflexivity |]; split; [reflexivity |];
      apply res_map_list_inv in Hd;
      assert (Hnat := py_len_nat _ _ Hn);
      split;
      [ exists (Z.to_nat n); split;
        [ rewrite Hnat; exact Hn
        | rewrite <- (Forall2_length Hd); apply every_eighth_length ]
      | intros k d Hk;
        destruct (Forall2_nth_error _ _ _ Hd k d Hk) as (i & Hi & Hday);
        apply every_eighth_nth in Hi; subst i;
        cbv beta in Hday;
        destruct (get_index entries (8 * k)) as [day_data |] eqn:Hidx;
        cbn [res_bind] in Hday; [| discriminate Hday];
        exists day_data; split; [reflexivity | exact Hday] ]
  end.
Qed.

Lemma forecast_every_eighth_entry_witness :
  List.length
    (forecast (get_weather_info (fun _ => Ok sample_current_weather)
                                (fun _ _ => Ok sample_forecast)
                                (fun _ => Ok "2025-06-01") "Paris")) = 5%nat.
Proof.
  destruct (forecast_every_eighth_entry
              (fun _ => Ok sample_current_weather) (fun _ _ => Ok sample_forecast)
              (fun _ => Ok "2025-06-01") "Paris")
    as [Hnone | (lat & lon & forecast_data & entries & days &
                 Hf & He & Hdays & _ & (n & Hn & Hlen) & _)].
  - apply (f_equal destination_of) in Hnone. vm_compute in Hnone. discriminate Hnone.
  - rewrite Hdays, Hlen. inversion Hf; subst forecast_data.
    vm_compute in He. inversion He; subst entries.
    vm_compute in Hn. inversion Hn as [Hz].
    change 40%Z with (Z.of_nat 40) in Hz. apply Nat2Z.inj in Hz. subst n. reflexivity.
Defined.

(** ** Packing suggestions *)

(** X16.  [get_packing_suggestions] raises [ZeroDivisionError] whenever the
    forecast is empty.  That is the case for the answer [get_weather_info]
    gives after any failure: packing suggestions for it cannot be
    computed. *)
Theorem packing_needs_a_forecast :
  (forall weather_info,
     forecast weather_info = [] ->
     get_packing_suggestions weather_info = Raise ZeroDivisionError) /\
  (forall current_weather forecast_weather utc_date destination e,
     fetch_weather current_weather forecast_weather utc_date destination = Raise e ->
     get_packing_suggestions
       (get_weather_info current_weather forecast_weather utc_date destination) =
     Raise ZeroDivisionError).
Proof.
  assert (H : forall weather_info,
             forecast weather_info = [] ->
             get_packing_suggestions weather_info = Raise ZeroDivisionError).
  { intros weather_info Hnil. unfold get_packing_suggestions. rewrite Hnil. reflexivity. }
  split; [exact H |].
  intros current_weather forecast_weather utc_date destination e He.
  apply H. unfold get_weather_info. rewrite He. reflexivity.
Qed.

Lemma packing_needs_a_forecast_witness :
  fetch_weather (fun _ => Raise RequestException) (fun _ _ => Ok sample_forecast)
                (fun _ => Ok "2025-06-01") "Paris" = Raise RequestException /\
  get_packing_suggestions
    (get_weather_info (fun _ => Raise RequestException) (fun _ _ => Ok sample_forecast)
                      (fun _ => Ok "2025-06-01") "Paris") =
  Raise ZeroDivisionError.
Proof.
  split; [reflexivity |].
  apply (proj2 packing_needs_a_forecast
           (fun _ => Raise RequestException) (fun _ _ => Ok sample_forecast)
           (fun _ => Ok "2025-06-01") "Paris" RequestException).
  reflexivity.
Defined.

Lemma int_true_div_zero (a : Z) : int_true_div a 0 = Raise ZeroDivisionError.
Proof. reflexivity. Qed.

Lemma true_div_zero (x : number) : true_div x 0 = Raise ZeroDivisionError.
Proof. destruct x; reflexivity. Qed.

(** X17.  When [get_packing_suggestions] returns, the forecast is not empty
    and the low temperatures add up to a number, although their average is
    not used; the list starts with the walking shoes, continues with
    exactly one of the four clothing groups, and ends with the rain gear
    exactly when a description mentions rain or a thunderstorm.  It holds
    between 3 and 8 suggestions. *)
Theorem packing_suggestions_shape (weather_info : weather) (l : list string) :
  get_packing_suggestions weather_info = Ok l ->
  forecast weather_info <> [] /\
  (exists total_low, py_sum (map low (forecast weather_info)) = Ok total_low) /\
  (exists clothing,
     In clothing [hot_weather; mild_weather; cool_weather; cold_weather] /\
     l = ("Comfortable walking shoes" :: clothing ++
          if rainy (map description (forecast weather_info)) then rain_gear else [])%list) /\
  (3 <= List.length l <= 8)%nat.
Proof.
  unfold get_packing_suggestions. cbv zeta. intros H.
  destruct (forecast weather_info) as [| d days] eqn:Hdays.
  - exfalso. cbn [map List.length Z.of_nat] in H.
    destruct (py_sum []) as [t |]; cbn [res_bind] in H; [| discriminate H].
    rewrite true_div_zero in H. discriminate H.
  - split; [discriminate |].
    destruct (py_sum (map high (d :: days))) as [total_high |];
      cbn [res_bind] in H; [| discriminate H].
    destruct (true_div total_high (Z.of_nat (List.length (d :: days)))) as [avg_high |];
      cbn [res_bind] in H; [| discriminate H].
    destruct (py_sum (map low (d :: days))) as [total_low |];
      cbn [res_bind] in H; [| discriminate H].
    destruct (true_div total_low (Z.of_nat (List.length (d :: days)))) as [avg_low |];
      cbn [res_bind] in H; [| discriminate H].
    split; [exists total_low; reflexivity |].
    assert (Hshape :
              exists clothing,
                In clothing [hot_weather; mild_weather; cool_weather; cold_weather] /\
                l = ("Comfortable walking shoes" :: clothing ++
                     if rainy (map description (d :: days)) then rain_gear else [])%list).
    { destruct (gt_int avg_high 30);
        [exists hot_weather |
         destruct (gt_int avg_high 20);
           [exists mild_weather |
            destruct (gt_int avg_high 10); [exists cool_weather | exists cold_weather]]];
        (split; [simpl; tauto |]);
        destruct (rainy (map description (d :: days)));
        inversion H; try rewrite app_nil_r; reflexivity. }
    split; [exact Hshape |].
    destruct Hshape as (clothing & Hin & ->).
    destruct (rainy (map description (d :: days)));
      destruct Hin as [<- | [<- | [<- | [<- | []]]]]; simpl; lia.
Qed.

Lemma packing_suggestions_shape_witness :
  get_packing_suggestions
    (Weather (Some "Paris") [Str "mild"]
             [sample_day "Light rain" (JInt 24) (JInt 15);
              sample_day "Clear sky" (JFloat (PyFloat.of_Z 19)) (JInt 11)]) =
    Ok (("Comfortable walking shoes" :: mild_weather) ++ rain_gear)%list /\
  (3 <= List.length (("Comfortable walking shoes" :: mild_weather) ++ rain_gear) <= 8)%nat.
Proof.
  assert (H : get_packing_suggestions
                (Weather (Some "Paris") [Str "mild"]
                         [sample_day "Light rain" (JInt 24) (JInt 15);
                          sample_day "Clear sky" (JFloat (PyFloat.of_Z 19)) (JInt 11)]) =
              Ok (("Comfortable walking shoes" :: mild_weather) ++ rain_gear)%list)
    by (vm_compute; reflexivity).
  split; [exact H |].
  exact (proj2 (proj2 (proj2 (packing_suggestions_shape _ _ H)))).
Defined.

Lemma to_lower_to_upper (c : ascii) : PyStr.to_lower (PyStr.to_upper c) = PyStr.to_lower c.
Proof.
  destruct c as [[|] [|] [|] [|] [|] [|] [|] [|]]; vm_compute; reflexivity.
Qed.

Lemma to_lower_to_lower (c : ascii) : PyStr.to_lower (PyStr.to_lower c) = PyStr.to_lower c.
Proof.
  destruct c as [[|] [|] [|] [|] [|] [|] [|] [|]]; vm_compute; reflexivity.
Qed.

Lemma lower_lower (s : string) : PyStr.lower (PyStr.lower s) = PyStr.lower s.
Proof.
  induction s as [| c s IH]; simpl; [reflexivity |].
  rewrite to_lower_to_lower, IH. reflexivity.
Qed.

Lemma lower_capitalize (s : string) : PyStr.lower (capitalize s) = PyStr.lower s.
Proof.
  destruct s as [| c s]; simpl; [reflexivity |].
  rewrite to_lower_to_upper, lower_lower. reflexivity.
Qed.

(** X18.  The descriptions of a forecast are the upstream descriptions
    capitalised, and the rain test lowers them again: whether rain gear is
    suggested does not depend on the letter case of the upstream
    descriptions. *)
Theorem rain_test_ignores_case (upstream_descriptions : list string) :
  rainy (map capitalize upstream_descriptions) = rainy upstream_descriptions /\
  rainy (map PyStr.lower upstream_descriptions) = rainy upstream_descriptions.
Proof.
  unfold rainy. split.
  - induction upstream_descriptions as [| s l IH]; simpl; [reflexivity |].
    rewrite lower_capitalize, IH. reflexivity.
  - induction upstream_descriptions as [| s l IH]; simpl; [reflexivity |].
    rewrite lower_lower, IH. reflexivity.
Qed.

(** ** A stay of at least one night never divides by zero *)

(** An integer below [2^53] is a finite double, not a zero. *)
Lemma binary_round_small (s : bool) (p : positive) :
  Zpos p < 9007199254740992 ->
  exists m e, binary_round prec emax s p 0 = S754_finite s m e.
Proof.
  intros Hp. unfold binary_round, shl_align.
  assert (Hsize : 1 <= Zpos (digits2_pos p) <= 53).
  { rewrite digits2_pos_size. split; [lia |].
    destruct (Z.le_gt_cases (Zpos (Pos.size p)) 53) as [H | H]; [exact H | exfalso].
    pose proof (Pos.size_le p) as Hle. apply Pos2Z.pos_le_pos in Hle.
    rewrite Pos2Z.inj_pow in Hle.
    assert (2 ^ 54 <= 2 ^ Zpos (Pos.size p)) by (apply Z.pow_le_mono_r; lia).
    change (Zpos p~0) with (2 * Zpos p) in Hle.
    change (2 ^ 54) with 18014398509481984 in *. lia. }
  rewrite Z.add_0_r.
  assert (Hf : fexp prec emax (Zpos (digits2_pos p)) = Zpos (digits2_pos p) - 53).
  { unfold fexp, SpecFloat.emin, prec, emax.
    change (IntDef.Z.max ?a ?b) with (Z.max a b). lia. }
  rewrite Hf, Z.sub_0_r.
  destruct (Zpos (digits2_pos p) - 53) as [| d | d] eqn:Hd; try lia.
  - exists p, 0. apply binary_round_aux_exact; lia.
  - exists (Pos.iter xO p d), (Zneg d). apply binary_round_aux_exact; [| lia].
    rewrite iter_xO_digits. lia.
Qed.

Lemma div_int_positive (x : pyfloat) (n : Z) :
  0 < n < 9007199254740992 ->
  PyFloat.div_int x n = Ok (SFdiv prec emax x (PyFloat.of_Z n)).
Proof.
  intros Hn. unfold PyFloat.div_int, PyFloat.of_int, PyFloat.of_Z.
  destruct n as [| p | p]; try lia. cbn [binary_normalize].
  destruct (binary_round_small false p (proj2 Hn)) as (m & e & ->). reflexivity.
Qed.

Lemma get_first_raises (v : json) (e : exn) :
  get_first v = Raise e -> e <> ZeroDivisionError.
Proof.
  destruct v as [| | | | s | l | l]; simpl;
    try destruct s; try destruct l; intros H; inversion H; discriminate.
Qed.

Lemma get_item_raises (v : json) (k : string) (e : exn) :
  get_item v k = Raise e -> e <> ZeroDivisionError.
Proof.
  destruct v as [| | | | | | l]; simpl; try destruct (lookup k l);
    intros H; inversion H; discriminate.
Qed.

Lemma dict_get_raises (v : json) (k : string) (d : json) (e : exn) :
  dict_get v k d = Raise e -> e <> ZeroDivisionError.
Proof. destruct v; simpl; intros H; inversion H; discriminate. Qed.

Lemma py_float_raises (v : json) (e : exn) :
  py_float v = Raise e -> e <> ZeroDivisionError.
Proof.
  destruct v as [| b | z | f | s | |]; simpl; intros H; try (inversion H; discriminate).
  - unfold PyFloat.of_int in H. destruct (PyFloat.of_Z z); inversion H; discriminate.
  - destruct (PyStr.to_float s); inversion H; discriminate.
Qed.

Lemma rating_of_raises (v : json) (e : exn) :
  rating_of v = Raise e -> e <> ZeroDivisionError.
Proof.
  unfold rating_of. destruct (py_float v) as [f | e'] eqn:Hf; [discriminate |].
  assert (He' := py_float_raises v e' Hf).
  destruct e'; try (intros H; inversion H; subst; exact He').
  unfold rating_map_get. destruct v; try destruct (lookup s rating_map);
    intros H; inversion H; discriminate.
Qed.

Lemma round0_raises (f : pyfloat) (e : exn) :
  PyFloat.round0 f = Raise e -> e <> ZeroDivisionError.
Proof.
  destruct f as [| | | s m x]; simpl; intros H; try (inversion H; discriminate).
  destruct (PyFloat.exact s m x). discriminate H.
Qed.

Lemma amenities_of_raises (hotel_data : json) (e : exn) :
  amenities_of hotel_data = Raise e -> e <> ZeroDivisionError.
Proof.
  unfold amenities_of.
  destruct (dict_get hotel_data "amenities" (JArr [])) as [raw | e1] eqn:H1;
    cbn [res_bind]; [| intros H; inversion H; subst; exact (dict_get_raises _ _ _ _ H1)].
  destruct (iterate raw) as [items | e2] eqn:H2; cbn [res_bind].
  - assert (Hmap : forall l e', res_map_list amenity_name l = Raise e' ->
                                e' <> ZeroDivisionError).
    { induction l as [| a l IH]; simpl; intros e' H; [discriminate H |].
      destruct (amenity_name a) as [n |] eqn:Ha; cbn [res_bind] in H.
      - destruct (res_map_list amenity_name l) as [ns |] eqn:Hl; cbn [res_bind] in H;
          [discriminate H | inversion H; subst; apply IH; reflexivity].
      - inversion H; subst. unfold amenity_name in Ha.
        destruct a; simpl in Ha; inversion Ha; discriminate. }
    destruct (res_map_list amenity_name items) as [ns | e3] eqn:H3; cbn [res_bind];
      [discriminate | intros H; inversion H; subst; exact (Hmap _ _ H3)].
  - intros H. inversion H; subst. destruct raw; simpl in H2; inversion H2; discriminate.
Qed.

Lemma is_empty_raises (v : json) (e : exn) :
  is_empty v = Raise e -> e <> ZeroDivisionError.
Proof.
  unfold is_empty. destruct (truthy v); [| discriminate].
  destruct v; simpl; intros H; inversion H; discriminate.
Qed.

Lemma parse_hotel_offer_raises (destination : string) (nights : Z) (found : json) :
  0 < nights < 9007199254740992 ->
  parse_hotel_offer destination nights found <> Raise ZeroDivisionError.
Proof.
  intros Hn. unfold parse_hotel_offer. intros H.
  repeat match type of H with
         | res_bind ?r _ = Raise ZeroDivisionError =>
             let E := fresh "E" in
             destruct r as [? | ?] eqn:E; cbn [res_bind] in H;
             [| inversion H; subst;
                first [ exact (get_first_raises _ _ E eq_refl)
                      | exact (get_item_raises _ _ _ E eq_refl)
                      | exact (dict_get_raises _ _ _ _ E eq_refl)
                      | exact (rating_of_raises _ _ E eq_refl)
                      | exact (py_float_raises _ _ E eq_refl)
                      | exact (amenities_of_raises _ _ E eq_refl)
                      | exact (round0_raises _ _ E eq_refl)
                      | (rewrite div_int_positive in E by exact Hn; discriminate E) ]]
         end.
  discriminate H.
Qed.

(** X19.  For a check-in date before the check-out date (day numbers of the
    calendar, 1 to 3652059), once the offers request for a hotel is
    answered, the body of the per-hotel [try] never raises
    [ZeroDivisionError]: no hotel is dropped because of the division of line
    285.  A hotel it returns has as [price] the total of the answer divided
    by [check_out_date - check_in_date] and rounded. *)
Theorem positive_stay_never_divides_by_zero
    (E : env) (destination : string) (check_in_date check_out_date num_travelers : Z)
    (hotel_id : json) (w : world) (offers_data : json) :
  1 <= check_in_date ->
  check_in_date < check_out_date ->
  check_out_date <= 3652059 ->
  upstream E (List.length (requests w)) = Ok offers_data ->
  fst (fetch_hotel E destination check_in_date check_out_date num_travelers hotel_id w) <>
    Raise ZeroDivisionError /\
  forall h w',
    fetch_hotel E destination check_in_date check_out_date num_travelers hotel_id w =
      (Ok (Some h), w') ->
    exists total total_f,
      answer_total offers_data = Ok total /\
      py_float total = Ok total_f /\
      PyFloat.round0
        (SFdiv prec emax total_f (PyFloat.of_Z (check_out_date - check_in_date))) =
        Ok (price h).
Proof.
  intros Hmin Hguard Hmax Hup.
  assert (Hn : 0 < check_out_date - check_in_date < 9007199254740992) by lia.
  unfold fetch_hotel, bind, http, lift, ret. rewrite Hup.
  destruct (dict_get offers_data "data" JNull) as [found | e] eqn:Hd.
  - destruct (is_empty found) as [[|] | e] eqn:He.
    + split; [discriminate | intros h w' H; discriminate H].
    + destruct (parse_hotel_offer destination (check_out_date - check_in_date) found)
        as [h0 | e] eqn:Hp.
      * split; [discriminate |]. intros h w' H.
        assert (Hh : h0 = h) by congruence. subst h0. clear H.
        destruct (parse_hotel_offer_inv _ _ _ _ Hp)
          as (first & hotel_data & offers & offer & rating_raw & r & price_obj & total &
              total_f & per_night & ams & H1 & H2 & H3 & H4 & H5 & H6 & H7 & H8 & H9 &
              H10 & H11 & H12 & H13 & H14 & H15).
        apply div_int_value in H10. subst per_night.
        exists total, total_f. split; [| split; assumption].
        unfold answer_total. rewrite (dict_get_present _ _ _ Hd He). cbn [res_bind].
        rewrite H1. cbn [res_bind]. rewrite H3. cbn [res_bind].
        rewrite H4. cbn [res_bind]. rewrite H7. cbn [res_bind]. exact H8.
      * split; [| intros h w' H; discriminate H].
        cbn [fst]. intros H. inversion H; subst e.
        exact (parse_hotel_offer_raises destination _ found Hn Hp).
    + split; [| intros h w' H; discriminate H].
      cbn [fst]. intros H. inversion H; subst e. exact (is_empty_raises _ _ He eq_refl).
  - split; [| intros h w' H; discriminate H].
    cbn [fst]. intros H. inversion H; subst e. exact (dict_get_raises _ _ _ _ Hd eq_refl).
Qed.

Lemma positive_stay_never_divides_by_zero_witness :
  1 <= 739000 /\ 739000 < 739003 /\ 739003 <= 3652059 /\
  fetch_hotel (scripted [sample_offers (JStr "4") (JStr "300.00") []])
              "Paris" 739000 739003 2 (JStr "HLPAR001") init =
    (Ok (Some (sample_hotel (PyFloat.of_Z 4) 100 300 ["Wi-Fi"; "Breakfast"])),
     World JNull None [HotelOffersRequest (JStr "HLPAR001") 2 739000 739003] 0 0) /\
  fst (fetch_hotel (scripted [sample_offers (JStr "4") (JStr "300.00") []])
                   "Paris" 739000 739003 2 (JStr "HLPAR001") init) <>
    Raise ZeroDivisionError /\
  forall h w',
    fetch_hotel (scripted [sample_offers (JStr "4") (JStr "300.00") []])
                "Paris" 739000 739003 2 (JStr "HLPAR001") init = (Ok (Some h), w') ->
    exists total total_f,
      answer_total (JObj [("data", sample_offers_body (JStr "4") (JStr "300.00") [])]) =
        Ok total /\
      py_float total = Ok total_f /\
      PyFloat.round0 (SFdiv prec emax total_f (PyFloat.of_Z (739003 - 739000))) =
        Ok (price h).
Proof.
  split; [lia |]. split; [lia |]. split; [lia |].
  split; [vm_compute; reflexivity |].
  apply (positive_stay_never_divides_by_zero
           (scripted [sample_offers (JStr "4") (JStr "300.00") []])
           "Paris" 739000 739003 2 (JStr "HLPAR001") init
           (JObj [("data", sample_offers_body (JStr "4") (JStr "300.00") [])])).
  - lia.
  - lia.
  - lia.
  - reflexivity.
Defined.
